(** * CookShare (RecetasAPI): the route handlers and the relational schema

    The repository is an Express application: every route handler reads a
    few fields of the request, may refuse the request on a falsy field, sends
    one or two parameterised statements to a MySQL pool and turns the outcome
    into an HTTP status and a JSON body.

    The development has three layers.
    - The JavaScript values the handlers touch, their truthiness, requests
      and responses.
    - The handlers of [src/routes/*.js], written over an abstract
      environment (the pool of [db.js] and [bcrypt]), so that what they do
      with the outcome of a statement is stated for every engine.
    - The tables, keys, cascades and checks of [schema.sql] as an executable
      store, which instantiates the environment.

    The statements about the routes follow, one section for each. *)

From Stdlib Require Import ZArith List String Ascii Bool Lia DecimalString.
From Stdlib Require Import Sorted Permutation.
Import ListNotations.
Open Scope string_scope.
Open Scope Z_scope.

(* ===================================================================== *)
(** * JavaScript values *)
(* ===================================================================== *)

(** The values that travel through the handlers: what [express.json()] reads
    from a body (numbers are the integers; arrays and nested objects never
    occur as field values in this API and are left out), [undefined] for a
    property that is absent, and the [Date] the driver builds for a DATETIME
    cell. *)
Inductive jsval : Type :=
| JUndefined
| JNull
| JBool (b : bool)
| JNum (n : Z)
| JStr (s : string)
| JDate (t : Z).

(** A JavaScript object used as a record: keys in insertion order. *)
Definition obj : Type := list (string * jsval).

(** [o[k]]: the value of property [k], [undefined] when [o] has none. *)
Fixpoint prop (o : obj) (k : string) : jsval :=
  match o with
  | [] => JUndefined
  | (k', v) :: o' => if String.eqb k k' then v else prop o' k
  end.

(** [o[k] = v] on an object literal under construction: an existing key keeps
    its place, a new key goes last. *)
Fixpoint set_prop (o : obj) (k : string) (v : jsval) : obj :=
  match o with
  | [] => [(k, v)]
  | (k', v') :: o' =>
      if String.eqb k k' then (k, v) :: o' else (k', v') :: set_prop o' k v
  end.

(** [{ ...base, ...o }]. *)
Definition spread (base o : obj) : obj :=
  fold_left (fun acc kv => set_prop acc (fst kv) (snd kv)) o base.

(** ToBoolean, as [!x] and [if (x)] use it. *)
Definition truthy (v : jsval) : bool :=
  match v with
  | JUndefined | JNull => false
  | JBool b => b
  | JNum n => negb (n =? 0)
  | JStr s => negb (String.eqb s "")
  | JDate _ => true
  end.

Definition is_undefined (v : jsval) : bool :=
  match v with JUndefined => true | _ => false end.

(** [JSON.stringify] drops the properties whose value is [undefined]. *)
Definition stringify_obj (o : obj) : obj :=
  filter (fun kv => negb (is_undefined (snd kv))) o.

(* ===================================================================== *)
(** * Requests and responses *)
(* ===================================================================== *)

(** [req.params] and [req.body].  The routes use their path parameter as a
    row identifier only ([:id], [:id_receta], ...), declared [type: integer]
    in the Swagger blocks: [id] is the integer the path segment spells.
    [termino] is the path segment of [/buscar/:termino]. *)
Record request : Type := {
  id : Z;
  termino : string;
  body : obj
}.

(** What [res.json(x)] sends: an object or an array of rows. *)
Inductive payload : Type :=
| Obj (o : obj)
| Arr (rows : list obj).

Record response : Type := {
  status : Z;
  json : payload
}.

(** [res.status(code).json(o)] and [res.json(x)] (status 200). *)
Definition res_json (code : Z) (o : obj) : response :=
  {| status := code; json := Obj (stringify_obj o) |}.

Definition res_rows (rows : list obj) : response :=
  {| status := 200; json := Arr (map stringify_obj rows) |}.

(* ===================================================================== *)
(** * Statements sent to the pool *)
(* ===================================================================== *)

(** One constructor per SQL text of the handlers, carrying the values of its
    [?] placeholders in order.  Queries that return rows: *)
Inductive select_stmt : Type :=
| SelUsuarios
    (* SELECT id_usuario, nombre, email, tipo_usuario, fecha_registro FROM Usuarios *)
| SelUsuarioPorEmail (email : jsval)
    (* SELECT * FROM Usuarios WHERE email = ? *)
| SelCategorias
    (* SELECT * FROM Categorias *)
| SelCategoria (id_categoria : Z)
    (* SELECT * FROM Categorias WHERE id_categoria = ? *)
| SelRecetas
    (* SELECT r.id_receta, ..., c.nombre AS categoria, u.nombre AS autor
       FROM Recetas r JOIN Categorias c ... JOIN Usuarios u ... *)
| SelReceta (id_receta : Z)
    (* ... WHERE r.id_receta = ? *)
| SelBuscar (titulo_like nombre_like : string)
    (* SELECT DISTINCT ... LEFT JOIN Receta_Ingrediente ri ... LEFT JOIN
       Ingredientes i ... WHERE r.titulo LIKE ? OR i.nombre LIKE ? *)
| SelIngredientes
    (* SELECT * FROM Ingredientes *)
| SelIngrediente (id_ingrediente : Z)
    (* SELECT * FROM Ingredientes WHERE id_ingrediente = ? *)
| SelPasosReceta (id_receta : Z)
    (* SELECT * FROM Pasos WHERE id_receta = ? ORDER BY numero_paso *)
| SelPaso (id_paso : Z)
    (* SELECT * FROM Pasos WHERE id_paso = ? *)
| SelValoracionesReceta (id_receta : Z)
    (* SELECT v.*, u.nombre as nombre_usuario FROM Valoraciones v JOIN
       Usuarios u ... WHERE v.id_receta = ? ORDER BY v.fecha_valoracion DESC *)
| SelValoracion (id_valoracion : Z)
    (* SELECT * FROM Valoraciones WHERE id_valoracion = ? *)
| SelSuscripciones
    (* SELECT * FROM Suscripciones *)
| SelSuscripcionesUsuario (id_usuario : Z)
    (* SELECT * FROM Suscripciones WHERE id_usuario = ? *)
| SelSuscripcion (id_suscripcion : Z).
    (* SELECT * FROM Suscripciones WHERE id_suscripcion = ? *)

(** Statements that write. *)
Inductive write_stmt : Type :=
| InsUsuario (nombre email contrasena tipo_usuario : jsval)
    (* INSERT INTO Usuarios (nombre, email, contrasena, tipo_usuario) VALUES (?, ?, ?, ?) *)
| UpdUsuarioContrasena (nombre email tipo_usuario contrasena : jsval) (id_usuario : Z)
    (* UPDATE Usuarios SET nombre = ?, email = ?, tipo_usuario = ?, contrasena = ? WHERE id_usuario = ? *)
| UpdUsuario (nombre email tipo_usuario : jsval) (id_usuario : Z)
    (* UPDATE Usuarios SET nombre = ?, email = ?, tipo_usuario = ? WHERE id_usuario = ? *)
| DelUsuario (id_usuario : Z)
    (* DELETE FROM Usuarios WHERE id_usuario = ? *)
| InsSesion (id_usuario : jsval)
    (* INSERT INTO Sesiones (id_usuario) VALUES (?) *)
| UpdSesionCierre (id_sesion : jsval)
    (* UPDATE Sesiones SET fecha_cierre = NOW() WHERE id_sesion = ? AND fecha_cierre IS NULL *)
| InsCategoria (nombre : jsval)
    (* INSERT INTO Categorias (nombre) VALUES (?) *)
| UpdCategoria (nombre : jsval) (id_categoria : Z)
    (* UPDATE Categorias SET nombre=? WHERE id_categoria=? *)
| DelCategoria (id_categoria : Z)
    (* DELETE FROM Categorias WHERE id_categoria=? *)
| InsReceta (titulo descripcion tiempo_preparacion costo es_publica es_premium
             categoria_id autor_id : jsval)
    (* INSERT INTO Recetas (titulo, descripcion, tiempo_preparacion, costo,
       es_publica, es_premium, categoria_id, autor_id) VALUES (?, ?, ?, ?, ?, ?, ?, ?) *)
| UpdReceta (titulo descripcion tiempo_preparacion costo es_publica es_premium
             categoria_id autor_id : jsval) (id_receta : Z)
    (* UPDATE Recetas SET titulo=?, descripcion=?, tiempo_preparacion=?, costo=?,
       es_publica=?, es_premium=?, categoria_id=?, autor_id=? WHERE id_receta=? *)
| DelReceta (id_receta : Z)
    (* DELETE FROM Recetas WHERE id_receta=? *)
| InsIngrediente (nombre unidad_medida : jsval)
    (* INSERT INTO Ingredientes (nombre, unidad_medida) VALUES (?, ?) *)
| UpdIngrediente (nombre unidad_medida : jsval) (id_ingrediente : Z)
    (* UPDATE Ingredientes SET nombre=?, unidad_medida=? WHERE id_ingrediente=? *)
| DelIngrediente (id_ingrediente : Z)
    (* DELETE FROM Ingredientes WHERE id_ingrediente=? *)
| InsPaso (id_receta numero_paso descripcion : jsval)
    (* INSERT INTO Pasos (id_receta, numero_paso, descripcion) VALUES (?, ?, ?) *)
| UpdPaso (numero_paso descripcion : jsval) (id_paso : Z)
    (* UPDATE Pasos SET numero_paso=?, descripcion=? WHERE id_paso=? *)
| DelPaso (id_paso : Z)
    (* DELETE FROM Pasos WHERE id_paso=? *)
| InsValoracion (id_receta id_usuario puntuacion comentario : jsval)
    (* INSERT INTO Valoraciones (id_receta, id_usuario, puntuacion, comentario) VALUES (?, ?, ?, ?) *)
| UpdValoracion (puntuacion comentario : jsval) (id_valoracion : Z)
    (* UPDATE Valoraciones SET puntuacion=?, comentario=? WHERE id_valoracion=? *)
| DelValoracion (id_valoracion : Z)
    (* DELETE FROM Valoraciones WHERE id_valoracion=? *)
| InsSuscripcion (id_usuario fecha_fin monto : jsval)
    (* INSERT INTO Suscripciones (id_usuario, fecha_fin, monto) VALUES (?, ?, ?) *)
| UpdSuscripcion (fecha_fin monto : jsval) (id_suscripcion : Z)
    (* UPDATE Suscripciones SET fecha_fin=?, monto=? WHERE id_suscripcion=? *)
| DelSuscripcion (id_suscripcion : Z).
    (* DELETE FROM Suscripciones WHERE id_suscripcion=? *)

(** The [ResultSetHeader] the driver returns for a write. *)
Record header : Type := {
  insertId : Z;
  affectedRows : Z
}.

(** The two modules the handlers import, [../db.js] (the pool) and [bcrypt].
    A promise that rejects with [new Error(msg)] is [inl msg].  [S] is the
    state of the storage engine. *)
Record Env (S : Type) : Type := {
  db_select : select_stmt -> S -> (string + list obj) * S;
  db_write : write_stmt -> S -> (string + header) * S;
  bcrypt_hash : jsval -> Z -> string + string;
  bcrypt_compare : jsval -> jsval -> string + bool
}.
Arguments db_select {S}.
Arguments db_write {S}.
Arguments bcrypt_hash {S}.
Arguments bcrypt_compare {S}.

(* ===================================================================== *)
(** * The route handlers *)
(* ===================================================================== *)

(** The body of a [try] block: it runs against the engine state and either
    completes with a value or throws an [Error] with a message. *)
Definition M (S A : Type) : Type := S -> (string + A) * S.

Definition ret {S A} (a : A) : M S A := fun s => (inr a, s).

Definition bind {S A B} (m : M S A) (k : A -> M S B) : M S B :=
  fun s =>
    match m s with
    | (inl msg, s') => (inl msg, s')
    | (inr a, s') => k a s'
    end.

(** [await p] for a promise that touches no engine state. *)
Definition await {S A} (p : string + A) : M S A := fun s => (p, s).

Declare Scope route_scope.
Delimit Scope route_scope with route.
Notation "x <- m ;; k" := (bind m (fun x => k))
  (at level 61, m at next level, right associativity) : route_scope.

(** A handler takes the request and runs to the response it sends. *)
Definition handler (S : Type) : Type := request -> S -> response * S.

(** [res.status(500).json({ error: err.message })], the [catch] block that
    every handler of the repository has. *)
Definition res_error (msg : string) : response :=
  res_json 500 [("error", JStr msg)].

(** [try { ... } catch (err) { res.status(500).json({ error: err.message }) }] *)
Definition try_catch {S} (m : M S response) : S -> response * S :=
  fun s =>
    match m s with
    | (inr r, s') => (r, s')
    | (inl msg, s') => (res_error msg, s')
    end.

(** A [return res.status(..).json(..)] placed before the [try]. *)
Definition reply {S} (r : response) : S -> response * S := fun s => (r, s).

(** [results.length === 0 ? 404 : results[0]] of the get-by-id routes. *)
Definition first_or_404 (results : list obj) (mensaje : string) : response :=
  match results with
  | [] => res_json 404 [("mensaje", JStr mensaje)]
  | r :: _ => res_json 200 r
  end.

Section Routes.
Context {S : Type} (E : Env S).
Local Open Scope route_scope.

(** ** usuarios.js *)

Definition saltRounds : Z := 10.

Definition usuarios_get : handler S := fun req =>
  try_catch (
    results <- db_select E SelUsuarios ;;
    ret (res_rows results)).

Definition usuarios_post : handler S := fun req =>
  let nombre := prop (body req) "nombre" in
  let email := prop (body req) "email" in
  let contrasena := prop (body req) "contrasena" in
  let tipo_usuario := prop (body req) "tipo_usuario" in
  try_catch (
    hash <- await (bcrypt_hash E contrasena saltRounds) ;;
    result <- db_write E (InsUsuario nombre email (JStr hash) tipo_usuario) ;;
    ret (res_json 201 [("id", JNum (insertId result)); ("nombre", nombre);
                       ("email", email); ("tipo_usuario", tipo_usuario)])).

Definition usuarios_put : handler S := fun req =>
  let nombre := prop (body req) "nombre" in
  let email := prop (body req) "email" in
  let tipo_usuario := prop (body req) "tipo_usuario" in
  let contrasena := prop (body req) "contrasena" in
  try_catch (
    _ <- (if truthy contrasena then
            hash <- await (bcrypt_hash E contrasena saltRounds) ;;
            db_write E (UpdUsuarioContrasena nombre email tipo_usuario (JStr hash) (id req))
          else
            db_write E (UpdUsuario nombre email tipo_usuario (id req))) ;;
    ret (res_json 200 [("message", JStr "Usuario actualizado correctamente")])).

Definition usuarios_delete : handler S := fun req =>
  try_catch (
    _ <- db_write E (DelUsuario (id req)) ;;
    ret (res_json 200 [("message", JStr "Usuario eliminado correctamente")])).

(** ** sesiones.js *)

Definition sesiones_login : handler S := fun req =>
  let email := prop (body req) "email" in
  let contrasena := prop (body req) "contrasena" in
  if negb (truthy email) || negb (truthy contrasena) then
    reply (res_json 400 [("error", JStr "El email y la contraseña son requeridos")])
  else
    try_catch (
      users <- db_select E (SelUsuarioPorEmail email) ;;
      match users with
      | [] => ret (res_json 401 [("error", JStr "Credenciales inválidas")])
      | user :: _ =>
          match_ <- await (bcrypt_compare E contrasena (prop user "contrasena")) ;;
          if negb match_ then
            ret (res_json 401 [("error", JStr "Credenciales inválidas")])
          else
            result <- db_write E (InsSesion (prop user "id_usuario")) ;;
            ret (res_json 201 [("id_sesion", JNum (insertId result));
                               ("id_usuario", prop user "id_usuario");
                               ("mensaje", JStr "Sesión iniciada")])
      end).

Definition sesiones_logout : handler S := fun req =>
  let id_sesion := prop (body req) "id_sesion" in
  if negb (truthy id_sesion) then
    reply (res_json 400 [("error", JStr "El id_sesion es requerido")])
  else
    try_catch (
      result <- db_write E (UpdSesionCierre id_sesion) ;;
      if affectedRows result =? 0 then
        ret (res_json 404 [("mensaje", JStr "La sesión no existe o ya estaba cerrada")])
      else
        ret (res_json 200 [("mensaje", JStr "Sesión cerrada correctamente")])).

(** ** categorias.js *)

Definition categorias_get : handler S := fun req =>
  try_catch (
    results <- db_select E SelCategorias ;;
    ret (res_rows results)).

Definition categorias_get_id : handler S := fun req =>
  try_catch (
    results <- db_select E (SelCategoria (id req)) ;;
    ret (first_or_404 results "Categoría no encontrada")).

Definition categorias_post : handler S := fun req =>
  let nombre := prop (body req) "nombre" in
  if negb (truthy nombre) then
    reply (res_json 400 [("error", JStr "El nombre es requerido")])
  else
    try_catch (
      result <- db_write E (InsCategoria nombre) ;;
      ret (res_json 201 [("id", JNum (insertId result)); ("nombre", nombre)])).

Definition categorias_put : handler S := fun req =>
  let nombre := prop (body req) "nombre" in
  if negb (truthy nombre) then
    reply (res_json 400 [("error", JStr "El nombre es requerido")])
  else
    try_catch (
      _ <- db_write E (UpdCategoria nombre (id req)) ;;
      ret (res_json 200 [("mensaje", JStr "Categoría actualizada correctamente")])).

Definition categorias_delete : handler S := fun req =>
  try_catch (
    _ <- db_write E (DelCategoria (id req)) ;;
    ret (res_json 200 [("mensaje", JStr "Categoría eliminada correctamente")])).

(** ** recetas.js *)

Definition recetas_get : handler S := fun req =>
  try_catch (
    results <- db_select E SelRecetas ;;
    ret (res_rows results)).

Definition recetas_get_id : handler S := fun req =>
  try_catch (
    results <- db_select E (SelReceta (id req)) ;;
    ret (first_or_404 results "Receta no encontrada")).

Definition recetas_buscar : handler S := fun req =>
  try_catch (
    let searchTerm := "%" ++ termino req ++ "%" in
    results <- db_select E (SelBuscar searchTerm searchTerm) ;;
    ret (res_rows results)).

Definition recetas_post : handler S := fun req =>
  let f := prop (body req) in
  try_catch (
    result <- db_write E (InsReceta (f "titulo") (f "descripcion")
                            (f "tiempo_preparacion") (f "costo") (f "es_publica")
                            (f "es_premium") (f "categoria_id") (f "autor_id")) ;;
    ret (res_json 201 (spread [("id_receta", JNum (insertId result))] (body req)))).

Definition recetas_put : handler S := fun req =>
  let f := prop (body req) in
  try_catch (
    _ <- db_write E (UpdReceta (f "titulo") (f "descripcion")
                       (f "tiempo_preparacion") (f "costo") (f "es_publica")
                       (f "es_premium") (f "categoria_id") (f "autor_id") (id req)) ;;
    ret (res_json 200 [("mensaje", JStr "Receta actualizada correctamente")])).

Definition recetas_delete : handler S := fun req =>
  try_catch (
    _ <- db_write E (DelReceta (id req)) ;;
    ret (res_json 200 [("mensaje", JStr "Receta eliminada correctamente")])).

(** ** pasos.js *)

Definition pasos_get_receta : handler S := fun req =>
  try_catch (
    results <- db_select E (SelPasosReceta (id req)) ;;
    ret (res_rows results)).

Definition pasos_get_id : handler S := fun req =>
  try_catch (
    results <- db_select E (SelPaso (id req)) ;;
    ret (first_or_404 results "Paso no encontrado")).

Definition pasos_post : handler S := fun req =>
  let id_receta := prop (body req) "id_receta" in
  let numero_paso := prop (body req) "numero_paso" in
  let descripcion := prop (body req) "descripcion" in
  if negb (truthy id_receta) || negb (truthy numero_paso) || negb (truthy descripcion) then
    reply (res_json 400 [("error", JStr "id_receta, numero_paso y descripcion son requeridos")])
  else
    try_catch (
      result <- db_write E (InsPaso id_receta numero_paso descripcion) ;;
      ret (res_json 201 (spread [("id", JNum (insertId result))] (body req)))).

Definition pasos_put : handler S := fun req =>
  let numero_paso := prop (body req) "numero_paso" in
  let descripcion := prop (body req) "descripcion" in
  if negb (truthy numero_paso) || negb (truthy descripcion) then
    reply (res_json 400 [("error", JStr "numero_paso y descripcion son requeridos")])
  else
    try_catch (
      _ <- db_write E (UpdPaso numero_paso descripcion (id req)) ;;
      ret (res_json 200 [("mensaje", JStr "Paso actualizado correctamente")])).

Definition pasos_delete : handler S := fun req =>
  try_catch (
    _ <- db_write E (DelPaso (id req)) ;;
    ret (res_json 200 [("mensaje", JStr "Paso eliminado correctamente")])).

(** ** ingredientes.js *)

Definition ingredientes_get : handler S := fun req =>
  try_catch (
    results <- db_select E SelIngredientes ;;
    ret (res_rows results)).

Definition ingredientes_get_id : handler S := fun req =>
  try_catch (
    results <- db_select E (SelIngrediente (id req)) ;;
    ret (first_or_404 results "Ingrediente no encontrado")).

Definition ingredientes_post : handler S := fun req =>
  let nombre := prop (body req) "nombre" in
  let unidad_medida := prop (body req) "unidad_medida" in
  if negb (truthy nombre) then
    reply (res_json 400 [("error", JStr "El nombre es requerido")])
  else
    try_catch (
      result <- db_write E (InsIngrediente nombre unidad_medida) ;;
      ret (res_json 201 [("id", JNum (insertId result)); ("nombre", nombre);
                         ("unidad_medida", unidad_medida)])).

Definition ingredientes_put : handler S := fun req =>
  let nombre := prop (body req) "nombre" in
  let unidad_medida := prop (body req) "unidad_medida" in
  if negb (truthy nombre) then
    reply (res_json 400 [("error", JStr "El nombre es requerido")])
  else
    try_catch (
      _ <- db_write E (UpdIngrediente nombre unidad_medida (id req)) ;;
      ret (res_json 200 [("mensaje", JStr "Ingrediente actualizado correctamente")])).

Definition ingredientes_delete : handler S := fun req =>
  try_catch (
    _ <- db_write E (DelIngrediente (id req)) ;;
    ret (res_json 200 [("mensaje", JStr "Ingrediente eliminado correctamente")])).

(** ** valoraciones.js *)

Definition valoraciones_get_receta : handler S := fun req =>
  try_catch (
    results <- db_select E (SelValoracionesReceta (id req)) ;;
    ret (res_rows results)).

Definition valoraciones_get_id : handler S := fun req =>
  try_catch (
    results <- db_select E (SelValoracion (id req)) ;;
    ret (first_or_404 results "Valoración no encontrada")).

Definition valoraciones_post : handler S := fun req =>
  let id_receta := prop (body req) "id_receta" in
  let id_usuario := prop (body req) "id_usuario" in
  let puntuacion := prop (body req) "puntuacion" in
  let comentario := prop (body req) "comentario" in
  if negb (truthy id_receta) || negb (truthy id_usuario) || negb (truthy puntuacion) then
    reply (res_json 400 [("error", JStr "id_receta, id_usuario y puntuacion son requeridos")])
  else
    try_catch (
      result <- db_write E (InsValoracion id_receta id_usuario puntuacion comentario) ;;
      ret (res_json 201 (spread [("id", JNum (insertId result))] (body req)))).

Definition valoraciones_put : handler S := fun req =>
  let puntuacion := prop (body req) "puntuacion" in
  let comentario := prop (body req) "comentario" in
  if negb (truthy puntuacion) then
    reply (res_json 400 [("error", JStr "La puntuacion es requerida")])
  else
    try_catch (
      _ <- db_write E (UpdValoracion puntuacion comentario (id req)) ;;
      ret (res_json 200 [("mensaje", JStr "Valoración actualizada correctamente")])).

Definition valoraciones_delete : handler S := fun req =>
  try_catch (
    _ <- db_write E (DelValoracion (id req)) ;;
    ret (res_json 200 [("mensaje", JStr "Valoración eliminada correctamente")])).

(** ** suscripciones.js *)

Definition suscripciones_get : handler S := fun req =>
  try_catch (
    results <- db_select E SelSuscripciones ;;
    ret (res_rows results)).

Definition suscripciones_get_usuario : handler S := fun req =>
  try_catch (
    results <- db_select E (SelSuscripcionesUsuario (id req)) ;;
    ret (res_rows results)).

Definition suscripciones_get_id : handler S := fun req =>
  try_catch (
    results <- db_select E (SelSuscripcion (id req)) ;;
    ret (first_or_404 results "Suscripción no encontrada")).

Definition suscripciones_post : handler S := fun req =>
  let id_usuario := prop (body req) "id_usuario" in
  let fecha_fin := prop (body req) "fecha_fin" in
  let monto := prop (body req) "monto" in
  if negb (truthy id_usuario) || negb (truthy fecha_fin) || negb (truthy monto) then
    reply (res_json 400 [("error", JStr "id_usuario, fecha_fin y monto son requeridos")])
  else
    try_catch (
      result <- db_write E (InsSuscripcion id_usuario fecha_fin monto) ;;
      ret (res_json 201 (spread [("id", JNum (insertId result))] (body req)))).

Definition suscripciones_put : handler S := fun req =>
  let fecha_fin := prop (body req) "fecha_fin" in
  let monto := prop (body req) "monto" in
  if negb (truthy fecha_fin) || negb (truthy monto) then
    reply (res_json 400 [("error", JStr "fecha_fin y monto son requeridos")])
  else
    try_catch (
      _ <- db_write E (UpdSuscripcion fecha_fin monto (id req)) ;;
      ret (res_json 200 [("mensaje", JStr "Suscripción actualizada correctamente")])).

Definition suscripciones_delete : handler S := fun req =>
  try_catch (
    _ <- db_write E (DelSuscripcion (id req)) ;;
    ret (res_json 200 [("mensaje", JStr "Suscripción eliminada correctamente")])).

(** Every route the application mounts ([app.use("/api/...", ...)]). *)
Definition routes : list (string * handler S) :=
  [ ("GET /api/usuarios", usuarios_get);
    ("POST /api/usuarios", usuarios_post);
    ("PUT /api/usuarios/:id", usuarios_put);
    ("DELETE /api/usuarios/:id", usuarios_delete);
    ("POST /api/sesiones/login", sesiones_login);
    ("POST /api/sesiones/logout", sesiones_logout);
    ("GET /api/categorias", categorias_get);
    ("GET /api/categorias/:id", categorias_get_id);
    ("POST /api/categorias", categorias_post);
    ("PUT /api/categorias/:id", categorias_put);
    ("DELETE /api/categorias/:id", categorias_delete);
    ("GET /api/recetas", recetas_get);
    ("GET /api/recetas/:id", recetas_get_id);
    ("GET /api/recetas/buscar/:termino", recetas_buscar);
    ("POST /api/recetas", recetas_post);
    ("PUT /api/recetas/:id", recetas_put);
    ("DELETE /api/recetas/:id", recetas_delete);
    ("GET /api/pasos/receta/:id_receta", pasos_get_receta);
    ("GET /api/pasos/:id_paso", pasos_get_id);
    ("POST /api/pasos", pasos_post);
    ("PUT /api/pasos/:id_paso", pasos_put);
    ("DELETE /api/pasos/:id_paso", pasos_delete);
    ("GET /api/ingredientes", ingredientes_get);
    ("GET /api/ingredientes/:id", ingredientes_get_id);
    ("POST /api/ingredientes", ingredientes_post);
    ("PUT /api/ingredientes/:id", ingredientes_put);
    ("DELETE /api/ingredientes/:id", ingredientes_delete);
    ("GET /api/valoraciones/receta/:id_receta", valoraciones_get_receta);
    ("GET /api/valoraciones/:id_valoracion", valoraciones_get_id);
    ("POST /api/valoraciones", valoraciones_post);
    ("PUT /api/valoraciones/:id_valoracion", valoraciones_put);
    ("DELETE /api/valoraciones/:id_valoracion", valoraciones_delete);
    ("GET /api/suscripciones", suscripciones_get);
    ("GET /api/suscripciones/usuario/:id_usuario", suscripciones_get_usuario);
    ("GET /api/suscripciones/:id_suscripcion", suscripciones_get_id);
    ("POST /api/suscripciones", suscripciones_post);
    ("PUT /api/suscripciones/:id_suscripcion", suscripciones_put);
    ("DELETE /api/suscripciones/:id_suscripcion", suscripciones_delete) ].

End Routes.

(* ===================================================================== *)
(** * The schema of [schema.sql] *)
(* ===================================================================== *)

(** A NULL-able cell is an [option]; a DATETIME is an instant (seconds);
    BOOLEAN is MySQL's TINYINT(1); a DECIMAL(6,2) cell holds hundredths. *)

Inductive tipo_usuario_t : Type := publico | premium.
Inductive rol_t : Type := colaborador | invitado.

Module Usuario.
Record t : Type := {
  id_usuario : Z;                         (* INT AUTO_INCREMENT PRIMARY KEY *)
  nombre : string;                        (* VARCHAR(100) NOT NULL *)
  email : string;                         (* VARCHAR(100) UNIQUE NOT NULL *)
  contrasena : string;                    (* VARCHAR(255) NOT NULL *)
  tipo_usuario : option tipo_usuario_t;   (* ENUM('publico','premium') DEFAULT 'publico' *)
  fecha_registro : option Z               (* DATETIME DEFAULT CURRENT_TIMESTAMP *)
}.
End Usuario.

Module Sesion.
Record t : Type := {
  id_sesion : Z;                          (* INT AUTO_INCREMENT PRIMARY KEY *)
  id_usuario : option Z;                  (* INT, FK Usuarios ON DELETE CASCADE *)
  fecha_inicio : option Z;                (* DATETIME DEFAULT CURRENT_TIMESTAMP *)
  fecha_cierre : option Z                 (* DATETIME DEFAULT NULL *)
}.
End Sesion.

Module Categoria.
Record t : Type := {
  id_categoria : Z;                       (* INT AUTO_INCREMENT PRIMARY KEY *)
  nombre : string                         (* VARCHAR(50) NOT NULL *)
}.
End Categoria.

Module Receta.
Record t : Type := {
  id_receta : Z;                          (* INT AUTO_INCREMENT PRIMARY KEY *)
  titulo : string;                        (* VARCHAR(150) NOT NULL *)
  descripcion : option string;            (* TEXT *)
  tiempo_preparacion : option Z;          (* INT *)
  costo : option Z;                       (* DECIMAL(6,2) DEFAULT NULL *)
  es_publica : option Z;                  (* BOOLEAN DEFAULT TRUE *)
  es_premium : option Z;                  (* BOOLEAN DEFAULT FALSE *)
  categoria_id : option Z;                (* INT, FK Categorias *)
  autor_id : option Z;                    (* INT, FK Usuarios *)
  fecha_creacion : option Z;              (* DATETIME DEFAULT CURRENT_TIMESTAMP *)
  fecha_modificacion : option Z           (* ... ON UPDATE CURRENT_TIMESTAMP *)
}.
End Receta.

Module AutorReceta.
Record t : Type := {
  id_receta : Z;                          (* PRIMARY KEY (id_receta, id_usuario) *)
  id_usuario : Z;                         (* both FK ... ON DELETE CASCADE *)
  rol : option rol_t;                     (* ENUM('colaborador','invitado') *)
  permiso_modificar : option Z;           (* BOOLEAN DEFAULT FALSE *)
  fecha_invitacion : option Z
}.
End AutorReceta.

Module Ingrediente.
Record t : Type := {
  id_ingrediente : Z;                     (* INT AUTO_INCREMENT PRIMARY KEY *)
  nombre : string;                        (* VARCHAR(100) NOT NULL *)
  unidad_medida : option string           (* VARCHAR(20) *)
}.
End Ingrediente.

Module RecetaIngrediente.
Record t : Type := {
  id_receta : Z;                          (* PRIMARY KEY (id_receta, id_ingrediente) *)
  id_ingrediente : Z;                     (* both FK ... ON DELETE CASCADE *)
  cantidad : option Z                     (* DECIMAL(6,2) *)
}.
End RecetaIngrediente.

Module Paso.
Record t : Type := {
  id_paso : Z;                            (* INT AUTO_INCREMENT PRIMARY KEY *)
  id_receta : option Z;                   (* INT, FK Recetas ON DELETE CASCADE *)
  numero_paso : option Z;                 (* INT *)
  descripcion : option string             (* TEXT *)
}.
End Paso.

Module Valoracion.
Record t : Type := {
  id_valoracion : Z;                      (* INT AUTO_INCREMENT PRIMARY KEY *)
  id_receta : option Z;                   (* INT, FK Recetas ON DELETE CASCADE *)
  id_usuario : option Z;                  (* INT, FK Usuarios ON DELETE CASCADE *)
  puntuacion : option Z;                  (* INT CHECK (puntuacion BETWEEN 1 AND 5) *)
  comentario : option string;             (* TEXT *)
  fecha_valoracion : option Z             (* DATETIME DEFAULT CURRENT_TIMESTAMP *)
}.
End Valoracion.

Module Suscripcion.
Record t : Type := {
  id_suscripcion : Z;                     (* INT AUTO_INCREMENT PRIMARY KEY *)
  id_usuario : option Z;                  (* INT, FK Usuarios ON DELETE CASCADE *)
  fecha_inicio : option Z;                (* DATETIME DEFAULT CURRENT_TIMESTAMP *)
  fecha_fin : option Z;                   (* DATETIME *)
  monto : option Z                        (* DECIMAL(6,2) *)
}.
End Suscripcion.

(** A table with an AUTO_INCREMENT key: its rows in insertion order and the
    next key the engine hands out. *)
Record table (A : Type) : Type := {
  rows : list A;
  auto_increment : Z
}.
Arguments rows {A}.
Arguments auto_increment {A}.

(** The state of the storage engine: the ten tables, the clock that [NOW()]
    and CURRENT_TIMESTAMP read, and the server's reading of a date-time
    literal ([None]: the literal is refused), which depends on the server and
    not on this repository. *)
Record Store : Type := {
  Usuarios : table Usuario.t;
  Sesiones : table Sesion.t;
  Categorias : table Categoria.t;
  Recetas : table Receta.t;
  Autores_Receta : list AutorReceta.t;
  Ingredientes : table Ingrediente.t;
  Receta_Ingrediente : list RecetaIngrediente.t;
  Pasos : table Paso.t;
  Valoraciones : table Valoracion.t;
  Suscripciones : table Suscripcion.t;
  now : Z;
  read_datetime : string -> option Z
}.

Definition set_Usuarios (x : table Usuario.t) (s : Store) : Store :=
  {| Usuarios := x; Sesiones := Sesiones s; Categorias := Categorias s;
     Recetas := Recetas s; Autores_Receta := Autores_Receta s;
     Ingredientes := Ingredientes s; Receta_Ingrediente := Receta_Ingrediente s;
     Pasos := Pasos s; Valoraciones := Valoraciones s;
     Suscripciones := Suscripciones s; now := now s;
     read_datetime := read_datetime s |}.

Definition set_Sesiones (x : table Sesion.t) (s : Store) : Store :=
  {| Usuarios := Usuarios s; Sesiones := x; Categorias := Categorias s;
     Recetas := Recetas s; Autores_Receta := Autores_Receta s;
     Ingredientes := Ingredientes s; Receta_Ingrediente := Receta_Ingrediente s;
     Pasos := Pasos s; Valoraciones := Valoraciones s;
     Suscripciones := Suscripciones s; now := now s;
     read_datetime := read_datetime s |}.

Definition set_Categorias (x : table Categoria.t) (s : Store) : Store :=
  {| Usuarios := Usuarios s; Sesiones := Sesiones s; Categorias := x;
     Recetas := Recetas s; Autores_Receta := Autores_Receta s;
     Ingredientes := Ingredientes s; Receta_Ingrediente := Receta_Ingrediente s;
     Pasos := Pasos s; Valoraciones := Valoraciones s;
     Suscripciones := Suscripciones s; now := now s;
     read_datetime := read_datetime s |}.

Definition set_Recetas (x : table Receta.t) (s : Store) : Store :=
  {| Usuarios := Usuarios s; Sesiones := Sesiones s; Categorias := Categorias s;
     Recetas := x; Autores_Receta := Autores_Receta s;
     Ingredientes := Ingredientes s; Receta_Ingrediente := Receta_Ingrediente s;
     Pasos := Pasos s; Valoraciones := Valoraciones s;
     Suscripciones := Suscripciones s; now := now s;
     read_datetime := read_datetime s |}.

Definition set_Autores_Receta (x : list AutorReceta.t) (s : Store) : Store :=
  {| Usuarios := Usuarios s; Sesiones := Sesiones s; Categorias := Categorias s;
     Recetas := Recetas s; Autores_Receta := x;
     Ingredientes := Ingredientes s; Receta_Ingrediente := Receta_Ingrediente s;
     Pasos := Pasos s; Valoraciones := Valoraciones s;
     Suscripciones := Suscripciones s; now := now s;
     read_datetime := read_datetime s |}.

Definition set_Ingredientes (x : table Ingrediente.t) (s : Store) : Store :=
  {| Usuarios := Usuarios s; Sesiones := Sesiones s; Categorias := Categorias s;
     Recetas := Recetas s; Autores_Receta := Autores_Receta s;
     Ingredientes := x; Receta_Ingrediente := Receta_Ingrediente s;
     Pasos := Pasos s; Valoraciones := Valoraciones s;
     Suscripciones := Suscripciones s; now := now s;
     read_datetime := read_datetime s |}.

Definition set_Receta_Ingrediente (x : list RecetaIngrediente.t) (s : Store) : Store :=
  {| Usuarios := Usuarios s; Sesiones := Sesiones s; Categorias := Categorias s;
     Recetas := Recetas s; Autores_Receta := Autores_Receta s;
     Ingredientes := Ingredientes s; Receta_Ingrediente := x;
     Pasos := Pasos s; Valoraciones := Valoraciones s;
     Suscripciones := Suscripciones s; now := now s;
     read_datetime := read_datetime s |}.

Definition set_Pasos (x : table Paso.t) (s : Store) : Store :=
  {| Usuarios := Usuarios s; Sesiones := Sesiones s; Categorias := Categorias s;
     Recetas := Recetas s; Autores_Receta := Autores_Receta s;
     Ingredientes := Ingredientes s; Receta_Ingrediente := Receta_Ingrediente s;
     Pasos := x; Valoraciones := Valoraciones s;
     Suscripciones := Suscripciones s; now := now s;
     read_datetime := read_datetime s |}.

Definition set_Valoraciones (x : table Valoracion.t) (s : Store) : Store :=
  {| Usuarios := Usuarios s; Sesiones := Sesiones s; Categorias := Categorias s;
     Recetas := Recetas s; Autores_Receta := Autores_Receta s;
     Ingredientes := Ingredientes s; Receta_Ingrediente := Receta_Ingrediente s;
     Pasos := Pasos s; Valoraciones := x;
     Suscripciones := Suscripciones s; now := now s;
     read_datetime := read_datetime s |}.

Definition set_Suscripciones (x : table Suscripcion.t) (s : Store) : Store :=
  {| Usuarios := Usuarios s; Sesiones := Sesiones s; Categorias := Categorias s;
     Recetas := Recetas s; Autores_Receta := Autores_Receta s;
     Ingredientes := Ingredientes s; Receta_Ingrediente := Receta_Ingrediente s;
     Pasos := Pasos s; Valoraciones := Valoraciones s;
     Suscripciones := x; now := now s;
     read_datetime := read_datetime s |}.

(** The clock moves between requests. *)
Definition set_now (t : Z) (s : Store) : Store :=
  {| Usuarios := Usuarios s; Sesiones := Sesiones s; Categorias := Categorias s;
     Recetas := Recetas s; Autores_Receta := Autores_Receta s;
     Ingredientes := Ingredientes s; Receta_Ingrediente := Receta_Ingrediente s;
     Pasos := Pasos s; Valoraciones := Valoraciones s;
     Suscripciones := Suscripciones s; now := t;
     read_datetime := read_datetime s |}.

(* ===================================================================== *)
(** * Text: collation, LIKE, lengths *)
(* ===================================================================== *)

(** The database is created with [COLLATE utf8mb4_unicode_ci]: text compares
    without regard to letter case.  Text is held as its UTF-8 bytes and the
    folding is the one of the ASCII letters; the collation's treatment of
    accents and of trailing spaces is not followed. *)
Definition fold_case (c : ascii) : ascii :=
  let n := nat_of_ascii c in
  if (65 <=? n)%nat && (n <=? 90)%nat then ascii_of_nat (n + 32) else c.

Definition ci_eqb (a b : ascii) : bool :=
  Ascii.eqb (fold_case a) (fold_case b).

Definition chars (s : string) : list ascii := list_ascii_of_string s.

(** [a = b] under the collation. *)
Fixpoint text_eqb_chars (a b : list ascii) : bool :=
  match a, b with
  | [], [] => true
  | x :: a', y :: b' => ci_eqb x y && text_eqb_chars a' b'
  | _, _ => false
  end.

Definition text_eqb (a b : string) : bool := text_eqb_chars (chars a) (chars b).

(** A byte [10xxxxxx] continues a UTF-8 character. *)
Definition continuation (c : ascii) : bool :=
  let n := nat_of_ascii c in (128 <=? n)%nat && (n <? 192)%nat.

Fixpoint skip_continuation (s : list ascii) : list ascii :=
  match s with
  | c :: s' => if continuation c then skip_continuation s' else s
  | [] => []
  end.

(** Characters of a text (what VARCHAR(n) bounds) and its bytes (what TEXT
    bounds). *)
Definition char_length (s : string) : Z :=
  Z.of_nat (List.length (filter (fun c => negb (continuation c)) (chars s))).

Definition byte_length (s : string) : Z := Z.of_nat (String.length s).

(** [s LIKE p]: [%] stands for any run of characters, [_] for one character,
    a backslash takes the next pattern character literally, every other
    pattern character matches under the collation. *)
Fixpoint like_chars (p s : list ascii) : bool :=
  match p with
  | [] => match s with [] => true | _ => false end
  | c :: p' =>
      if Ascii.eqb c "%" then
        (fix any (s : list ascii) : bool :=
           like_chars p' s || match s with [] => false | _ :: s' => any s' end) s
      else if Ascii.eqb c "_" then
        match s with
        | [] => false
        | _ :: s' => like_chars p' (skip_continuation s')
        end
      else if Ascii.eqb c "\" then
        match p' with
        | [] => match s with [b] => Ascii.eqb b "\" | _ => false end
        | e :: p'' =>
            match s with
            | b :: s' => ci_eqb e b && like_chars p'' s'
            | [] => false
            end
        end
      else
        match s with
        | b :: s' => ci_eqb c b && like_chars p' s'
        | [] => false
        end
  end.

Definition like (s p : string) : bool := like_chars (chars p) (chars s).






(* ===================================================================== *)
(** * Rows as the driver returns them *)
(* ===================================================================== *)

Definition js_int (c : option Z) : jsval :=
  match c with Some n => JNum n | None => JNull end.

Definition js_text (c : option string) : jsval :=
  match c with Some s => JStr s | None => JNull end.

Definition js_datetime (c : option Z) : jsval :=
  match c with Some t => JDate t | None => JNull end.

(** The driver hands a DECIMAL(6,2) cell, held in hundredths, over as its
    text. *)
Definition show_decimal (h : Z) : string :=
  (if h <? 0 then "-" else "")
  ++ NilZero.string_of_uint (N.to_uint (Z.to_N (Z.abs h / 100))) ++ "."
  ++ NilZero.string_of_uint (N.to_uint (Z.to_N (Z.abs h mod 100 / 10)))
  ++ NilZero.string_of_uint (N.to_uint (Z.to_N (Z.abs h mod 10))).

Definition js_decimal (c : option Z) : jsval :=
  match c with Some n => JStr (show_decimal n) | None => JNull end.

Definition show_tipo (t : tipo_usuario_t) : string :=
  match t with publico => "publico" | premium => "premium" end.

Definition js_tipo (c : option tipo_usuario_t) : jsval :=
  match c with Some t => JStr (show_tipo t) | None => JNull end.

(** [SELECT * FROM Usuarios] *)
Definition usuario_row (u : Usuario.t) : obj :=
  [ ("id_usuario", JNum (Usuario.id_usuario u));
    ("nombre", JStr (Usuario.nombre u));
    ("email", JStr (Usuario.email u));
    ("contrasena", JStr (Usuario.contrasena u));
    ("tipo_usuario", js_tipo (Usuario.tipo_usuario u));
    ("fecha_registro", js_datetime (Usuario.fecha_registro u)) ].

(** [SELECT id_usuario, nombre, email, tipo_usuario, fecha_registro FROM Usuarios] *)
Definition usuario_publico_row (u : Usuario.t) : obj :=
  [ ("id_usuario", JNum (Usuario.id_usuario u));
    ("nombre", JStr (Usuario.nombre u));
    ("email", JStr (Usuario.email u));
    ("tipo_usuario", js_tipo (Usuario.tipo_usuario u));
    ("fecha_registro", js_datetime (Usuario.fecha_registro u)) ].

Definition categoria_row (c : Categoria.t) : obj :=
  [ ("id_categoria", JNum (Categoria.id_categoria c));
    ("nombre", JStr (Categoria.nombre c)) ].

(** The projection shared by the three recipe queries. *)
Definition receta_row (r : Receta.t) (c : Categoria.t) (u : Usuario.t) : obj :=
  [ ("id_receta", JNum (Receta.id_receta r));
    ("titulo", JStr (Receta.titulo r));
    ("descripcion", js_text (Receta.descripcion r));
    ("tiempo_preparacion", js_int (Receta.tiempo_preparacion r));
    ("costo", js_decimal (Receta.costo r));
    ("es_publica", js_int (Receta.es_publica r));
    ("es_premium", js_int (Receta.es_premium r));
    ("categoria", JStr (Categoria.nombre c));
    ("autor", JStr (Usuario.nombre u)) ].

Definition ingrediente_row (i : Ingrediente.t) : obj :=
  [ ("id_ingrediente", JNum (Ingrediente.id_ingrediente i));
    ("nombre", JStr (Ingrediente.nombre i));
    ("unidad_medida", js_text (Ingrediente.unidad_medida i)) ].

Definition paso_row (p : Paso.t) : obj :=
  [ ("id_paso", JNum (Paso.id_paso p));
    ("id_receta", js_int (Paso.id_receta p));
    ("numero_paso", js_int (Paso.numero_paso p));
    ("descripcion", js_text (Paso.descripcion p)) ].

Definition valoracion_row (v : Valoracion.t) : obj :=
  [ ("id_valoracion", JNum (Valoracion.id_valoracion v));
    ("id_receta", js_int (Valoracion.id_receta v));
    ("id_usuario", js_int (Valoracion.id_usuario v));
    ("puntuacion", js_int (Valoracion.puntuacion v));
    ("comentario", js_text (Valoracion.comentario v));
    ("fecha_valoracion", js_datetime (Valoracion.fecha_valoracion v)) ].

Definition suscripcion_row (x : Suscripcion.t) : obj :=
  [ ("id_suscripcion", JNum (Suscripcion.id_suscripcion x));
    ("id_usuario", js_int (Suscripcion.id_usuario x));
    ("fecha_inicio", js_datetime (Suscripcion.fecha_inicio x));
    ("fecha_fin", js_datetime (Suscripcion.fecha_fin x));
    ("monto", js_decimal (Suscripcion.monto x)) ].

(* ===================================================================== *)
(** * Queries *)
(* ===================================================================== *)

(** [cell = n] in a WHERE or ON clause: never true of a NULL cell. *)
Definition cell_is (c : option Z) (n : Z) : bool :=
  match c with Some m => m =? n | None => false end.

(** [a LEFT JOIN b]: the matching rows of [b], or one NULL row. *)
Definition left_join {A} (matching : list A) : list (option A) :=
  match matching with [] => [None] | _ => map Some matching end.

(** ORDER BY as a stable insertion sort; [le x y] holds when [x] may come
    before [y]. *)
Fixpoint insert_by {A} (le : A -> A -> bool) (x : A) (l : list A) : list A :=
  match l with
  | [] => [x]
  | y :: l' => if le y x then y :: insert_by le x l' else x :: l
  end.

Definition order_by {A} (le : A -> A -> bool) (l : list A) : list A :=
  fold_left (fun acc x => insert_by le x acc) l [].

(** Ascending, NULL first; descending, NULL last. *)
Definition asc (a b : option Z) : bool :=
  match a, b with
  | None, _ => true
  | Some _, None => false
  | Some x, Some y => x <=? y
  end.

Definition desc (a b : option Z) : bool := asc b a.

(** Two result rows that SELECT DISTINCT takes for the same row: text cells
    compare under the collation. *)
Definition jsval_same (a b : jsval) : bool :=
  match a, b with
  | JUndefined, JUndefined => true
  | JNull, JNull => true
  | JBool x, JBool y => Bool.eqb x y
  | JNum x, JNum y => x =? y
  | JStr x, JStr y => text_eqb x y
  | JDate x, JDate y => x =? y
  | _, _ => false
  end.

Fixpoint obj_same (a b : obj) : bool :=
  match a, b with
  | [], [] => true
  | (k, v) :: a', (k', v') :: b' => String.eqb k k' && jsval_same v v' && obj_same a' b'
  | _, _ => false
  end.

(** DISTINCT keeps the first of the rows it takes for the same. *)
Fixpoint distinct (l : list obj) : list obj :=
  match l with
  | [] => []
  | x :: l' => x :: filter (fun y => negb (obj_same x y)) (distinct l')
  end.

(** [FROM Recetas r JOIN Categorias c ON r.categoria_id = c.id_categoria
     JOIN Usuarios u ON r.autor_id = u.id_usuario] for one recipe. *)
Definition receta_joined (s : Store) (r : Receta.t) : list obj :=
  flat_map (fun c =>
    map (fun u => receta_row r c u)
      (filter (fun u => cell_is (Receta.autor_id r) (Usuario.id_usuario u))
         (rows (Usuarios s))))
    (filter (fun c => cell_is (Receta.categoria_id r) (Categoria.id_categoria c))
       (rows (Categorias s))).

(** [LEFT JOIN Receta_Ingrediente ri ON r.id_receta = ri.id_receta
     LEFT JOIN Ingredientes i ON ri.id_ingrediente = i.id_ingrediente]:
    the ingredient side of every joined row of one recipe. *)
Definition receta_ingredientes (s : Store) (r : Receta.t) : list (option Ingrediente.t) :=
  flat_map (fun ri =>
    match ri with
    | None => [None]
    | Some x =>
        left_join (filter (fun i => Ingrediente.id_ingrediente i
                                      =? RecetaIngrediente.id_ingrediente x)
                     (rows (Ingredientes s)))
    end)
    (left_join (filter (fun x => RecetaIngrediente.id_receta x =? Receta.id_receta r)
                  (Receta_Ingrediente s))).

(** [WHERE r.titulo LIKE ? OR i.nombre LIKE ?] on one joined row. *)
Definition buscar_where (titulo_like nombre_like : string)
    (r : Receta.t) (i : option Ingrediente.t) : bool :=
  like (Receta.titulo r) titulo_like
  || match i with
     | Some x => like (Ingrediente.nombre x) nombre_like
     | None => false
     end.

Definition buscar (s : Store) (titulo_like nombre_like : string) : list obj :=
  distinct
    (flat_map (fun r =>
       flat_map (fun row =>
         flat_map (fun i =>
           if buscar_where titulo_like nombre_like r i then [row] else [])
           (receta_ingredientes s r))
         (receta_joined s r))
       (rows (Recetas s))).

(** The model follows parameters of the JSON type their column expects.
    For the others MySQL applies conversions that depend on the server mode;
    the model does not follow them and answers with an error of this form. *)
Definition incorrect (kind col : string) : string :=
  "Incorrect " ++ kind ++ " value for column '" ++ col ++ "' at row 1".

Definition select_rows (q : select_stmt) (s : Store) : string + list obj :=
  match q with
  | SelUsuarios => inr (map usuario_publico_row (rows (Usuarios s)))
  | SelUsuarioPorEmail e =>
      match e with
      | JStr e =>
          inr (map usuario_row
                 (filter (fun u => text_eqb (Usuario.email u) e) (rows (Usuarios s))))
      | JUndefined | JNull => inr []
      | _ => inl (incorrect "string" "email")
      end
  | SelCategorias => inr (map categoria_row (rows (Categorias s)))
  | SelCategoria n =>
      inr (map categoria_row
             (filter (fun c => Categoria.id_categoria c =? n) (rows (Categorias s))))
  | SelRecetas => inr (flat_map (receta_joined s) (rows (Recetas s)))
  | SelReceta n =>
      inr (flat_map (receta_joined s)
             (filter (fun r => Receta.id_receta r =? n) (rows (Recetas s))))
  | SelBuscar pt pn => inr (buscar s pt pn)
  | SelIngredientes => inr (map ingrediente_row (rows (Ingredientes s)))
  | SelIngrediente n =>
      inr (map ingrediente_row
             (filter (fun i => Ingrediente.id_ingrediente i =? n) (rows (Ingredientes s))))
  | SelPasosReceta n =>
      inr (map paso_row
             (order_by (fun a b => asc (Paso.numero_paso a) (Paso.numero_paso b))
                (filter (fun p => cell_is (Paso.id_receta p) n) (rows (Pasos s)))))
  | SelPaso n =>
      inr (map paso_row (filter (fun p => Paso.id_paso p =? n) (rows (Pasos s))))
  | SelValoracionesReceta n =>
      inr (flat_map (fun v =>
             map (fun u => (valoracion_row v
                             ++ [("nombre_usuario", JStr (Usuario.nombre u))])%list)
               (filter (fun u => cell_is (Valoracion.id_usuario v) (Usuario.id_usuario u))
                  (rows (Usuarios s))))
             (order_by (fun a b => desc (Valoracion.fecha_valoracion a)
                                        (Valoracion.fecha_valoracion b))
                (filter (fun v => cell_is (Valoracion.id_receta v) n)
                   (rows (Valoraciones s)))))
  | SelValoracion n =>
      inr (map valoracion_row
             (filter (fun v => Valoracion.id_valoracion v =? n) (rows (Valoraciones s))))
  | SelSuscripciones => inr (map suscripcion_row (rows (Suscripciones s)))
  | SelSuscripcionesUsuario n =>
      inr (map suscripcion_row
             (filter (fun x => cell_is (Suscripcion.id_usuario x) n) (rows (Suscripciones s))))
  | SelSuscripcion n =>
      inr (map suscripcion_row
             (filter (fun x => Suscripcion.id_suscripcion x =? n) (rows (Suscripciones s))))
  end.

(** A query reads the store and leaves it as it is. *)
Definition mysql_select (q : select_stmt) (s : Store) : (string + list obj) * Store :=
  (select_rows q s, s).

(* ===================================================================== *)
(** * Writes *)
(* ===================================================================== *)

(** A statement is refused with the engine's message or goes through. *)
Definition bind_err {A B} (m : string + A) (k : A -> string + B) : string + B :=
  match m with inl msg => inl msg | inr a => k a end.

Declare Scope err_scope.
Delimit Scope err_scope with err.
Notation "x <- m ;; k" := (bind_err m (fun x => k))
  (at level 61, m at next level, right associativity) : err_scope.

Definition require (ok : bool) (msg : string) : string + unit :=
  if ok then inr tt else inl msg.

(** ** Column types (strict SQL mode, the default of the server) *)

Definition int_min : Z := -2147483648.
Definition int_max : Z := 2147483647.

Definition out_of_range (col : string) : string :=
  "Out of range value for column '" ++ col ++ "' at row 1".

Definition too_long (col : string) : string :=
  "Data too long for column '" ++ col ++ "' at row 1".

Definition cannot_be_null (col : string) : string :=
  "Column '" ++ col ++ "' cannot be null".

(** A numeric column: the driver writes [true] and [false] as 1 and 0. *)
Definition col_ranged (lo hi : Z) (kind col : string) (v : jsval) : string + option Z :=
  match v with
  | JUndefined | JNull => inr None
  | JBool b => inr (Some (if b then 1 else 0))
  | JNum n => if (lo <=? n) && (n <=? hi) then inr (Some n) else inl (out_of_range col)
  | JStr _ | JDate _ => inl (incorrect kind col)
  end.

(** INT, BOOLEAN (TINYINT(1)) and DECIMAL(6,2), the last in hundredths. *)
Definition col_int : string -> jsval -> string + option Z :=
  col_ranged int_min int_max "integer".
Definition col_boolean : string -> jsval -> string + option Z :=
  col_ranged (-128) 127 "integer".
Definition col_decimal (col : string) (v : jsval) : string + option Z :=
  match col_ranged (-9999) 9999 "decimal" col v with
  | inl msg => inl msg
  | inr c => inr (option_map (Z.mul 100) c)
  end.

Definition col_chars (fits : string -> bool) (col : string) (v : jsval)
    : string + option string :=
  match v with
  | JUndefined | JNull => inr None
  | JStr x => if fits x then inr (Some x) else inl (too_long col)
  | JBool b => inr (Some (if b then "1" else "0"))
  | JNum _ | JDate _ => inl (incorrect "string" col)
  end.

(** VARCHAR(n) bounds the characters, TEXT the bytes. *)
Definition col_varchar (n : Z) : string -> jsval -> string + option string :=
  col_chars (fun x => char_length x <=? n).
Definition col_text : string -> jsval -> string + option string :=
  col_chars (fun x => byte_length x <=? 65535).

Definition col_datetime (s : Store) (col : string) (v : jsval) : string + option Z :=
  match v with
  | JUndefined | JNull => inr None
  | JDate t => inr (Some t)
  | JStr x =>
      match read_datetime s x with
      | Some t => inr (Some t)
      | None => inl (incorrect "datetime" col)
      end
  | JBool _ | JNum _ => inl (incorrect "datetime" col)
  end.

Definition col_tipo_usuario (v : jsval) : string + option tipo_usuario_t :=
  match v with
  | JUndefined | JNull => inr None
  | JStr x =>
      if text_eqb x "publico" then inr (Some publico)
      else if text_eqb x "premium" then inr (Some premium)
      else inl "Data truncated for column 'tipo_usuario' at row 1"
  | _ => inl "Data truncated for column 'tipo_usuario' at row 1"
  end.

Definition not_null {A} (col : string) (c : string + option A) : string + A :=
  match c with
  | inl msg => inl msg
  | inr None => inl (cannot_be_null col)
  | inr (Some a) => inr a
  end.

(** ** Keys *)

Definition next_key {A} (t : table A) : string + Z :=
  if auto_increment t <=? int_max then inr (auto_increment t)
  else inl "Failed to read auto-increment value from storage engine".

Definition push {A} (t : table A) (row : A) : table A :=
  {| rows := rows t ++ [row]; auto_increment := auto_increment t + 1 |}.

Definition with_rows {A} (t : table A) (l : list A) : table A :=
  {| rows := l; auto_increment := auto_increment t |}.

Definition count {A} (p : A -> bool) (l : list A) : Z :=
  Z.of_nat (List.length (filter p l)).

(** [UPDATE t SET ... WHERE p]: the rows of [t] with [set] applied to those
    that satisfy [p]. *)
Definition update_where {A} (p : A -> bool) (set : A -> A) (t : table A) : table A :=
  with_rows t (map (fun r => if p r then set r else r) (rows t)).

(** [DELETE FROM t WHERE p]. *)
Definition delete_where {A} (p : A -> bool) (t : table A) : table A :=
  with_rows t (filter (fun r => negb (p r)) (rows t)).

Definition written (h : header) (s : Store) : string + (header * Store) := inr (h, s).

Definition inserted (key : Z) : header := {| insertId := key; affectedRows := 1 |}.
Definition affected (n : Z) : header := {| insertId := 0; affectedRows := n |}.

(** A cell that references a parent row: NULL references nothing. *)
Definition references (c : option Z) (keys : list Z) : bool :=
  match c with None => true | Some n => existsb (Z.eqb n) keys end.

Definition usuario_keys (s : Store) : list Z := map Usuario.id_usuario (rows (Usuarios s)).
Definition categoria_keys (s : Store) : list Z := map Categoria.id_categoria (rows (Categorias s)).
Definition receta_keys (s : Store) : list Z := map Receta.id_receta (rows (Recetas s)).

Definition fk_child (tbl n col ref refcol tail : string) : string :=
  "Cannot add or update a child row: a foreign key constraint fails (`cookshare`.`"
  ++ tbl ++ "`, CONSTRAINT `" ++ tbl ++ "_ibfk_" ++ n ++ "` FOREIGN KEY (`" ++ col
  ++ "`) REFERENCES `" ++ ref ++ "` (`" ++ refcol ++ "`)" ++ tail ++ ")".

Definition fk_parent (tbl n col ref refcol : string) : string :=
  "Cannot delete or update a parent row: a foreign key constraint fails (`cookshare`.`"
  ++ tbl ++ "`, CONSTRAINT `" ++ tbl ++ "_ibfk_" ++ n ++ "` FOREIGN KEY (`" ++ col
  ++ "`) REFERENCES `" ++ ref ++ "` (`" ++ refcol ++ "`))".

Definition cascade : string := " ON DELETE CASCADE".

Definition duplicate_email (e : string) : string :=
  "Duplicate entry '" ++ e ++ "' for key 'Usuarios.email'".

Definition check_violated : string :=
  "Check constraint 'Valoraciones_chk_1' is violated.".

(** [CHECK (puntuacion BETWEEN 1 AND 5)]: a NULL score passes. *)
Definition puntuacion_check (c : option Z) : bool :=
  match c with None => true | Some n => (1 <=? n) && (n <=? 5) end.

(** ** Usuarios, Sesiones *)

Local Open Scope err_scope.

Definition ins_usuario (s : Store) (nombre email contrasena tipo_usuario : jsval)
    : string + (header * Store) :=
  nombre <- not_null "nombre" (col_varchar 100 "nombre" nombre) ;;
  email <- not_null "email" (col_varchar 100 "email" email) ;;
  contrasena <- not_null "contrasena" (col_varchar 255 "contrasena" contrasena) ;;
  tipo_usuario <- col_tipo_usuario tipo_usuario ;;
  key <- next_key (Usuarios s) ;;
  _ <- require (negb (existsb (fun u => text_eqb (Usuario.email u) email)
                        (rows (Usuarios s))))
         (duplicate_email email) ;;
  written (inserted key)
    (set_Usuarios
       (push (Usuarios s)
          {| Usuario.id_usuario := key; Usuario.nombre := nombre;
             Usuario.email := email; Usuario.contrasena := contrasena;
             Usuario.tipo_usuario := tipo_usuario;
             Usuario.fecha_registro := Some (now s) |}) s).

(** Both UPDATE texts of [usuarios.js]: [contrasena] is [Some] for the one
    that has [contrasena = ?] in its SET list. *)
Definition upd_usuario (s : Store) (nombre email tipo_usuario : jsval)
    (contrasena : option jsval) (id_usuario : Z) : string + (header * Store) :=
  let target := fun u => Usuario.id_usuario u =? id_usuario in
  if negb (existsb target (rows (Usuarios s))) then written (affected 0) s
  else
    nombre <- not_null "nombre" (col_varchar 100 "nombre" nombre) ;;
    email <- not_null "email" (col_varchar 100 "email" email) ;;
    tipo_usuario <- col_tipo_usuario tipo_usuario ;;
    contrasena <- match contrasena with
                  | None => inr None
                  | Some v =>
                      h <- not_null "contrasena" (col_varchar 255 "contrasena" v) ;;
                      inr (Some h)
                  end ;;
    _ <- require (negb (existsb (fun u => negb (target u)
                                          && text_eqb (Usuario.email u) email)
                          (rows (Usuarios s))))
           (duplicate_email email) ;;
    written (affected (count target (rows (Usuarios s))))
      (set_Usuarios
         (update_where target
            (fun u =>
               {| Usuario.id_usuario := Usuario.id_usuario u;
                  Usuario.nombre := nombre; Usuario.email := email;
                  Usuario.contrasena := match contrasena with
                                        | Some h => h
                                        | None => Usuario.contrasena u
                                        end;
                  Usuario.tipo_usuario := tipo_usuario;
                  Usuario.fecha_registro := Usuario.fecha_registro u |})
            (Usuarios s)) s).

(** Recetas.autor_id has no ON DELETE rule: an author cannot be deleted.
    Sesiones, Autores_Receta, Valoraciones and Suscripciones cascade. *)
Definition del_usuario (s : Store) (id_usuario : Z) : string + (header * Store) :=
  let target := fun u => Usuario.id_usuario u =? id_usuario in
  if negb (existsb target (rows (Usuarios s))) then written (affected 0) s
  else
    _ <- require (negb (existsb (fun r => cell_is (Receta.autor_id r) id_usuario)
                          (rows (Recetas s))))
           (fk_parent "Recetas" "2" "autor_id" "Usuarios" "id_usuario") ;;
    written (affected (count target (rows (Usuarios s))))
      (set_Usuarios (delete_where target (Usuarios s))
      (set_Sesiones
         (delete_where (fun x => cell_is (Sesion.id_usuario x) id_usuario) (Sesiones s))
      (set_Autores_Receta
         (filter (fun x => negb (AutorReceta.id_usuario x =? id_usuario))
            (Autores_Receta s))
      (set_Valoraciones
         (delete_where (fun x => cell_is (Valoracion.id_usuario x) id_usuario)
            (Valoraciones s))
      (set_Suscripciones
         (delete_where (fun x => cell_is (Suscripcion.id_usuario x) id_usuario)
            (Suscripciones s)) s))))).

Definition ins_sesion (s : Store) (id_usuario : jsval) : string + (header * Store) :=
  id_usuario <- col_int "id_usuario" id_usuario ;;
  key <- next_key (Sesiones s) ;;
  _ <- require (references id_usuario (usuario_keys s))
         (fk_child "Sesiones" "1" "id_usuario" "Usuarios" "id_usuario" cascade) ;;
  written (inserted key)
    (set_Sesiones
       (push (Sesiones s)
          {| Sesion.id_sesion := key; Sesion.id_usuario := id_usuario;
             Sesion.fecha_inicio := Some (now s); Sesion.fecha_cierre := None |}) s).

Definition is_null {A} (c : option A) : bool :=
  match c with None => true | Some _ => false end.

(** [... WHERE id_sesion = n AND fecha_cierre IS NULL] *)
Definition sesion_abierta (n : Z) (x : Sesion.t) : bool :=
  (Sesion.id_sesion x =? n) && is_null (Sesion.fecha_cierre x).

Definition cerrar (t : Z) (x : Sesion.t) : Sesion.t :=
  {| Sesion.id_sesion := Sesion.id_sesion x; Sesion.id_usuario := Sesion.id_usuario x;
     Sesion.fecha_inicio := Sesion.fecha_inicio x; Sesion.fecha_cierre := Some t |}.

Definition upd_sesion_cierre (s : Store) (id_sesion : jsval) : string + (header * Store) :=
  let close := fun n =>
    written (affected (count (sesion_abierta n) (rows (Sesiones s))))
      (set_Sesiones (update_where (sesion_abierta n) (cerrar (now s)) (Sesiones s)) s) in
  match id_sesion with
  | JUndefined | JNull => written (affected 0) s
  | JBool b => close (if b then 1 else 0)
  | JNum n => close n
  | JStr _ | JDate _ => inl (incorrect "integer" "id_sesion")
  end.

(** ** Categorias *)

Definition ins_categoria (s : Store) (nombre : jsval) : string + (header * Store) :=
  nombre <- not_null "nombre" (col_varchar 50 "nombre" nombre) ;;
  key <- next_key (Categorias s) ;;
  written (inserted key)
    (set_Categorias
       (push (Categorias s)
          {| Categoria.id_categoria := key; Categoria.nombre := nombre |}) s).

Definition upd_categoria (s : Store) (nombre : jsval) (id_categoria : Z)
    : string + (header * Store) :=
  let target := fun c => Categoria.id_categoria c =? id_categoria in
  if negb (existsb target (rows (Categorias s))) then written (affected 0) s
  else
    nombre <- not_null "nombre" (col_varchar 50 "nombre" nombre) ;;
    written (affected (count target (rows (Categorias s))))
      (set_Categorias
         (update_where target
            (fun c => {| Categoria.id_categoria := Categoria.id_categoria c;
                         Categoria.nombre := nombre |})
            (Categorias s)) s).

(** Recetas.categoria_id has no ON DELETE rule. *)
Definition del_categoria (s : Store) (id_categoria : Z) : string + (header * Store) :=
  let target := fun c => Categoria.id_categoria c =? id_categoria in
  if negb (existsb target (rows (Categorias s))) then written (affected 0) s
  else
    _ <- require (negb (existsb (fun r => cell_is (Receta.categoria_id r) id_categoria)
                          (rows (Recetas s))))
           (fk_parent "Recetas" "1" "categoria_id" "Categorias" "id_categoria") ;;
    written (affected (count target (rows (Categorias s))))
      (set_Categorias (delete_where target (Categorias s)) s).

(** ** Recetas *)

Definition opt_eqb {A} (eqb : A -> A -> bool) (a b : option A) : bool :=
  match a, b with
  | None, None => true
  | Some x, Some y => eqb x y
  | _, _ => false
  end.

(** The eight columns an UPDATE of Recetas assigns. *)
Definition receta_assign (r : Receta.t) (titulo : string) (descripcion : option string)
    (tiempo_preparacion costo es_publica es_premium categoria_id autor_id : option Z)
    (fecha_modificacion : option Z) : Receta.t :=
  {| Receta.id_receta := Receta.id_receta r; Receta.titulo := titulo;
     Receta.descripcion := descripcion;
     Receta.tiempo_preparacion := tiempo_preparacion; Receta.costo := costo;
     Receta.es_publica := es_publica; Receta.es_premium := es_premium;
     Receta.categoria_id := categoria_id; Receta.autor_id := autor_id;
     Receta.fecha_creacion := Receta.fecha_creacion r;
     Receta.fecha_modificacion := fecha_modificacion |}.

Definition receta_unchanged (r : Receta.t) (titulo : string) (descripcion : option string)
    (tiempo_preparacion costo es_publica es_premium categoria_id autor_id : option Z)
    : bool :=
  String.eqb (Receta.titulo r) titulo
  && opt_eqb String.eqb (Receta.descripcion r) descripcion
  && opt_eqb Z.eqb (Receta.tiempo_preparacion r) tiempo_preparacion
  && opt_eqb Z.eqb (Receta.costo r) costo
  && opt_eqb Z.eqb (Receta.es_publica r) es_publica
  && opt_eqb Z.eqb (Receta.es_premium r) es_premium
  && opt_eqb Z.eqb (Receta.categoria_id r) categoria_id
  && opt_eqb Z.eqb (Receta.autor_id r) autor_id.

Definition ins_receta (s : Store) (titulo descripcion tiempo_preparacion costo
    es_publica es_premium categoria_id autor_id : jsval) : string + (header * Store) :=
  titulo <- not_null "titulo" (col_varchar 150 "titulo" titulo) ;;
  descripcion <- col_text "descripcion" descripcion ;;
  tiempo_preparacion <- col_int "tiempo_preparacion" tiempo_preparacion ;;
  costo <- col_decimal "costo" costo ;;
  es_publica <- col_boolean "es_publica" es_publica ;;
  es_premium <- col_boolean "es_premium" es_premium ;;
  categoria_id <- col_int "categoria_id" categoria_id ;;
  autor_id <- col_int "autor_id" autor_id ;;
  key <- next_key (Recetas s) ;;
  _ <- require (references categoria_id (categoria_keys s))
         (fk_child "Recetas" "1" "categoria_id" "Categorias" "id_categoria" "") ;;
  _ <- require (references autor_id (usuario_keys s))
         (fk_child "Recetas" "2" "autor_id" "Usuarios" "id_usuario" "") ;;
  written (inserted key)
    (set_Recetas
       (push (Recetas s)
          {| Receta.id_receta := key; Receta.titulo := titulo;
             Receta.descripcion := descripcion;
             Receta.tiempo_preparacion := tiempo_preparacion; Receta.costo := costo;
             Receta.es_publica := es_publica; Receta.es_premium := es_premium;
             Receta.categoria_id := categoria_id; Receta.autor_id := autor_id;
             Receta.fecha_creacion := Some (now s);
             Receta.fecha_modificacion := Some (now s) |}) s).

(** [fecha_modificacion ... ON UPDATE CURRENT_TIMESTAMP]: the engine stamps a
    row when the UPDATE changes one of its columns. *)
Definition upd_receta (s : Store) (titulo descripcion tiempo_preparacion costo
    es_publica es_premium categoria_id autor_id : jsval) (id_receta : Z)
    : string + (header * Store) :=
  let target := fun r => Receta.id_receta r =? id_receta in
  if negb (existsb target (rows (Recetas s))) then written (affected 0) s
  else
    titulo <- not_null "titulo" (col_varchar 150 "titulo" titulo) ;;
    descripcion <- col_text "descripcion" descripcion ;;
    tiempo_preparacion <- col_int "tiempo_preparacion" tiempo_preparacion ;;
    costo <- col_decimal "costo" costo ;;
    es_publica <- col_boolean "es_publica" es_publica ;;
    es_premium <- col_boolean "es_premium" es_premium ;;
    categoria_id <- col_int "categoria_id" categoria_id ;;
    autor_id <- col_int "autor_id" autor_id ;;
    _ <- require (references categoria_id (categoria_keys s))
           (fk_child "Recetas" "1" "categoria_id" "Categorias" "id_categoria" "") ;;
    _ <- require (references autor_id (usuario_keys s))
           (fk_child "Recetas" "2" "autor_id" "Usuarios" "id_usuario" "") ;;
    written (affected (count target (rows (Recetas s))))
      (set_Recetas
         (update_where target
            (fun r =>
               receta_assign r titulo descripcion tiempo_preparacion costo
                 es_publica es_premium categoria_id autor_id
                 (if receta_unchanged r titulo descripcion tiempo_preparacion costo
                       es_publica es_premium categoria_id autor_id
                  then Receta.fecha_modificacion r else Some (now s)))
            (Recetas s)) s).

(** Autores_Receta, Receta_Ingrediente, Pasos and Valoraciones cascade. *)
Definition del_receta (s : Store) (id_receta : Z) : string + (header * Store) :=
  let target := fun r => Receta.id_receta r =? id_receta in
  if negb (existsb target (rows (Recetas s))) then written (affected 0) s
  else
    written (affected (count target (rows (Recetas s))))
      (set_Recetas (delete_where target (Recetas s))
      (set_Autores_Receta
         (filter (fun x => negb (AutorReceta.id_receta x =? id_receta)) (Autores_Receta s))
      (set_Receta_Ingrediente
         (filter (fun x => negb (RecetaIngrediente.id_receta x =? id_receta))
            (Receta_Ingrediente s))
      (set_Pasos
         (delete_where (fun x => cell_is (Paso.id_receta x) id_receta) (Pasos s))
      (set_Valoraciones
         (delete_where (fun x => cell_is (Valoracion.id_receta x) id_receta)
            (Valoraciones s)) s))))).

(** ** Ingredientes, Pasos *)

Definition ins_ingrediente (s : Store) (nombre unidad_medida : jsval)
    : string + (header * Store) :=
  nombre <- not_null "nombre" (col_varchar 100 "nombre" nombre) ;;
  unidad_medida <- col_varchar 20 "unidad_medida" unidad_medida ;;
  key <- next_key (Ingredientes s) ;;
  written (inserted key)
    (set_Ingredientes
       (push (Ingredientes s)
          {| Ingrediente.id_ingrediente := key; Ingrediente.nombre := nombre;
             Ingrediente.unidad_medida := unidad_medida |}) s).

Definition upd_ingrediente (s : Store) (nombre unidad_medida : jsval)
    (id_ingrediente : Z) : string + (header * Store) :=
  let target := fun i => Ingrediente.id_ingrediente i =? id_ingrediente in
  if negb (existsb target (rows (Ingredientes s))) then written (affected 0) s
  else
    nombre <- not_null "nombre" (col_varchar 100 "nombre" nombre) ;;
    unidad_medida <- col_varchar 20 "unidad_medida" unidad_medida ;;
    written (affected (count target (rows (Ingredientes s))))
      (set_Ingredientes
         (update_where target
            (fun i => {| Ingrediente.id_ingrediente := Ingrediente.id_ingrediente i;
                         Ingrediente.nombre := nombre;
                         Ingrediente.unidad_medida := unidad_medida |})
            (Ingredientes s)) s).

(** Receta_Ingrediente cascades. *)
Definition del_ingrediente (s : Store) (id_ingrediente : Z) : string + (header * Store) :=
  let target := fun i => Ingrediente.id_ingrediente i =? id_ingrediente in
  if negb (existsb target (rows (Ingredientes s))) then written (affected 0) s
  else
    written (affected (count target (rows (Ingredientes s))))
      (set_Ingredientes (delete_where target (Ingredientes s))
      (set_Receta_Ingrediente
         (filter (fun x => negb (RecetaIngrediente.id_ingrediente x =? id_ingrediente))
            (Receta_Ingrediente s)) s)).

Definition ins_paso (s : Store) (id_receta numero_paso descripcion : jsval)
    : string + (header * Store) :=
  id_receta <- col_int "id_receta" id_receta ;;
  numero_paso <- col_int "numero_paso" numero_paso ;;
  descripcion <- col_text "descripcion" descripcion ;;
  key <- next_key (Pasos s) ;;
  _ <- require (references id_receta (receta_keys s))
         (fk_child "Pasos" "1" "id_receta" "Recetas" "id_receta" cascade) ;;
  written (inserted key)
    (set_Pasos
       (push (Pasos s)
          {| Paso.id_paso := key; Paso.id_receta := id_receta;
             Paso.numero_paso := numero_paso; Paso.descripcion := descripcion |}) s).

Definition upd_paso (s : Store) (numero_paso descripcion : jsval) (id_paso : Z)
    : string + (header * Store) :=
  let target := fun p => Paso.id_paso p =? id_paso in
  if negb (existsb target (rows (Pasos s))) then written (affected 0) s
  else
    numero_paso <- col_int "numero_paso" numero_paso ;;
    descripcion <- col_text "descripcion" descripcion ;;
    written (affected (count target (rows (Pasos s))))
      (set_Pasos
         (update_where target
            (fun p => {| Paso.id_paso := Paso.id_paso p;
                         Paso.id_receta := Paso.id_receta p;
                         Paso.numero_paso := numero_paso;
                         Paso.descripcion := descripcion |})
            (Pasos s)) s).

Definition del_paso (s : Store) (id_paso : Z) : string + (header * Store) :=
  let target := fun p => Paso.id_paso p =? id_paso in
  written (affected (count target (rows (Pasos s))))
    (set_Pasos (delete_where target (Pasos s)) s).

(** ** Valoraciones, Suscripciones *)

Definition ins_valoracion (s : Store) (id_receta id_usuario puntuacion comentario : jsval)
    : string + (header * Store) :=
  id_receta <- col_int "id_receta" id_receta ;;
  id_usuario <- col_int "id_usuario" id_usuario ;;
  puntuacion <- col_int "puntuacion" puntuacion ;;
  comentario <- col_text "comentario" comentario ;;
  key <- next_key (Valoraciones s) ;;
  _ <- require (puntuacion_check puntuacion) check_violated ;;
  _ <- require (references id_receta (receta_keys s))
         (fk_child "Valoraciones" "1" "id_receta" "Recetas" "id_receta" cascade) ;;
  _ <- require (references id_usuario (usuario_keys s))
         (fk_child "Valoraciones" "2" "id_usuario" "Usuarios" "id_usuario" cascade) ;;
  written (inserted key)
    (set_Valoraciones
       (push (Valoraciones s)
          {| Valoracion.id_valoracion := key; Valoracion.id_receta := id_receta;
             Valoracion.id_usuario := id_usuario; Valoracion.puntuacion := puntuacion;
             Valoracion.comentario := comentario;
             Valoracion.fecha_valoracion := Some (now s) |}) s).

Definition upd_valoracion (s : Store) (puntuacion comentario : jsval) (id_valoracion : Z)
    : string + (header * Store) :=
  let target := fun v => Valoracion.id_valoracion v =? id_valoracion in
  if negb (existsb target (rows (Valoraciones s))) then written (affected 0) s
  else
    puntuacion <- col_int "puntuacion" puntuacion ;;
    comentario <- col_text "comentario" comentario ;;
    _ <- require (puntuacion_check puntuacion) check_violated ;;
    written (affected (count target (rows (Valoraciones s))))
      (set_Valoraciones
         (update_where target
            (fun v => {| Valoracion.id_valoracion := Valoracion.id_valoracion v;
                         Valoracion.id_receta := Valoracion.id_receta v;
                         Valoracion.id_usuario := Valoracion.id_usuario v;
                         Valoracion.puntuacion := puntuacion;
                         Valoracion.comentario := comentario;
                         Valoracion.fecha_valoracion := Valoracion.fecha_valoracion v |})
            (Valoraciones s)) s).

Definition del_valoracion (s : Store) (id_valoracion : Z) : string + (header * Store) :=
  let target := fun v => Valoracion.id_valoracion v =? id_valoracion in
  written (affected (count target (rows (Valoraciones s))))
    (set_Valoraciones (delete_where target (Valoraciones s)) s).

Definition ins_suscripcion (s : Store) (id_usuario fecha_fin monto : jsval)
    : string + (header * Store) :=
  id_usuario <- col_int "id_usuario" id_usuario ;;
  fecha_fin <- col_datetime s "fecha_fin" fecha_fin ;;
  monto <- col_decimal "monto" monto ;;
  key <- next_key (Suscripciones s) ;;
  _ <- require (references id_usuario (usuario_keys s))
         (fk_child "Suscripciones" "1" "id_usuario" "Usuarios" "id_usuario" cascade) ;;
  written (inserted key)
    (set_Suscripciones
       (push (Suscripciones s)
          {| Suscripcion.id_suscripcion := key; Suscripcion.id_usuario := id_usuario;
             Suscripcion.fecha_inicio := Some (now s);
             Suscripcion.fecha_fin := fecha_fin; Suscripcion.monto := monto |}) s).

Definition upd_suscripcion (s : Store) (fecha_fin monto : jsval) (id_suscripcion : Z)
    : string + (header * Store) :=
  let target := fun x => Suscripcion.id_suscripcion x =? id_suscripcion in
  if negb (existsb target (rows (Suscripciones s))) then written (affected 0) s
  else
    fecha_fin <- col_datetime s "fecha_fin" fecha_fin ;;
    monto <- col_decimal "monto" monto ;;
    written (affected (count target (rows (Suscripciones s))))
      (set_Suscripciones
         (update_where target
            (fun x => {| Suscripcion.id_suscripcion := Suscripcion.id_suscripcion x;
                         Suscripcion.id_usuario := Suscripcion.id_usuario x;
                         Suscripcion.fecha_inicio := Suscripcion.fecha_inicio x;
                         Suscripcion.fecha_fin := fecha_fin;
                         Suscripcion.monto := monto |})
            (Suscripciones s)) s).

Definition del_suscripcion (s : Store) (id_suscripcion : Z) : string + (header * Store) :=
  let target := fun x => Suscripcion.id_suscripcion x =? id_suscripcion in
  written (affected (count target (rows (Suscripciones s))))
    (set_Suscripciones (delete_where target (Suscripciones s)) s).

Local Close Scope err_scope.

(** ** The engine *)

Definition write_rows (q : write_stmt) (s : Store) : string + (header * Store) :=
  match q with
  | InsUsuario n e c t => ins_usuario s n e c t
  | UpdUsuarioContrasena n e t c k => upd_usuario s n e t (Some c) k
  | UpdUsuario n e t k => upd_usuario s n e t None k
  | DelUsuario k => del_usuario s k
  | InsSesion u => ins_sesion s u
  | UpdSesionCierre k => upd_sesion_cierre s k
  | InsCategoria n => ins_categoria s n
  | UpdCategoria n k => upd_categoria s n k
  | DelCategoria k => del_categoria s k
  | InsReceta a b c d e f g h => ins_receta s a b c d e f g h
  | UpdReceta a b c d e f g h k => upd_receta s a b c d e f g h k
  | DelReceta k => del_receta s k
  | InsIngrediente n u => ins_ingrediente s n u
  | UpdIngrediente n u k => upd_ingrediente s n u k
  | DelIngrediente k => del_ingrediente s k
  | InsPaso r n d => ins_paso s r n d
  | UpdPaso n d k => upd_paso s n d k
  | DelPaso k => del_paso s k
  | InsValoracion r u p c => ins_valoracion s r u p c
  | UpdValoracion p c k => upd_valoracion s p c k
  | DelValoracion k => del_valoracion s k
  | InsSuscripcion u f m => ins_suscripcion s u f m
  | UpdSuscripcion f m k => upd_suscripcion s f m k
  | DelSuscripcion k => del_suscripcion s k
  end.

(** A statement is atomic: refused, it leaves the store as it was. *)
Definition mysql_write (q : write_stmt) (s : Store) : (string + header) * Store :=
  match write_rows q s with
  | inl msg => (inl msg, s)
  | inr (h, s') => (inr h, s')
  end.

(** The application: the handlers over this engine and a [bcrypt]. *)
Definition cookshare (hash : jsval -> Z -> string + string)
    (compare : jsval -> jsval -> string + bool) : Env Store :=
  {| db_select := mysql_select; db_write := mysql_write;
     bcrypt_hash := hash; bcrypt_compare := compare |}.

(* ===================================================================== *)
(** * Observing what reaches the engine *)
(* ===================================================================== *)

(** What the pool was asked and whether it threw. *)
Inductive event : Type :=
| Selected (q : select_stmt) (thrown : option string)
| Wrote (q : write_stmt) (thrown : option string).

Definition thrown_of {A} (r : string + A) : option string :=
  match r with inl msg => Some msg | inr _ => None end.

(** The same environment, with every call of [db.query] recorded next to the
    engine state. *)
Definition logged {S} (E : Env S) : Env (S * list event) :=
  {| db_select := fun q sl =>
       let '(r, s') := db_select E q (fst sl) in
       (r, (s', (snd sl ++ [Selected q (thrown_of r)])%list));
     db_write := fun q sl =>
       let '(r, s') := db_write E q (fst sl) in
       (r, (s', (snd sl ++ [Wrote q (thrown_of r)])%list));
     bcrypt_hash := bcrypt_hash E;
     bcrypt_compare := bcrypt_compare E |}.

(** A stand-in for [bcrypt] to run the handlers on examples: it refuses what
    is not text, as the module does, and tags the text instead of hashing
    it. *)
Definition tag_hash (data : jsval) (rounds : Z) : string + string :=
  match data with
  | JStr x => inr ("$2b$10$" ++ x)
  | JUndefined | JNull => inl "data and salt arguments required"
  | _ => inl "data must be a string or Buffer and salt must either be a salt string or a number of rounds"
  end.

Definition tag_compare (data hash : jsval) : string + bool :=
  match data, hash with
  | JStr x, JStr h => inr (String.eqb ("$2b$10$" ++ x) h)
  | _, _ => inl "data and hash must be strings"
  end.

Definition api : Env Store := cookshare tag_hash tag_compare.

(* ===================================================================== *)
(** * The data [schema.sql] installs *)
(* ===================================================================== *)

(** The instant at which the script ran: its rows take CURRENT_TIMESTAMP. *)
Definition installed : Z := 1700000000.

Definition seed_hash : string :=
  "$2b$10$E.qf/dC.6n.CVQ3T.tY.o.v22ITjT5l3aJ2.uUotvsoMMm9g233/K".

Definition seed_usuario (k : Z) (nombre email : string) (t : tipo_usuario_t) : Usuario.t :=
  {| Usuario.id_usuario := k; Usuario.nombre := nombre; Usuario.email := email;
     Usuario.contrasena := seed_hash; Usuario.tipo_usuario := Some t;
     Usuario.fecha_registro := Some installed |}.

Definition seed_receta (k : Z) (titulo descripcion : string) (tiempo : Z)
    (costo : option Z) (publica premium categoria autor : Z) : Receta.t :=
  {| Receta.id_receta := k; Receta.titulo := titulo;
     Receta.descripcion := Some descripcion;
     Receta.tiempo_preparacion := Some tiempo; Receta.costo := costo;
     Receta.es_publica := Some publica; Receta.es_premium := Some premium;
     Receta.categoria_id := Some categoria; Receta.autor_id := Some autor;
     Receta.fecha_creacion := Some installed;
     Receta.fecha_modificacion := Some installed |}.

Definition seed_ingrediente (k : Z) (nombre unidad : string) : Ingrediente.t :=
  {| Ingrediente.id_ingrediente := k; Ingrediente.nombre := nombre;
     Ingrediente.unidad_medida := Some unidad |}.

Definition seed_link (r i cantidad : Z) : RecetaIngrediente.t :=
  {| RecetaIngrediente.id_receta := r; RecetaIngrediente.id_ingrediente := i;
     RecetaIngrediente.cantidad := Some (100 * cantidad) |}.

Definition seed_paso (k r n : Z) (descripcion : string) : Paso.t :=
  {| Paso.id_paso := k; Paso.id_receta := Some r; Paso.numero_paso := Some n;
     Paso.descripcion := Some descripcion |}.

Definition seed_categoria (k : Z) (nombre : string) : Categoria.t :=
  {| Categoria.id_categoria := k; Categoria.nombre := nombre |}.

Definition seed : Store :=
  {| Usuarios :=
       {| rows :=
            [ seed_usuario 1 "Melani" "melani@example.com" publico;
              seed_usuario 2 "Fátima" "fatima@example.com" premium;
              seed_usuario 3 "Carlos" "carlos@example.com" publico;
              seed_usuario 4 "Ana" "ana@example.com" publico;
              seed_usuario 5 "Luis" "luis@example.com" premium;
              seed_usuario 6 "Maria" "maria@example.com" publico;
              seed_usuario 7 "Jorge" "jorge@example.com" publico;
              seed_usuario 8 "Laura" "laura@example.com" premium;
              seed_usuario 9 "Pedro" "pedro@example.com" publico;
              seed_usuario 10 "Sofia" "sofia@example.com" publico ];
          auto_increment := 11 |};
     Sesiones :=
       {| rows :=
            [ {| Sesion.id_sesion := 1; Sesion.id_usuario := Some 1;
                 Sesion.fecha_inicio := Some installed; Sesion.fecha_cierre := None |};
              {| Sesion.id_sesion := 2; Sesion.id_usuario := Some 2;
                 Sesion.fecha_inicio := Some installed; Sesion.fecha_cierre := None |} ];
          auto_increment := 3 |};
     Categorias :=
       {| rows :=
            [ seed_categoria 1 "Desayuno"; seed_categoria 2 "Almuerzo";
              seed_categoria 3 "Cena"; seed_categoria 4 "Postre";
              seed_categoria 5 "Aperitivos"; seed_categoria 6 "Sopas";
              seed_categoria 7 "Ensaladas"; seed_categoria 8 "Bebidas";
              seed_categoria 9 "Guarniciones" ];
          auto_increment := 10 |};
     Recetas :=
       {| rows :=
            [ seed_receta 1 "Tacos al Pastor"
                "Receta tradicional con piña y carne marinada" 30 None 1 0 3 1;
              seed_receta 2 "Postre Gourmet"
                "Receta premium solo para usuarios especiales" 45 (Some 5000) 0 1 4 2;
              seed_receta 3 "Ensalada César"
                "Clásica ensalada César con pollo a la parrilla." 20 (Some 1500) 1 0 7 3;
              seed_receta 4 "Sopa de Tomate"
                "Sopa de tomate casera, perfecta para un día frío." 25 (Some 1000) 1 0 6 4;
              seed_receta 5 "Guacamole"
                "Auténtico guacamole mexicano." 10 (Some 800) 1 0 5 5;
              seed_receta 6 "Limonada Fresca"
                "Bebida refrescante de limón." 5 (Some 500) 1 0 8 6;
              seed_receta 7 "Puré de Papas"
                "Cremoso puré de papas como guarnición." 30 (Some 1200) 1 0 9 7;
              seed_receta 8 "Pasta Carbonara"
                "Receta italiana de pasta con huevo, queso y panceta." 25 (Some 2500) 0 1 2 8;
              seed_receta 9 "Huevos Benedictinos"
                "Un desayuno clásico y elegante." 20 (Some 2000) 0 1 1 9;
              seed_receta 10 "Brownies de Chocolate"
                "Brownies densos y chocolatados." 40 (Some 1800) 1 0 4 10;
              seed_receta 11 "Ceviche Peruano"
                "Pescado fresco marinado en jugo de limón." 15 (Some 3000) 0 1 5 5;
              seed_receta 12 "Sopa de Lentejas"
                "Una sopa nutritiva y reconfortante." 45 (Some 1400) 1 0 6 4 ];
          auto_increment := 13 |};
     Autores_Receta :=
       [ {| AutorReceta.id_receta := 1; AutorReceta.id_usuario := 2;
            AutorReceta.rol := Some colaborador;
            AutorReceta.permiso_modificar := Some 1;
            AutorReceta.fecha_invitacion := Some installed |} ];
     Ingredientes :=
       {| rows :=
            [ seed_ingrediente 1 "Carne de cerdo" "g";
              seed_ingrediente 2 "Piña" "rodajas";
              seed_ingrediente 3 "Tortilla" "pieza";
              seed_ingrediente 4 "Azúcar" "g";
              seed_ingrediente 5 "Crema" "ml";
              seed_ingrediente 6 "Lechuga Romana" "pieza";
              seed_ingrediente 7 "Pechuga de Pollo" "g";
              seed_ingrediente 8 "Crutones" "g";
              seed_ingrediente 9 "Queso Parmesano" "g";
              seed_ingrediente 10 "Aderezo César" "ml";
              seed_ingrediente 11 "Tomate" "pieza";
              seed_ingrediente 12 "Cebolla" "pieza";
              seed_ingrediente 13 "Ajo" "diente";
              seed_ingrediente 14 "Aguacate" "pieza";
              seed_ingrediente 15 "Limón" "pieza";
              seed_ingrediente 16 "Cilantro" "manojo";
              seed_ingrediente 17 "Papa" "g";
              seed_ingrediente 18 "Mantequilla" "g";
              seed_ingrediente 19 "Leche" "ml";
              seed_ingrediente 20 "Spaghetti" "g";
              seed_ingrediente 21 "Huevo" "pieza";
              seed_ingrediente 22 "Panceta" "g";
              seed_ingrediente 23 "Pescado Blanco" "g";
              seed_ingrediente 24 "Lentejas" "g" ];
          auto_increment := 25 |};
     Receta_Ingrediente :=
       [ seed_link 1 1 500; seed_link 1 2 3; seed_link 1 3 10;
         seed_link 2 4 200; seed_link 2 5 100;
         seed_link 3 6 1; seed_link 3 7 1; seed_link 3 8 1; seed_link 3 9 1;
         seed_link 3 10 1;
         seed_link 4 11 4; seed_link 4 12 1; seed_link 4 13 2;
         seed_link 5 14 3; seed_link 5 12 1; seed_link 5 15 1; seed_link 5 16 2;
         seed_link 6 16 4; seed_link 6 4 100;
         seed_link 7 17 500; seed_link 7 18 50; seed_link 7 19 100;
         seed_link 8 20 400; seed_link 8 21 3; seed_link 8 22 150; seed_link 8 9 100;
         seed_link 11 23 200; seed_link 11 12 1; seed_link 11 16 3 ];
     Pasos :=
       {| rows :=
            [ seed_paso 1 1 1 "Cortar la carne en trozos pequeños.";
              seed_paso 2 1 2 "Marinar con achiote y jugo de piña.";
              seed_paso 3 1 3 "Cocinar en sartén y servir con piña.";
              seed_paso 4 2 1 "Mezclar azúcar con crema.";
              seed_paso 5 2 2 "Hornear durante 30 minutos.";
              seed_paso 6 3 1 "Lavar y cortar la lechuga.";
              seed_paso 7 3 2 "Cocinar el pollo a la parrilla y cortarlo en tiras.";
              seed_paso 8 3 3 "Mezclar todo con el aderezo, crutones y queso.";
              seed_paso 9 5 1 "Machacar los aguacates.";
              seed_paso 10 5 2 "Picar finamente la cebolla, tomate y cilantro.";
              seed_paso 11 5 3 "Mezclar todo y sazonar con limón y sal." ];
          auto_increment := 12 |};
     Valoraciones :=
       {| rows :=
            [ {| Valoracion.id_valoracion := 1; Valoracion.id_receta := Some 1;
                 Valoracion.id_usuario := Some 2; Valoracion.puntuacion := Some 5;
                 Valoracion.comentario := Some "¡Deliciosos tacos!";
                 Valoracion.fecha_valoracion := Some installed |};
              {| Valoracion.id_valoracion := 2; Valoracion.id_receta := Some 2;
                 Valoracion.id_usuario := Some 1; Valoracion.puntuacion := Some 4;
                 Valoracion.comentario := Some "Se ve bien, pero soy pobre 😭";
                 Valoracion.fecha_valoracion := Some installed |} ];
          auto_increment := 3 |};
     Suscripciones :=
       {| rows :=
            [ {| Suscripcion.id_suscripcion := 1; Suscripcion.id_usuario := Some 2;
                 Suscripcion.fecha_inicio := Some installed;
                 Suscripcion.fecha_fin := Some (installed + 30 * 86400);
                 Suscripcion.monto := Some 9999 |} ];
          auto_increment := 2 |};
     now := installed;
     read_datetime := fun _ => None |}.

Open Scope list_scope.

(* ===================================================================== *)
(** * Vocabulary of the statements *)
(* ===================================================================== *)

(** ** Requests *)

(** A request with a body and no path parameter, one with a path parameter
    only, and the three this development names. *)
Definition post (b : obj) : request := {| id := 0; termino := ""; body := b |}.

Definition by_id (n : Z) : request := {| id := n; termino := ""; body := [] |}.

Definition buscar_termino (t : string) : request := {| id := 0; termino := t; body := [] |}.

Definition login (email contrasena : string) : request :=
  post [("email", JStr email); ("contrasena", JStr contrasena)].

Definition logout (n : Z) : request := post [("id_sesion", JNum n)].

(** ** Keys and ranges *)

(** An integer that an INT column holds. *)
Definition in_int (n : Z) : Prop := int_min <= n <= int_max.

Definition paso_keys (s : Store) : list Z := map Paso.id_paso (rows (Pasos s)).
Definition ingrediente_keys (s : Store) : list Z :=
  map Ingrediente.id_ingrediente (rows (Ingredientes s)).
Definition valoracion_keys (s : Store) : list Z :=
  map Valoracion.id_valoracion (rows (Valoraciones s)).
Definition suscripcion_keys (s : Store) : list Z :=
  map Suscripcion.id_suscripcion (rows (Suscripciones s)).

(** What PRIMARY KEY promises of the three tables the search joins. *)
Definition keys_unique (s : Store) : Prop :=
  NoDup (receta_keys s) /\ NoDup (categoria_keys s) /\ NoDup (usuario_keys s).

(** The keys of a table are pairwise different and below the next key. *)
Definition keyed {A} (key : A -> Z) (t : table A) : Prop :=
  NoDup (map key (rows t))
  /\ forall k, In k (map key (rows t)) -> k < auto_increment t.

Definition store_keyed (s : Store) : Prop :=
  keyed Receta.id_receta (Recetas s)
  /\ keyed Categoria.id_categoria (Categorias s)
  /\ keyed Usuario.id_usuario (Usuarios s).

(** The stores the application can be in: the installed data, then any
    statement that goes through, the clock moving in between. *)
Inductive reachable : Store -> Prop :=
| reachable_seed : reachable seed
| reachable_write (q : write_stmt) (s s' : Store) (hd : header) :
    reachable s -> write_rows q s = inr (hd, s') -> reachable s'
| reachable_clock (t : Z) (s : Store) :
    reachable s -> reachable (set_now t s).

(** ** Ratings *)

(** User 2 rates recipe 1 with a 6. *)
Definition puntuacion_6 : request :=
  post [("id_receta", JNum 1); ("id_usuario", JNum 2); ("puntuacion", JNum 6)].

(** The row that a successful [POST /api/valoraciones] stores. *)
Definition nueva_valoracion (s : Store) (r u z : Z) (c : option string) : Valoracion.t :=
  {| Valoracion.id_valoracion := auto_increment (Valoraciones s);
     Valoracion.id_receta := Some r; Valoracion.id_usuario := Some u;
     Valoracion.puntuacion := Some z; Valoracion.comentario := c;
     Valoracion.fecha_valoracion := Some (now s) |}.

(** ** Sessions and users *)

(** [SELECT * FROM Usuarios WHERE email = ?] for a text parameter. *)
Definition usuarios_con_email (s : Store) (e : string) : list Usuario.t :=
  filter (fun u => text_eqb (Usuario.email u) e) (rows (Usuarios s)).

(** The one response of a failed login. *)
Definition credenciales_invalidas : response :=
  res_json 401 [("error", JStr "Credenciales inválidas")].

(** The two responses of a logout. *)
Definition sesion_cerrada : response :=
  res_json 200 [("mensaje", JStr "Sesión cerrada correctamente")].
Definition sesion_no_existe : response :=
  res_json 404 [("mensaje", JStr "La sesión no existe o ya estaba cerrada")].

(** The store after [UPDATE Sesiones SET fecha_cierre = NOW() WHERE
    id_sesion = n AND fecha_cierre IS NULL]. *)
Definition closed (n : Z) (s : Store) : Store :=
  set_Sesiones (update_where (sesion_abierta n) (cerrar (now s)) (Sesiones s)) s.

(** The installed data after session 1 was closed, an hour later. *)
Definition una_hora_despues : Store :=
  set_now (installed + 3600) (snd (sesiones_logout api (logout 1) seed)).


Definition melani_con_contrasena : request :=
  {| id := 1; termino := "";
     body := [("nombre", JStr "Mel"); ("email", JStr "melani@example.com");
              ("contrasena", JStr "nueva")] |}.


(** ** Storage failures *)

(** The call recorded as [e] threw an error with the message [msg]. *)
Definition threw (msg : string) (e : event) : Prop :=
  match e with
  | Selected _ t => t = Some msg
  | Wrote _ t => t = Some msg
  end.

(** ** Delete and update *)

(** [res.json({ mensaje: "... eliminada correctamente" })] and
    [res.json({ mensaje: "... actualizada correctamente" })]; [usuarios.js]
    has the key [message]. *)
Definition eliminado (k msg : string) : response := res_json 200 [(k, JStr msg)].

Definition actualizado (k msg : string) : response := res_json 200 [(k, JStr msg)].

Section Update.
Context {S : Type} (E : Env S) (req : request).

Let f := prop (body req).

(** The UPDATE each route sends once its required fields are there. *)
Definition recetas_put_stmt : write_stmt :=
  UpdReceta (f "titulo") (f "descripcion") (f "tiempo_preparacion") (f "costo")
    (f "es_publica") (f "es_premium") (f "categoria_id") (f "autor_id") (id req).
Definition valoraciones_put_stmt : write_stmt :=
  UpdValoracion (f "puntuacion") (f "comentario") (id req).
Definition suscripciones_put_stmt : write_stmt :=
  UpdSuscripcion (f "fecha_fin") (f "monto") (id req).
Definition categorias_put_stmt : write_stmt := UpdCategoria (f "nombre") (id req).
Definition pasos_put_stmt : write_stmt :=
  UpdPaso (f "numero_paso") (f "descripcion") (id req).
Definition ingredientes_put_stmt : write_stmt :=
  UpdIngrediente (f "nombre") (f "unidad_medida") (id req).
Definition usuarios_put_stmt (hash : option string) : write_stmt :=
  match hash with
  | Some h => UpdUsuarioContrasena (f "nombre") (f "email") (f "tipo_usuario") (JStr h) (id req)
  | None => UpdUsuario (f "nombre") (f "email") (f "tipo_usuario") (id req)
  end.

(** The required fields each route tests before its [try]. *)
Definition valoraciones_put_guard : bool := truthy (f "puntuacion").
Definition suscripciones_put_guard : bool := truthy (f "fecha_fin") && truthy (f "monto").
Definition categorias_put_guard : bool := truthy (f "nombre").
Definition pasos_put_guard : bool := truthy (f "numero_paso") && truthy (f "descripcion").
Definition ingredientes_put_guard : bool := truthy (f "nombre").

(** [usuarios.js] hashes a truthy [contrasena] and otherwise sends the
    UPDATE that has no [contrasena = ?]. *)
Definition usuarios_put_hash (hash : option string) : Prop :=
  match hash with
  | Some h => truthy (f "contrasena") = true
              /\ bcrypt_hash E (f "contrasena") saltRounds = inr h
  | None => truthy (f "contrasena") = false
  end.
End Update.

(** ** Recipes *)

(** The recipe that [POST /api/recetas] stores for the body [{ titulo: "Flan" }]
    on the installed data, and the store it leaves. *)
Definition flan : Receta.t :=
  {| Receta.id_receta := 13; Receta.titulo := "Flan"; Receta.descripcion := None;
     Receta.tiempo_preparacion := None; Receta.costo := None;
     Receta.es_publica := None; Receta.es_premium := None;
     Receta.categoria_id := None; Receta.autor_id := None;
     Receta.fecha_creacion := Some installed;
     Receta.fecha_modificacion := Some installed |}.

Definition seed_con_flan : Store :=
  snd (recetas_post api (post [("titulo", JStr "Flan")]) seed).

(** The eight cells that the engine makes of the eight parameters of
    [UPDATE Recetas]. *)
Record receta_cells : Type := {
  c_titulo : string;
  c_descripcion : option string;
  c_tiempo_preparacion : option Z;
  c_costo : option Z;
  c_es_publica : option Z;
  c_es_premium : option Z;
  c_categoria_id : option Z;
  c_autor_id : option Z
}.

(** [c] is what the column types make of the fields [f] of a body. *)
Definition receta_cells_of (f : string -> jsval) (c : receta_cells) : Prop :=
  not_null "titulo" (col_varchar 150 "titulo" (f "titulo")) = inr (c_titulo c)
  /\ col_text "descripcion" (f "descripcion") = inr (c_descripcion c)
  /\ col_int "tiempo_preparacion" (f "tiempo_preparacion") = inr (c_tiempo_preparacion c)
  /\ col_decimal "costo" (f "costo") = inr (c_costo c)
  /\ col_boolean "es_publica" (f "es_publica") = inr (c_es_publica c)
  /\ col_boolean "es_premium" (f "es_premium") = inr (c_es_premium c)
  /\ col_int "categoria_id" (f "categoria_id") = inr (c_categoria_id c)
  /\ col_int "autor_id" (f "autor_id") = inr (c_autor_id c).

(** The recipe [r] holds the cells [c] in its eight mutable columns. *)
Definition receta_has (r : Receta.t) (c : receta_cells) : Prop :=
  Receta.titulo r = c_titulo c
  /\ Receta.descripcion r = c_descripcion c
  /\ Receta.tiempo_preparacion r = c_tiempo_preparacion c
  /\ Receta.costo r = c_costo c
  /\ Receta.es_publica r = c_es_publica c
  /\ Receta.es_premium r = c_es_premium c
  /\ Receta.categoria_id r = c_categoria_id c
  /\ Receta.autor_id r = c_autor_id c.

(** A field left out of the body reaches a nullable column as NULL. *)
Definition omitted_is_null (f : string -> jsval) (c : receta_cells) : Prop :=
  (f "descripcion" = JUndefined -> c_descripcion c = None)
  /\ (f "tiempo_preparacion" = JUndefined -> c_tiempo_preparacion c = None)
  /\ (f "costo" = JUndefined -> c_costo c = None)
  /\ (f "es_publica" = JUndefined -> c_es_publica c = None)
  /\ (f "es_premium" = JUndefined -> c_es_premium c = None)
  /\ (f "categoria_id" = JUndefined -> c_categoria_id c = None)
  /\ (f "autor_id" = JUndefined -> c_autor_id c = None).

(** An update of recipe 1 that gives a title and nothing else, and the
    cells it asks for. *)
Definition solo_titulo : request :=
  {| id := 1; termino := ""; body := [("titulo", JStr "Tacos")] |}.

Definition solo_titulo_cells : receta_cells :=
  {| c_titulo := "Tacos"; c_descripcion := None; c_tiempo_preparacion := None;
     c_costo := None; c_es_publica := None; c_es_premium := None;
     c_categoria_id := None; c_autor_id := None |}.

(** ** Search *)



(** The rows that the query builds for recipe [r] before DISTINCT. *)
Definition buscar_block (s : Store) (p : string) (r : Receta.t) : list obj :=
  flat_map (fun row =>
    flat_map (fun i => if buscar_where p p r i then [row] else [])
      (receta_ingredientes s r))
    (receta_joined s r).

(** ** Sessions, responses *)

(** The session that a successful login opens for user [u]. *)
Definition sesion_nueva (s : Store) (u : Usuario.t) : Sesion.t :=
  {| Sesion.id_sesion := auto_increment (Sesiones s);
     Sesion.id_usuario := Some (Usuario.id_usuario u);
     Sesion.fecha_inicio := Some (now s); Sesion.fecha_cierre := None |}.

(** [res.status(201).json({ id_sesion, id_usuario, mensaje: "Sesión iniciada" })] *)
Definition sesion_iniciada (id_sesion id_usuario : Z) : response :=
  res_json 201 [("id_sesion", JNum id_sesion); ("id_usuario", JNum id_usuario);
                ("mensaje", JStr "Sesión iniciada")].

(** The object a response carries, when it carries one. *)
Definition json_obj (r : response) : obj :=
  match json r with Obj o => o | Arr _ => [] end.

(** The rows a response carries, when it carries an array. *)
Definition json_rows (r : response) : list obj :=
  match json r with Arr rows => rows | Obj _ => [] end.

(** Eva registers on the installed data, with the password "secreto". *)
Definition eva : request :=
  post [("nombre", JStr "Eva"); ("email", JStr "eva@example.com");
        ("contrasena", JStr "secreto")].

(** The installed data once Eva has registered. *)
Definition seed_con_eva : Store := snd (usuarios_post api eva seed).

(** [res.status(404).json({ mensaje })] of the get-by-id routes. *)
Definition no_encontrado (msg : string) : response :=
  res_json 404 [("mensaje", JStr msg)].

(** [res.status(400).json({ error })] of the validations. *)
Definition requerido (msg : string) : response :=
  res_json 400 [("error", JStr msg)].

(** The response of a create route repeats the body [b] over the key the
    engine gave: every field of [b] as it came, and the key under [k] unless
    [b] has a field of that name. *)
Definition echoes (r : response) (k : string) (key : Z) (b : obj) : Prop :=
  (forall f v, In (f, v) b -> v <> JUndefined -> prop (json_obj r) f = v)
  /\ (~ In k (map fst b) -> prop (json_obj r) k = JNum key).

(** ** Calls of the pool *)

(** The recorded call is a query: it asked for rows and wrote nothing. *)
Definition is_select (e : event) : Prop :=
  match e with Selected _ _ => True | Wrote _ _ => False end.

(** ** The constraints of [schema.sql] as properties of a store *)

(** Every FOREIGN KEY cell is NULL or the key of a row of the table it
    references. *)
Definition references_hold (s : Store) : Prop :=
  Forall (fun x => references (Sesion.id_usuario x) (usuario_keys s) = true)
    (rows (Sesiones s))
  /\ Forall (fun r => references (Receta.categoria_id r) (categoria_keys s) = true
                      /\ references (Receta.autor_id r) (usuario_keys s) = true)
       (rows (Recetas s))
  /\ Forall (fun x => references (Some (AutorReceta.id_receta x)) (receta_keys s) = true
                      /\ references (Some (AutorReceta.id_usuario x)) (usuario_keys s) = true)
       (Autores_Receta s)
  /\ Forall (fun x => references (Some (RecetaIngrediente.id_receta x)) (receta_keys s) = true
                      /\ references (Some (RecetaIngrediente.id_ingrediente x))
                           (ingrediente_keys s) = true)
       (Receta_Ingrediente s)
  /\ Forall (fun p => references (Paso.id_receta p) (receta_keys s) = true)
       (rows (Pasos s))
  /\ Forall (fun v => references (Valoracion.id_receta v) (receta_keys s) = true
                      /\ references (Valoracion.id_usuario v) (usuario_keys s) = true)
       (rows (Valoraciones s))
  /\ Forall (fun x => references (Suscripcion.id_usuario x) (usuario_keys s) = true)
       (rows (Suscripciones s)).

(** [CHECK (puntuacion BETWEEN 1 AND 5)] holds of every stored rating. *)
Definition scores_in_range (s : Store) : Prop :=
  Forall (fun v => puntuacion_check (Valoracion.puntuacion v) = true)
    (rows (Valoraciones s)).

(** [UNIQUE] on [Usuarios.email]: under the collation, no text is the email
    of two users. *)
Definition emails_unique (s : Store) : Prop :=
  forall e, (List.length (usuarios_con_email s e) <= 1)%nat.

(** The same, of the rows of the table. *)
Definition unique_emails (l : list Usuario.t) : Prop :=
  forall e, (List.length (filter (fun u => text_eqb (Usuario.email u) e) l) <= 1)%nat.

(** Decided on the rows: each email differs from the ones after it. *)
Fixpoint emails_differ (l : list Usuario.t) : bool :=
  match l with
  | [] => true
  | u :: l' =>
      negb (existsb (fun v => text_eqb (Usuario.email v) (Usuario.email u)) l')
      && emails_differ l'
  end.

(** ** Order of the listings *)

(** Step [a] may come before step [b] under [ORDER BY numero_paso]. *)
Definition paso_antes (a b : Paso.t) : Prop :=
  asc (Paso.numero_paso a) (Paso.numero_paso b) = true.

(** Rating [a] may come before rating [b] under
    [ORDER BY fecha_valoracion DESC]. *)
Definition valoracion_despues (a b : Valoracion.t) : bool :=
  desc (Valoracion.fecha_valoracion a) (Valoracion.fecha_valoracion b).

(** The rows that [JOIN Usuarios u ON v.id_usuario = u.id_usuario] makes of
    one rating: [v.*] and [u.nombre AS nombre_usuario]. *)
Definition valoracion_con_usuario (s : Store) (v : Valoracion.t) : list obj :=
  map (fun u => valoracion_row v ++ [("nombre_usuario", JStr (Usuario.nombre u))])
    (filter (fun u => cell_is (Valoracion.id_usuario v) (Usuario.id_usuario u))
       (rows (Usuarios s))).

(** ** Columns outside the SET lists *)

(** The key of a row with the columns that no UPDATE of the routes has in
    its SET list. *)
Definition paso_fijo (p : Paso.t) : Z * option Z :=
  (Paso.id_paso p, Paso.id_receta p).

(** The same for a rating, a subscription and a user. *)
Definition valoracion_fija (v : Valoracion.t) : Z * option Z * option Z * option Z :=
  (Valoracion.id_valoracion v, Valoracion.id_receta v, Valoracion.id_usuario v,
   Valoracion.fecha_valoracion v).

Definition suscripcion_fija (x : Suscripcion.t) : Z * option Z * option Z :=
  (Suscripcion.id_suscripcion x, Suscripcion.id_usuario x, Suscripcion.fecha_inicio x).

Definition usuario_fijo (u : Usuario.t) : Z * option Z :=
  (Usuario.id_usuario u, Usuario.fecha_registro u).

(** ** Search terms *)

(** A search term made of the operator [%] only. *)
Definition solo_comodines (t : string) : bool :=
  forallb (Ascii.eqb "%") (chars t).

(* ===================================================================== *)
(** * Facts about the engine *)
(* ===================================================================== *)

Lemma col_int_num col n : in_int n -> col_int col (JNum n) = inr (Some n).
Proof.
  intros [Hlo Hhi]. unfold col_int, col_ranged.
  apply Z.leb_le in Hlo, Hhi. now rewrite Hlo, Hhi.
Qed.

Lemma references_in n keys : In n keys -> references (Some n) keys = true.
Proof.
  intros Hin. apply existsb_exists. exists n. split; [assumption | apply Z.eqb_refl].
Qed.

Lemma next_key_free {A} (t : table A) :
  auto_increment t <= int_max -> next_key t = inr (auto_increment t).
Proof. intros H. unfold next_key. apply Z.leb_le in H. now rewrite H. Qed.

Lemma puntuacion_check_range z :
  puntuacion_check (Some z) = true <-> 1 <= z <= 5.
Proof. unfold puntuacion_check. rewrite andb_true_iff, !Z.leb_le. tauto. Qed.

(** An INSERT into Valoraciones whose score is an integer outside 1..5 is
    refused, whatever its other parameters are. *)
Lemma ins_valoracion_refused s r u z c :
  z < 1 \/ 5 < z ->
  exists msg, ins_valoracion s r u (JNum z) c = inl msg.
Proof.
  intros Hz. unfold ins_valoracion, bind_err.
  destruct (col_int "id_receta" r); [eauto |].
  destruct (col_int "id_usuario" u); [eauto |].
  destruct (col_int "puntuacion" (JNum z)) as [| p] eqn:Hp; [eauto |].
  destruct (col_text "comentario" c); [eauto |].
  destruct (next_key (Valoraciones s)); [eauto |].
  assert (puntuacion_check p = false) as ->; [| simpl; eauto].
  unfold col_int, col_ranged in Hp.
  destruct ((int_min <=? z) && (z <=? int_max)); inversion Hp; subst.
  unfold puntuacion_check. apply andb_false_iff. rewrite !Z.leb_gt. lia.
Qed.

(* ===================================================================== *)
(** * Statements whose WHERE clause matches no row *)
(* ===================================================================== *)

Lemma no_row_with_key {A} (key : A -> Z) (n : Z) (l : list A) :
  ~ In n (map key l) -> existsb (fun x => key x =? n) l = false.
Proof.
  intros Hn. induction l as [| x l IH]; [reflexivity |].
  cbn [existsb map In] in *. destruct (Z.eqb_spec (key x) n) as [Heq | _].
  - exfalso. apply Hn. now left.
  - apply IH. intros Hin. apply Hn. now right.
Qed.

Lemma existsb_false_filter {A} (p : A -> bool) (l : list A) :
  existsb p l = false -> filter (fun x => negb (p x)) l = l /\ count p l = 0.
Proof.
  unfold count. induction l as [| x l IH]; [intros _; split; reflexivity |].
  cbn [existsb filter]. intros H. apply orb_false_iff in H as [Hx Hl].
  rewrite Hx. cbn [negb]. destruct (IH Hl) as [-> ->]. split; reflexivity.
Qed.

Lemma set_Pasos_same s : set_Pasos (with_rows (Pasos s) (rows (Pasos s))) s = s.
Proof. destruct s as [? ? ? ? ? ? ? [? ?] ? ? ? ?]. reflexivity. Qed.

Lemma set_Valoraciones_same s :
  set_Valoraciones (with_rows (Valoraciones s) (rows (Valoraciones s))) s = s.
Proof. destruct s as [? ? ? ? ? ? ? ? [? ?] ? ? ?]. reflexivity. Qed.

Lemma set_Suscripciones_same s :
  set_Suscripciones (with_rows (Suscripciones s) (rows (Suscripciones s))) s = s.
Proof. destruct s as [? ? ? ? ? ? ? ? ? [? ?] ? ?]. reflexivity. Qed.

(** A DELETE by a key that no row has goes through, removes nothing and
    reports zero affected rows. *)
Lemma delete_missing s :
  (forall n, ~ In n (usuario_keys s) -> write_rows (DelUsuario n) s = inr (affected 0, s))
  /\ (forall n, ~ In n (categoria_keys s) -> write_rows (DelCategoria n) s = inr (affected 0, s))
  /\ (forall n, ~ In n (receta_keys s) -> write_rows (DelReceta n) s = inr (affected 0, s))
  /\ (forall n, ~ In n (ingrediente_keys s) ->
        write_rows (DelIngrediente n) s = inr (affected 0, s))
  /\ (forall n, ~ In n (paso_keys s) -> write_rows (DelPaso n) s = inr (affected 0, s))
  /\ (forall n, ~ In n (valoracion_keys s) ->
        write_rows (DelValoracion n) s = inr (affected 0, s))
  /\ (forall n, ~ In n (suscripcion_keys s) ->
        write_rows (DelSuscripcion n) s = inr (affected 0, s)).
Proof.
  repeat split; intros n Hn; simpl;
    unfold del_usuario, del_categoria, del_receta, del_ingrediente,
      del_paso, del_valoracion, del_suscripcion, written;
    apply no_row_with_key in Hn; try (rewrite Hn; reflexivity);
    destruct (existsb_false_filter _ _ Hn) as [Hf Hc];
    unfold delete_where; rewrite Hf, Hc;
    [rewrite set_Pasos_same | rewrite set_Valoraciones_same | rewrite set_Suscripciones_same];
    reflexivity.
Qed.

(** An UPDATE by a key that no row has goes through before any of its values
    is looked at. *)
Lemma update_missing s :
  (forall n a b c, ~ In n (usuario_keys s) ->
      write_rows (UpdUsuario a b c n) s = inr (affected 0, s))
  /\ (forall n a b c d, ~ In n (usuario_keys s) ->
      write_rows (UpdUsuarioContrasena a b c d n) s = inr (affected 0, s))
  /\ (forall n a, ~ In n (categoria_keys s) ->
      write_rows (UpdCategoria a n) s = inr (affected 0, s))
  /\ (forall n a b c d e f g h, ~ In n (receta_keys s) ->
      write_rows (UpdReceta a b c d e f g h n) s = inr (affected 0, s))
  /\ (forall n a b, ~ In n (ingrediente_keys s) ->
      write_rows (UpdIngrediente a b n) s = inr (affected 0, s))
  /\ (forall n a b, ~ In n (paso_keys s) ->
      write_rows (UpdPaso a b n) s = inr (affected 0, s))
  /\ (forall n a b, ~ In n (valoracion_keys s) ->
      write_rows (UpdValoracion a b n) s = inr (affected 0, s))
  /\ (forall n a b, ~ In n (suscripcion_keys s) ->
      write_rows (UpdSuscripcion a b n) s = inr (affected 0, s)).
Proof.
  repeat split; intros; simpl;
    unfold upd_usuario, upd_categoria, upd_receta, upd_ingrediente,
      upd_paso, upd_valoracion, upd_suscripcion, written;
    match goal with H : ~ In _ _ |- _ => apply no_row_with_key in H; rewrite H end;
    reflexivity.
Qed.

(* ===================================================================== *)
(** * PRIMARY KEY with AUTO_INCREMENT keeps the keys unique *)
(* ===================================================================== *)

Lemma keyed_push {A} (key : A -> Z) (t : table A) (row : A) :
  keyed key t -> key row = auto_increment t -> keyed key (push t row).
Proof.
  intros [Hnd Hlt] Hrow. unfold keyed, push. cbn [rows auto_increment].
  rewrite map_app. cbn [map]. split.
  - apply NoDup_app; [exact Hnd | repeat constructor; intros [] | ].
    intros k Hk [<- | []]. apply Hlt in Hk. lia.
  - intros k Hk. apply in_app_or in Hk as [Hk | [<- | []]]; [apply Hlt in Hk |]; lia.
Qed.

Lemma keyed_update {A} (key : A -> Z) (p : A -> bool) (g : A -> A) (t : table A) :
  keyed key t -> (forall r, key (g r) = key r) -> keyed key (update_where p g t).
Proof.
  intros Hk Hg. unfold keyed, update_where, with_rows. cbn [rows auto_increment].
  replace (map key (map (fun r => if p r then g r else r) (rows t)))
    with (map key (rows t)); [exact Hk |].
  rewrite map_map. apply map_ext. intros r. now destruct (p r).
Qed.

Lemma keyed_delete {A} (key : A -> Z) (p : A -> bool) (t : table A) :
  keyed key t -> keyed key (delete_where p t).
Proof.
  intros [Hnd Hlt]. unfold keyed, delete_where, with_rows. cbn [rows auto_increment].
  split.
  - induction (rows t) as [| r l IH]; [constructor |].
    cbn [map] in Hnd. apply NoDup_cons_iff in Hnd as [Hr Hl].
    cbn [filter]. destruct (negb (p r)); [| apply IH; [exact Hl | ]].
    + cbn [map]. constructor; [| apply IH; [exact Hl |]].
      * intros Hin. apply Hr. apply in_map_iff in Hin as (x & Hx & Hin).
        apply filter_In in Hin as [Hin _]. rewrite <- Hx. now apply in_map.
      * intros k Hk. apply Hlt. now right.
    + intros k Hk. apply Hlt. now right.
  - intros k Hk. apply Hlt. apply in_map_iff in Hk as (x & Hx & Hin).
    apply filter_In in Hin as [Hin _]. rewrite <- Hx. now apply in_map.
Qed.

Lemma next_key_value {A} (t : table A) (k : Z) :
  next_key t = inr k -> k = auto_increment t.
Proof.
  unfold next_key. destruct (auto_increment t <=? int_max); congruence.
Qed.

(** Cases on the scrutinee at the head of the statement's outcome. *)
Ltac outcome_case :=
  match goal with
  | |- (match next_key ?t with _ => _ end = _) -> _ =>
      let H := fresh "Hkey" in
      destruct (next_key t) eqn:H; [| apply next_key_value in H; subst]
  | |- (match ?x with _ => _ end = _) -> _ => destruct x
  | |- ((if ?b then _ else _) = _) -> _ => destruct b
  end.

(** Every statement that goes through leaves the keys unique. *)
Lemma writes_keep_keys (q : write_stmt) (s s' : Store) (hd : header) :
  store_keyed s -> write_rows q s = inr (hd, s') -> store_keyed s'.
Proof.
  intros (Hr & Hc & Hu).
  destruct q; cbn [write_rows];
    unfold ins_usuario, upd_usuario, del_usuario, ins_sesion, upd_sesion_cierre,
      ins_categoria, upd_categoria, del_categoria, ins_receta, upd_receta, del_receta,
      ins_ingrediente, upd_ingrediente, del_ingrediente, ins_paso, upd_paso, del_paso,
      ins_valoracion, upd_valoracion, del_valoracion, ins_suscripcion, upd_suscripcion,
      del_suscripcion, bind_err, written, require;
    cbv zeta; repeat outcome_case; intros H; try discriminate H;
    injection H as _ <-; unfold store_keyed; cbn;
    (split; [| split]);
    try assumption;
    try (apply keyed_push; [assumption | reflexivity]);
    try (apply keyed_update; [assumption | reflexivity]);
    try (apply keyed_delete; assumption).
Qed.

Lemma store_keyed_unique s : store_keyed s -> keys_unique s.
Proof. intros ((Hr & _) & (Hc & _) & (Hu & _)). now repeat split. Qed.

Lemma seed_keyed : store_keyed seed.
Proof.
  repeat split;
    try (cbv [seed rows Recetas Categorias Usuarios map seed_receta seed_categoria
           seed_usuario Receta.id_receta Categoria.id_categoria Usuario.id_usuario];
         repeat (constructor; [cbn [In]; intuition discriminate |]); constructor);
    intros k Hk; cbn in Hk; intuition (subst; reflexivity).
Qed.

(** The hypothesis of the search theorem holds of every store the
    application can be in. *)
Lemma reachable_keys_unique s : reachable s -> keys_unique s.
Proof.
  intros H. apply store_keyed_unique. induction H as [| q s s' hd _ IH Hq | t s _ IH].
  - exact seed_keyed.
  - exact (writes_keep_keys q s s' hd IH Hq).
  - exact IH.
Qed.

(* ===================================================================== *)
(** * LIKE on a term without operators *)
(* ===================================================================== *)

Lemma chars_append (a b : string) : chars (a ++ b)%string = chars a ++ chars b.
Proof.
  unfold chars. induction a as [| c a IH]; [reflexivity |].
  cbn. now rewrite IH.
Qed.

Lemma like_percent p s :
  like_chars ("%"%char :: p) s
  = like_chars p s
    || match s with [] => false | _ :: s' => like_chars ("%"%char :: p) s' end.
Proof. destruct s; reflexivity. Qed.


Lemma like_percent_only s : like_chars ["%"%char] s = true.
Proof.
  induction s as [| b s IH]; rewrite like_percent; [reflexivity |].
  rewrite IH. apply orb_true_r.
Qed.



(* ===================================================================== *)
(** * Tactics to run a handler *)
(* ===================================================================== *)

(** Splits membership in [routes] into its thirty-eight cases. *)
Ltac each_route H :=
  simpl in H;
  repeat (destruct H as [H | H]; [injection H as _ <- |]);
  [.. | contradiction].

(** Runs a handler symbolically: every call of the environment becomes a
    case on its outcome. *)
Ltac run_env E :=
  repeat match goal with
    | |- context [db_write E ?q ?s] =>
        let r := fresh "r" in let s' := fresh "s" in
        destruct (db_write E q s) as [[r | r] s']; simpl
    | |- context [db_select E ?q ?s] =>
        let r := fresh "r" in let s' := fresh "s" in
        destruct (db_select E q s) as [[r | r] s']; simpl
    | |- context [bcrypt_hash E ?d ?n] =>
        let r := fresh "r" in destruct (bcrypt_hash E d n) as [r | r]; simpl
    | |- context [bcrypt_compare E ?d ?h] =>
        let r := fresh "r" in destruct (bcrypt_compare E d h) as [r | r]; simpl
    | |- context [if ?b then _ else _] => destruct b; simpl
    | |- context [match ?l with [] => _ | _ :: _ => _ end] => destruct l; simpl
    end.

Ltac unfold_routes :=
  unfold usuarios_get, usuarios_post, usuarios_put, usuarios_delete,
    sesiones_login, sesiones_logout,
    categorias_get, categorias_get_id, categorias_post, categorias_put, categorias_delete,
    recetas_get, recetas_get_id, recetas_buscar, recetas_post, recetas_put, recetas_delete,
    pasos_get_receta, pasos_get_id, pasos_post, pasos_put, pasos_delete,
    ingredientes_get, ingredientes_get_id, ingredientes_post, ingredientes_put,
    ingredientes_delete,
    valoraciones_get_receta, valoraciones_get_id, valoraciones_post, valoraciones_put,
    valoraciones_delete,
    suscripciones_get, suscripciones_get_usuario, suscripciones_get_id,
    suscripciones_post, suscripciones_put, suscripciones_delete,
    try_catch, bind, ret, reply, await, first_or_404.

(* ===================================================================== *)
(** * C1: the score of a rating *)
(* ===================================================================== *)

(** C1, as the code has it.  For a request whose [id_receta] and
    [id_usuario] are non-zero integers and whose [puntuacion] is the integer
    [z]: with [z = 0] the handler answers 400 and no statement reaches the
    engine; with [1 <= z <= 5], references to stored rows, a comment that
    fits and a free key it answers 201 and the row is stored; with any other
    [z] the INSERT reaches the engine, which refuses it, the handler answers
    500 with the engine's message and nothing is stored. *)
Theorem C1_rating_score :
  forall hash compare (req : request) (s : Store) (log : list event) (r u z : Z),
    prop (body req) "id_receta" = JNum r ->
    prop (body req) "id_usuario" = JNum u ->
    prop (body req) "puntuacion" = JNum z ->
    r <> 0 -> u <> 0 ->
    let E := logged (cookshare hash compare) in
    let q := InsValoracion (JNum r) (JNum u) (JNum z) (prop (body req) "comentario") in
    (z = 0 ->
       valoraciones_post E req (s, log)
       = (res_json 400 [("error", JStr "id_receta, id_usuario y puntuacion son requeridos")],
          (s, log)))
    /\ (1 <= z <= 5 ->
        forall c,
          In r (receta_keys s) -> In u (usuario_keys s) -> in_int r -> in_int u ->
          col_text "comentario" (prop (body req) "comentario") = inr c ->
          auto_increment (Valoraciones s) <= int_max ->
          valoraciones_post E req (s, log)
          = (res_json 201 (spread [("id", JNum (auto_increment (Valoraciones s)))] (body req)),
             (set_Valoraciones (push (Valoraciones s) (nueva_valoracion s r u z c)) s,
              log ++ [Wrote q None])))
    /\ (z < 0 \/ 5 < z ->
        exists msg,
          write_rows q s = inl msg
          /\ valoraciones_post E req (s, log)
             = (res_error msg, (s, log ++ [Wrote q (Some msg)]))).
Proof.
  intros hash compare req s log r u z Hr Hu Hz Hr0 Hu0 E q.
  assert (Hguard : forall P Q : Store * list event -> response * (Store * list event),
             z <> 0 ->
             (if negb (truthy (JNum r)) || negb (truthy (JNum u)) || negb (truthy (JNum z))
              then P else Q) = Q).
  { intros P Q Hz0. simpl.
    apply Z.eqb_neq in Hr0, Hu0, Hz0. now rewrite Hr0, Hu0, Hz0. }
  repeat split.
  - intros ->. unfold valoraciones_post. rewrite Hr, Hu, Hz. simpl.
    apply Z.eqb_neq in Hr0, Hu0. now rewrite Hr0, Hu0.
  - intros Hrange c Hinr Hinu Hir Hiu Hc Hkey.
    unfold valoraciones_post. rewrite Hr, Hu, Hz, Hguard by lia.
    unfold try_catch, bind, E. simpl db_write. unfold mysql_write. simpl write_rows.
    unfold ins_valoracion, bind_err.
    rewrite !col_int_num by (assumption || (unfold in_int, int_min, int_max; lia)).
    rewrite Hc, next_key_free by assumption.
    assert (puntuacion_check (Some z) = true) as -> by now apply puntuacion_check_range.
    rewrite !references_in by assumption. reflexivity.
  - intros Hout.
    destruct (ins_valoracion_refused s (JNum r) (JNum u) z (prop (body req) "comentario"))
      as [msg Hmsg]; [lia |].
    exists msg. split; [exact Hmsg |].
    unfold valoraciones_post. rewrite Hr, Hu, Hz, Hguard by lia.
    unfold try_catch, bind, E. simpl db_write. unfold mysql_write. simpl write_rows.
    now rewrite Hmsg.
Qed.

(** C1 at the installed data: scores 0 and 5 for recipe 1 by user 2. *)
Lemma C1_rating_score_witness :
  valoraciones_post (logged api)
    (post [("id_receta", JNum 1); ("id_usuario", JNum 2); ("puntuacion", JNum 0)]) (seed, [])
  = (res_json 400 [("error", JStr "id_receta, id_usuario y puntuacion son requeridos")],
     (seed, []))
  /\ valoraciones_post (logged api)
       (post [("id_receta", JNum 1); ("id_usuario", JNum 2); ("puntuacion", JNum 5)]) (seed, [])
     = (res_json 201 [("id", JNum 3); ("id_receta", JNum 1); ("id_usuario", JNum 2);
                      ("puntuacion", JNum 5)],
        (set_Valoraciones (push (Valoraciones seed) (nueva_valoracion seed 1 2 5 None)) seed,
         [Wrote (InsValoracion (JNum 1) (JNum 2) (JNum 5) JUndefined) None])).
Proof.
  split.
  - refine (proj1 (C1_rating_score tag_hash tag_compare
                     (post [("id_receta", JNum 1); ("id_usuario", JNum 2);
                            ("puntuacion", JNum 0)])
                     seed [] 1 2 0 eq_refl eq_refl eq_refl _ _) eq_refl); lia.
  - refine (proj1 (proj2 (C1_rating_score tag_hash tag_compare
                     (post [("id_receta", JNum 1); ("id_usuario", JNum 2);
                            ("puntuacion", JNum 5)])
                     seed [] 1 2 5 eq_refl eq_refl eq_refl _ _)) _ None _ _ _ _ eq_refl _);
      try (unfold in_int, int_min, int_max; simpl; lia); simpl; tauto.
Defined.

(** C1 as stated fails at score 6: the handler has sent the INSERT to the
    engine and answers 500, not 400. *)
Lemma C1_score_6_is_sent_to_the_engine :
  status (fst (valoraciones_post (logged api) puntuacion_6 (seed, []))) = 500
  /\ status (fst (valoraciones_post (logged api) puntuacion_6 (seed, []))) <> 400
  /\ snd (snd (valoraciones_post (logged api) puntuacion_6 (seed, [])))
     = [Wrote (InsValoracion (JNum 1) (JNum 2) (JNum 6) JUndefined) (Some check_violated)].
Proof. vm_compute. repeat split. discriminate. Qed.

(* ===================================================================== *)
(** * C2: the two ways a login fails *)
(* ===================================================================== *)

Lemma truthy_text e : e <> "" -> truthy (JStr e) = true.
Proof.
  intros He. simpl. destruct (String.eqb_spec e ""); [contradiction | reflexivity].
Qed.



(* ===================================================================== *)
(** * C3: deleting a row that is not there *)
(* ===================================================================== *)

(** C3, as the code has it.  The delete routes never read the header of the
    statement: over any engine, when the DELETE goes through the answer is
    200 with the route's message, whatever [affectedRows] is; and over the
    schema a DELETE by an identifier that no row has goes through, so the
    answer is that same 200 and the store is as it was. *)
Theorem C3_delete_of_a_missing_row :
  (forall (S : Type) (E : Env S) (req : request) (s s' : S) (hd : header),
      (db_write E (DelUsuario (id req)) s = (inr hd, s') ->
       usuarios_delete E req s = (eliminado "message" "Usuario eliminado correctamente", s'))
      /\ (db_write E (DelCategoria (id req)) s = (inr hd, s') ->
          categorias_delete E req s
          = (eliminado "mensaje" "Categoría eliminada correctamente", s'))
      /\ (db_write E (DelReceta (id req)) s = (inr hd, s') ->
          recetas_delete E req s = (eliminado "mensaje" "Receta eliminada correctamente", s'))
      /\ (db_write E (DelIngrediente (id req)) s = (inr hd, s') ->
          ingredientes_delete E req s
          = (eliminado "mensaje" "Ingrediente eliminado correctamente", s'))
      /\ (db_write E (DelPaso (id req)) s = (inr hd, s') ->
          pasos_delete E req s = (eliminado "mensaje" "Paso eliminado correctamente", s'))
      /\ (db_write E (DelValoracion (id req)) s = (inr hd, s') ->
          valoraciones_delete E req s
          = (eliminado "mensaje" "Valoración eliminada correctamente", s'))
      /\ (db_write E (DelSuscripcion (id req)) s = (inr hd, s') ->
          suscripciones_delete E req s
          = (eliminado "mensaje" "Suscripción eliminada correctamente", s')))
  /\ (forall hash compare (req : request) (s : Store),
      let E := cookshare hash compare in
      (~ In (id req) (usuario_keys s) ->
       usuarios_delete E req s = (eliminado "message" "Usuario eliminado correctamente", s))
      /\ (~ In (id req) (categoria_keys s) ->
          categorias_delete E req s
          = (eliminado "mensaje" "Categoría eliminada correctamente", s))
      /\ (~ In (id req) (receta_keys s) ->
          recetas_delete E req s = (eliminado "mensaje" "Receta eliminada correctamente", s))
      /\ (~ In (id req) (ingrediente_keys s) ->
          ingredientes_delete E req s
          = (eliminado "mensaje" "Ingrediente eliminado correctamente", s))
      /\ (~ In (id req) (paso_keys s) ->
          pasos_delete E req s = (eliminado "mensaje" "Paso eliminado correctamente", s))
      /\ (~ In (id req) (valoracion_keys s) ->
          valoraciones_delete E req s
          = (eliminado "mensaje" "Valoración eliminada correctamente", s))
      /\ (~ In (id req) (suscripcion_keys s) ->
          suscripciones_delete E req s
          = (eliminado "mensaje" "Suscripción eliminada correctamente", s))).
Proof.
  split.
  - intros S E req s s' hd. repeat split; intros Hq; unfold_routes; now rewrite Hq.
  - intros hash compare req s E.
    destruct (delete_missing s) as (Hu & Hc & Hr & Hi & Hp & Hv & Hx).
    repeat split; intros Hn; unfold_routes; unfold E; simpl db_write; unfold mysql_write;
      [rewrite Hu | rewrite Hc | rewrite Hr | rewrite Hi | rewrite Hp | rewrite Hv | rewrite Hx];
      auto.
Qed.

(** C3 at the installed data: there is no recipe 999. *)
Lemma C3_delete_of_a_missing_row_witness :
  recetas_delete api (by_id 999) seed
  = (eliminado "mensaje" "Receta eliminada correctamente", seed).
Proof.
  refine (proj1 (proj2 (proj2 (proj2 C3_delete_of_a_missing_row tag_hash tag_compare
                                 (by_id 999) seed))) _).
  vm_compute. intuition discriminate.
Defined.

(** C3 as stated fails: deleting recipe 999, which does not exist, is
    answered 200 and not 404, although the engine reports that no row was
    affected. *)
Lemma C3_delete_of_recipe_999_is_answered_200 :
  write_rows (DelReceta 999) seed = inr ({| insertId := 0; affectedRows := 0 |}, seed)
  /\ status (fst (recetas_delete api (by_id 999) seed)) = 200
  /\ status (fst (recetas_delete api (by_id 999) seed)) <> 404
  /\ json (fst (recetas_delete api (by_id 999) seed))
     = Obj [("mensaje", JStr "Receta eliminada correctamente")].
Proof. vm_compute. repeat split. discriminate. Qed.

(* ===================================================================== *)
(** * C4: required fields on create *)
(* ===================================================================== *)

(** Five of the seven create routes test their required fields before the
    [try] and answer 400 without calling the environment. *)
Lemma create_routes_that_validate :
  forall (S : Type) (E : Env S) (req : request) (s : S),
    let f := prop (body req) in
    (truthy (f "nombre") = false ->
     categorias_post E req s = (res_json 400 [("error", JStr "El nombre es requerido")], s))
    /\ (truthy (f "nombre") = false ->
        ingredientes_post E req s
        = (res_json 400 [("error", JStr "El nombre es requerido")], s))
    /\ (truthy (f "id_receta") && truthy (f "numero_paso") && truthy (f "descripcion") = false ->
        pasos_post E req s
        = (res_json 400 [("error", JStr "id_receta, numero_paso y descripcion son requeridos")], s))
    /\ (truthy (f "id_receta") && truthy (f "id_usuario") && truthy (f "puntuacion") = false ->
        valoraciones_post E req s
        = (res_json 400 [("error", JStr "id_receta, id_usuario y puntuacion son requeridos")], s))
    /\ (truthy (f "id_usuario") && truthy (f "fecha_fin") && truthy (f "monto") = false ->
        suscripciones_post E req s
        = (res_json 400 [("error", JStr "id_usuario, fecha_fin y monto son requeridos")], s)).
Proof.
  intros S E req s f. subst f. repeat split; intros H; unfold_routes.
  - now rewrite H.
  - now rewrite H.
  - destruct (truthy (prop (body req) "id_receta")),
      (truthy (prop (body req) "numero_paso")),
      (truthy (prop (body req) "descripcion")); try discriminate H; reflexivity.
  - destruct (truthy (prop (body req) "id_receta")),
      (truthy (prop (body req) "id_usuario")),
      (truthy (prop (body req) "puntuacion")); try discriminate H; reflexivity.
  - destruct (truthy (prop (body req) "id_usuario")),
      (truthy (prop (body req) "fecha_fin")),
      (truthy (prop (body req) "monto")); try discriminate H; reflexivity.
Qed.

(** C4 on the code.  [recetas.js] and [usuarios.js] have no such test.  A
    recipe without [titulo] is sent to the engine and comes back as the
    storage error 500; a recipe without [categoria_id] and [autor_id] is
    stored, with 201; a user without [nombre] is hashed, sent to the engine
    and comes back as 500. *)
Theorem C4_recipe_and_user_create_send_incomplete_rows :
  recetas_post (logged api) (post []) (seed, [])
  = (res_error "Column 'titulo' cannot be null",
     (seed, [Wrote (InsReceta JUndefined JUndefined JUndefined JUndefined
                      JUndefined JUndefined JUndefined JUndefined)
               (Some "Column 'titulo' cannot be null")]))
  /\ fst (recetas_post api (post [("titulo", JStr "Flan")]) seed)
     = res_json 201 [("id_receta", JNum 13); ("titulo", JStr "Flan")]
  /\ rows (Recetas seed_con_flan) = rows (Recetas seed) ++ [flan]
  /\ usuarios_post (logged api)
       (post [("email", JStr "eva@example.com"); ("contrasena", JStr "secreto")]) (seed, [])
     = (res_error "Column 'nombre' cannot be null",
        (seed, [Wrote (InsUsuario JUndefined (JStr "eva@example.com")
                         (JStr "$2b$10$secreto") JUndefined)
                  (Some "Column 'nombre' cannot be null")])).
Proof. vm_compute. repeat split. Qed.

(* ===================================================================== *)
(** * C5: what the caller sees of a storage failure *)
(* ===================================================================== *)

(** C5, as the code has it.  Whatever the engine is: when a call of
    [db.query] made while a route handles a request throws, the response is
    status 500 with the body [{ error: err.message }], the text of the
    engine's error as it was thrown. *)
Theorem C5_engine_message_is_forwarded :
  forall (S : Type) (E : Env S) (name : string) (h : handler (S * list event)),
    In (name, h) (routes (logged E)) ->
    forall (req : request) (s : S) (e : event) (msg : string),
      In e (snd (snd (h req (s, [])))) ->
      threw msg e ->
      fst (h req (s, [])) = res_error msg.
Proof.
  intros S E name h Hin req s e msg.
  each_route Hin; unfold_routes; simpl; run_env E;
    intros Hev Hmsg; simpl in Hev;
    repeat (destruct Hev as [<- | Hev]; simpl in Hmsg; try discriminate Hmsg);
    try contradiction;
    try (injection Hmsg as <-; reflexivity).
Qed.

(** C5 at the installed data: category 3 has recipes, the engine refuses to
    delete it and the handler forwards the refusal. *)
Lemma C5_engine_message_is_forwarded_witness :
  fst (categorias_delete (logged api) (by_id 3) (seed, []))
  = res_error (fk_parent "Recetas" "1" "categoria_id" "Categorias" "id_categoria").
Proof.
  apply (C5_engine_message_is_forwarded Store api "DELETE /api/categorias/:id"
           (categorias_delete (logged api)))
    with (e := Wrote (DelCategoria 3)
                 (Some (fk_parent "Recetas" "1" "categoria_id" "Categorias" "id_categoria"))).
  - simpl. do 10 right. left. reflexivity.
  - vm_compute. left. reflexivity.
  - reflexivity.
Defined.

(** C5 as stated fails: the body of the response is the engine's own text,
    which names the schema, the tables and the constraint. *)
Lemma C5_response_carries_engine_text :
  write_rows (DelCategoria 3) seed
  = inl "Cannot delete or update a parent row: a foreign key constraint fails (`cookshare`.`Recetas`, CONSTRAINT `Recetas_ibfk_1` FOREIGN KEY (`categoria_id`) REFERENCES `Categorias` (`id_categoria`))"
  /\ categorias_delete api (by_id 3) seed
     = ({| status := 500;
           json := Obj [("error", JStr "Cannot delete or update a parent row: a foreign key constraint fails (`cookshare`.`Recetas`, CONSTRAINT `Recetas_ibfk_1` FOREIGN KEY (`categoria_id`) REFERENCES `Categorias` (`id_categoria`))")] |},
        seed).
Proof. split; vm_compute; reflexivity. Qed.

(* ===================================================================== *)
(** * C6: closing a session *)
(* ===================================================================== *)

Lemma set_Sesiones_same s :
  set_Sesiones (with_rows (Sesiones s) (rows (Sesiones s))) s = s.
Proof. destruct s as [? [? ?] ? ? ? ? ? ? ? ? ? ?]. reflexivity. Qed.

Lemma update_none {A} (p : A -> bool) (g : A -> A) (l : list A) :
  existsb p l = false ->
  map (fun r => if p r then g r else r) l = l /\ count p l = 0.
Proof.
  unfold count. induction l as [| x l IH]; [intros _; split; reflexivity |].
  cbn [existsb map filter]. intros H. apply orb_false_iff in H as [Hx Hl].
  rewrite Hx. destruct (IH Hl) as [-> ->]. split; reflexivity.
Qed.

Lemma count_some {A} (p : A -> bool) (l : list A) :
  existsb p l = true -> count p l <> 0.
Proof.
  unfold count. induction l as [| x l IH]; [discriminate |].
  cbn [existsb filter]. destruct (p x); cbn [List.length]; [lia |].
  intros H. apply IH. exact H.
Qed.

(** Once closed with [t], no row is an open session [n] any more. *)
Lemma cerrar_closes n t (l : list Sesion.t) :
  existsb (sesion_abierta n)
    (map (fun x => if sesion_abierta n x then cerrar t x else x) l) = false.
Proof.
  induction l as [| x l IH]; [reflexivity |].
  cbn [map existsb]. rewrite IH, orb_false_r.
  destruct (sesion_abierta n x) eqn:Hx; [| exact Hx].
  unfold sesion_abierta, cerrar. cbn. apply andb_false_r.
Qed.

Lemma logout_runs hash compare req s n :
  prop (body req) "id_sesion" = JNum n -> n <> 0 ->
  sesiones_logout (cookshare hash compare) req s
  = if existsb (sesion_abierta n) (rows (Sesiones s))
    then (sesion_cerrada, closed n s)
    else (sesion_no_existe, s).
Proof.
  intros Hid Hn. unfold sesiones_logout. rewrite Hid. cbn [truthy].
  apply Z.eqb_neq in Hn. rewrite Hn. cbn [negb].
  unfold try_catch, bind, ret. simpl db_write. unfold mysql_write.
  cbn [write_rows upd_sesion_cierre written]. cbn [affectedRows affected].
  destruct (existsb (sesion_abierta n) (rows (Sesiones s))) eqn:Hex.
  - apply count_some in Hex. apply Z.eqb_neq in Hex. rewrite Hex. reflexivity.
  - destruct (update_none (sesion_abierta n) (cerrar (now s)) _ Hex) as [Hmap Hcount].
    rewrite Hcount. cbn [Z.eqb]. unfold update_where. rewrite Hmap, set_Sesiones_same.
    reflexivity.
Qed.

(** C6.  For a request that names session [n]:
    - when the table has an open session [n], the answer is 200, every open
      session [n] gets the clock as its end time, and every other row of the
      table, the closed ones among them, stays as it was;
    - when it has none (no such session, or already closed), the answer is
      404 and the store is as it was;
    - after a first logout, a second one for the same session, at whatever
      time, is answered 404 and changes nothing: the end time is the one the
      first call set. *)
Theorem C6_logout :
  forall hash compare (req : request) (s : Store) (n : Z),
    prop (body req) "id_sesion" = JNum n -> n <> 0 ->
    let E := cookshare hash compare in
    (existsb (sesion_abierta n) (rows (Sesiones s)) = true ->
       sesiones_logout E req s = (sesion_cerrada, closed n s)
       /\ rows (Sesiones (closed n s))
          = map (fun x => if sesion_abierta n x then cerrar (now s) x else x)
              (rows (Sesiones s)))
    /\ (existsb (sesion_abierta n) (rows (Sesiones s)) = false ->
        sesiones_logout E req s = (sesion_no_existe, s))
    /\ (forall t : Z,
          let s1 := set_now t (snd (sesiones_logout E req s)) in
          sesiones_logout E req s1 = (sesion_no_existe, s1)).
Proof.
  intros hash compare req s n Hid Hn E.
  split; [| split].
  - intros H. unfold E. rewrite (logout_runs _ _ _ _ n Hid Hn), H. split; reflexivity.
  - intros H. unfold E. rewrite (logout_runs _ _ _ _ n Hid Hn), H. reflexivity.
  - intros t s1. unfold E in *. rewrite (logout_runs _ _ _ _ n Hid Hn).
    assert (Hnone : existsb (sesion_abierta n) (rows (Sesiones s1)) = false).
    { unfold s1. rewrite (logout_runs _ _ _ _ n Hid Hn).
      destruct (existsb (sesion_abierta n) (rows (Sesiones s))) eqn:Hex.
      - apply cerrar_closes.
      - exact Hex. }
    rewrite Hnone. reflexivity.
Qed.

(** C6 at the installed data: session 1 is closed at the installation
    instant; an hour later the second logout finds nothing to close and the
    end time is still the first one. *)
Lemma C6_logout_witness :
  fst (sesiones_logout api (logout 1) seed) = sesion_cerrada
  /\ sesiones_logout api (logout 1) una_hora_despues = (sesion_no_existe, una_hora_despues)
  /\ map Sesion.fecha_cierre
       (rows (Sesiones (snd (sesiones_logout api (logout 1) una_hora_despues))))
     = [Some installed; None].
Proof.
  destruct (C6_logout tag_hash tag_compare (logout 1) seed 1 eq_refl ltac:(lia))
    as (Hopen & _ & Htwice).
  destruct (Hopen eq_refl) as [Hfirst _].
  specialize (Htwice (installed + 3600)).
  fold api in Hfirst, Htwice. fold una_hora_despues in Htwice.
  split; [| split].
  - now rewrite Hfirst.
  - exact Htwice.
  - rewrite Htwice. vm_compute. reflexivity.
Defined.

(* ===================================================================== *)
(** * C7: the password hash across an update of a user *)
(* ===================================================================== *)





(* ===================================================================== *)
(** * C8: search by term *)
(* ===================================================================== *)

(** ** The ingredient side of the join *)


Lemma left_join_inhabited {A} (l : list A) : exists o, In o (left_join l).
Proof.
  destruct l as [| y l]; cbn [left_join map]; eexists; left; reflexivity.
Qed.

Lemma receta_ingredientes_inhabited s r : exists o, In o (receta_ingredientes s r).
Proof.
  unfold receta_ingredientes.
  destruct (left_join_inhabited
              (filter (fun x => RecetaIngrediente.id_receta x =? Receta.id_receta r)
                 (Receta_Ingrediente s))) as [[x |] Hx].
  - destruct (left_join_inhabited
                (filter (fun i => Ingrediente.id_ingrediente i
                                    =? RecetaIngrediente.id_ingrediente x)
                   (rows (Ingredientes s)))) as [o Ho].
    exists o. apply in_flat_map. exists (Some x). split; assumption.
  - exists None. apply in_flat_map. exists None. split; [assumption | now left].
Qed.



(** ** The recipe side of the join *)

Lemma filter_at_most_one {A} (key : A -> Z) (p : A -> bool) (l : list A) :
  NoDup (map key l) ->
  (forall x y, p x = true -> p y = true -> key x = key y) ->
  filter p l = [] \/ exists x, filter p l = [x].
Proof.
  intros Hnd Hp. induction l as [| x l IH]; [now left |].
  cbn [map] in Hnd. apply NoDup_cons_iff in Hnd as [Hx Hnd].
  cbn [filter]. destruct (p x) eqn:Hpx; [| exact (IH Hnd)].
  right. exists x. f_equal.
  destruct (filter p l) as [| y l'] eqn:Hf; [reflexivity |]. exfalso.
  assert (Hy : In y (filter p l)) by (rewrite Hf; now left).
  apply filter_In in Hy as [Hy Hpy]. apply Hx.
  rewrite (Hp x y Hpx Hpy). now apply in_map.
Qed.

Lemma cell_is_key c a b : cell_is c a = true -> cell_is c b = true -> a = b.
Proof.
  destruct c as [m |]; [| discriminate]. cbn [cell_is]. rewrite !Z.eqb_eq. congruence.
Qed.

(** With unique keys a recipe has at most one joined row. *)
Lemma receta_joined_at_most_one s r :
  keys_unique s ->
  receta_joined s r = [] \/ exists c u, receta_joined s r = [receta_row r c u].
Proof.
  intros (_ & Hc & Hu). unfold receta_joined.
  destruct (filter_at_most_one Categoria.id_categoria
              (fun c => cell_is (Receta.categoria_id r) (Categoria.id_categoria c))
              (rows (Categorias s)) Hc) as [-> | [c ->]].
  - intros x y. apply cell_is_key.
  - now left.
  - cbn [flat_map]. rewrite app_nil_r.
    destruct (filter_at_most_one Usuario.id_usuario
                (fun u => cell_is (Receta.autor_id r) (Usuario.id_usuario u))
                (rows (Usuarios s)) Hu) as [-> | [u ->]].
    + intros x y. apply cell_is_key.
    + now left.
    + right. now exists c, u.
Qed.

Lemma in_receta_joined s r row :
  In row (receta_joined s r)
  <-> exists c u,
        In c (rows (Categorias s)) /\ In u (rows (Usuarios s))
        /\ Receta.categoria_id r = Some (Categoria.id_categoria c)
        /\ Receta.autor_id r = Some (Usuario.id_usuario u)
        /\ row = receta_row r c u.
Proof.
  assert (Hcell : forall c n, cell_is c n = true <-> c = Some n).
  { intros [m |] n; cbn [cell_is]; [rewrite Z.eqb_eq | ]; split; congruence. }
  unfold receta_joined. rewrite in_flat_map. split.
  - intros (c & Hc & Hrow). apply filter_In in Hc as [Hc Hcid].
    apply in_map_iff in Hrow as (u & <- & Hu). apply filter_In in Hu as [Hu Huid].
    exists c, u. rewrite Hcell in Hcid, Huid. now repeat split.
  - intros (c & u & Hc & Hu & Hcid & Huid & ->). exists c. split.
    + apply filter_In. split; [exact Hc | now apply Hcell].
    + apply in_map, filter_In. split; [exact Hu | now apply Hcell].
Qed.

(** ** DISTINCT over the joined rows *)

Lemma ci_eqb_refl a : ci_eqb a a = true.
Proof. unfold ci_eqb. apply Ascii.eqb_refl. Qed.

Lemma text_eqb_refl a : text_eqb a a = true.
Proof.
  unfold text_eqb. induction (chars a) as [| c l IH]; [reflexivity |].
  cbn [text_eqb_chars]. now rewrite ci_eqb_refl, IH.
Qed.

Lemma obj_same_refl o : obj_same o o = true.
Proof.
  induction o as [| [k v] o IH]; [reflexivity |].
  cbn [obj_same]. rewrite String.eqb_refl, IH, andb_true_r.
  destruct v; cbn [jsval_same andb];
    auto using Z.eqb_refl, text_eqb_refl, Bool.eqb_reflx.
Qed.

Lemma distinct_incl l x : In x (distinct l) -> In x l.
Proof.
  revert x. induction l as [| y l IH]; intros x; [intros [] |].
  cbn [distinct]. intros [-> | Hx]; [now left |].
  apply filter_In in Hx as [Hx _]. right. now apply IH.
Qed.

Lemma filter_filter {A} (p : A -> bool) (l : list A) :
  filter p (filter p l) = filter p l.
Proof.
  induction l as [| x l IH]; [reflexivity |].
  cbn [filter]. destruct (p x) eqn:Hx; [| exact IH].
  cbn [filter]. now rewrite Hx, IH.
Qed.

Lemma filter_all {A} (p : A -> bool) (l : list A) :
  (forall x, In x l -> p x = true) -> filter p l = l.
Proof.
  induction l as [| x l IH]; [reflexivity |]. intros H.
  cbn [filter]. rewrite (H x (or_introl eq_refl)). f_equal.
  apply IH. intros y Hy. apply H. now right.
Qed.

(** A run of copies of one row, then the rest: DISTINCT keeps the first
    copy. *)
Lemma distinct_run (row : obj) (n : nat) (rest : list obj) :
  distinct (repeat row n ++ rest)
  = match n with
    | O => distinct rest
    | S _ => row :: filter (fun y => negb (obj_same row y)) (distinct rest)
    end.
Proof.
  induction n as [| n IH]; [reflexivity |].
  cbn [repeat List.app distinct]. rewrite IH. destruct n as [| n]; [reflexivity |].
  cbn [filter]. rewrite obj_same_refl. cbn [negb]. now rewrite filter_filter.
Qed.

Lemma flat_map_run {A} (f : A -> bool) (row : obj) (l : list A) :
  flat_map (fun i => if f i then [row] else []) l
  = repeat row (List.length (filter f l)).
Proof.
  induction l as [| x l IH]; [reflexivity |].
  cbn [flat_map filter]. destruct (f x); cbn [List.app List.length repeat]; now rewrite IH.
Qed.

Lemma filter_length_zero {A} (f : A -> bool) (l : list A) :
  List.length (filter f l) = O <-> existsb f l = false.
Proof.
  induction l as [| x l IH]; [split; reflexivity |].
  cbn [filter existsb]. destruct (f x); cbn [List.length orb]; [split; discriminate | exact IH].
Qed.

Lemma buscar_is_distinct_blocks s p :
  buscar s p p = distinct (flat_map (buscar_block s p) (rows (Recetas s))).
Proof. reflexivity. Qed.

(** Every row built for [r] carries the key of [r]. *)
Lemma block_key s p r row :
  In row (buscar_block s p r) -> prop row "id_receta" = JNum (Receta.id_receta r).
Proof.
  unfold buscar_block. intros H. apply in_flat_map in H as (row' & Hj & Hrow).
  apply in_flat_map in Hrow as (i & _ & Hrow).
  destruct (buscar_where p p r i); [| destruct Hrow].
  destruct Hrow as [<- | []].
  apply in_receta_joined in Hj as (c & u & _ & _ & _ & _ & ->). reflexivity.
Qed.


(** Two result rows with different keys are not the same row for DISTINCT. *)
Lemma different_key_not_same r c u (row : obj) n :
  prop row "id_receta" = JNum n -> n <> Receta.id_receta r ->
  obj_same (receta_row r c u) row = false.
Proof.
  intros Hrow Hn. destruct row as [| [k v] row]; [reflexivity |].
  unfold receta_row. cbn [obj_same].
  destruct (String.eqb_spec "id_receta" k) as [<- | _]; [| reflexivity].
  cbn [prop] in Hrow. rewrite String.eqb_refl in Hrow. subst v.
  cbn [jsval_same andb]. destruct (Z.eqb_spec (Receta.id_receta r) n); [| reflexivity].
  congruence.
Qed.




Lemma seed_keys_unique : keys_unique seed.
Proof.
  repeat split; cbv [receta_keys categoria_keys usuario_keys seed rows Recetas Categorias
    Usuarios map seed_receta seed_categoria seed_usuario Receta.id_receta
    Categoria.id_categoria Usuario.id_usuario];
    repeat (constructor; [cbn [In]; intuition discriminate |]); constructor.
Qed.



(* ===================================================================== *)
(** * C9: updating a row that is not there *)
(* ===================================================================== *)

(** C9.  The update routes never read the header of the UPDATE: over any
    engine, once the required fields of the route are there and the
    statement goes through, the answer is 200 with the route's message,
    whatever [affectedRows] is.  Over the schema an UPDATE by an identifier
    that no row has goes through without touching the store: the answer is
    that same 200 and the store is as it was. *)
Theorem C9_update_of_a_missing_row :
  (forall (S : Type) (E : Env S) (req : request) (s s' : S) (hd : header),
      (db_write E (recetas_put_stmt req) s = (inr hd, s') ->
       recetas_put E req s = (actualizado "mensaje" "Receta actualizada correctamente", s'))
      /\ (valoraciones_put_guard req = true ->
          db_write E (valoraciones_put_stmt req) s = (inr hd, s') ->
          valoraciones_put E req s
          = (actualizado "mensaje" "Valoración actualizada correctamente", s'))
      /\ (suscripciones_put_guard req = true ->
          db_write E (suscripciones_put_stmt req) s = (inr hd, s') ->
          suscripciones_put E req s
          = (actualizado "mensaje" "Suscripción actualizada correctamente", s'))
      /\ (categorias_put_guard req = true ->
          db_write E (categorias_put_stmt req) s = (inr hd, s') ->
          categorias_put E req s
          = (actualizado "mensaje" "Categoría actualizada correctamente", s'))
      /\ (pasos_put_guard req = true ->
          db_write E (pasos_put_stmt req) s = (inr hd, s') ->
          pasos_put E req s = (actualizado "mensaje" "Paso actualizado correctamente", s'))
      /\ (ingredientes_put_guard req = true ->
          db_write E (ingredientes_put_stmt req) s = (inr hd, s') ->
          ingredientes_put E req s
          = (actualizado "mensaje" "Ingrediente actualizado correctamente", s'))
      /\ (forall hash,
          usuarios_put_hash E req hash ->
          db_write E (usuarios_put_stmt req hash) s = (inr hd, s') ->
          usuarios_put E req s
          = (actualizado "message" "Usuario actualizado correctamente", s')))
  /\ (forall hash compare (req : request) (s : Store),
      let E := cookshare hash compare in
      (~ In (id req) (receta_keys s) ->
       recetas_put E req s = (actualizado "mensaje" "Receta actualizada correctamente", s))
      /\ (~ In (id req) (valoracion_keys s) ->
          valoraciones_put_guard req = true ->
          valoraciones_put E req s
          = (actualizado "mensaje" "Valoración actualizada correctamente", s))
      /\ (~ In (id req) (suscripcion_keys s) ->
          suscripciones_put_guard req = true ->
          suscripciones_put E req s
          = (actualizado "mensaje" "Suscripción actualizada correctamente", s))
      /\ (~ In (id req) (categoria_keys s) ->
          categorias_put_guard req = true ->
          categorias_put E req s
          = (actualizado "mensaje" "Categoría actualizada correctamente", s))
      /\ (~ In (id req) (paso_keys s) ->
          pasos_put_guard req = true ->
          pasos_put E req s = (actualizado "mensaje" "Paso actualizado correctamente", s))
      /\ (~ In (id req) (ingrediente_keys s) ->
          ingredientes_put_guard req = true ->
          ingredientes_put E req s
          = (actualizado "mensaje" "Ingrediente actualizado correctamente", s))
      /\ (~ In (id req) (usuario_keys s) ->
          forall h, usuarios_put_hash E req h ->
          usuarios_put E req s
          = (actualizado "message" "Usuario actualizado correctamente", s))).
Proof.
  assert (generic : forall (S : Type) (E : Env S) (req : request) (s s' : S) (hd : header),
      (db_write E (recetas_put_stmt req) s = (inr hd, s') ->
       recetas_put E req s = (actualizado "mensaje" "Receta actualizada correctamente", s'))
      /\ (valoraciones_put_guard req = true ->
          db_write E (valoraciones_put_stmt req) s = (inr hd, s') ->
          valoraciones_put E req s
          = (actualizado "mensaje" "Valoración actualizada correctamente", s'))
      /\ (suscripciones_put_guard req = true ->
          db_write E (suscripciones_put_stmt req) s = (inr hd, s') ->
          suscripciones_put E req s
          = (actualizado "mensaje" "Suscripción actualizada correctamente", s'))
      /\ (categorias_put_guard req = true ->
          db_write E (categorias_put_stmt req) s = (inr hd, s') ->
          categorias_put E req s
          = (actualizado "mensaje" "Categoría actualizada correctamente", s'))
      /\ (pasos_put_guard req = true ->
          db_write E (pasos_put_stmt req) s = (inr hd, s') ->
          pasos_put E req s = (actualizado "mensaje" "Paso actualizado correctamente", s'))
      /\ (ingredientes_put_guard req = true ->
          db_write E (ingredientes_put_stmt req) s = (inr hd, s') ->
          ingredientes_put E req s
          = (actualizado "mensaje" "Ingrediente actualizado correctamente", s'))
      /\ (forall hash,
          usuarios_put_hash E req hash ->
          db_write E (usuarios_put_stmt req hash) s = (inr hd, s') ->
          usuarios_put E req s
          = (actualizado "message" "Usuario actualizado correctamente", s'))).
  { intros S E req s s' hd.
    unfold valoraciones_put_guard, suscripciones_put_guard, categorias_put_guard,
      pasos_put_guard, ingredientes_put_guard.
    repeat split.
    - intros Hq. unfold_routes. unfold recetas_put_stmt in Hq. now rewrite Hq.
    - intros Hg Hq. unfold_routes. unfold valoraciones_put_stmt in Hq.
      rewrite Hg. cbn [negb orb]. now rewrite Hq.
    - intros Hg Hq. unfold_routes. unfold suscripciones_put_stmt in Hq.
      apply andb_true_iff in Hg as [-> ->]. cbn [negb orb]. now rewrite Hq.
    - intros Hg Hq. unfold_routes. unfold categorias_put_stmt in Hq.
      rewrite Hg. cbn [negb orb]. now rewrite Hq.
    - intros Hg Hq. unfold_routes. unfold pasos_put_stmt in Hq.
      apply andb_true_iff in Hg as [-> ->]. cbn [negb orb]. now rewrite Hq.
    - intros Hg Hq. unfold_routes. unfold ingredientes_put_stmt in Hq.
      rewrite Hg. cbn [negb orb]. now rewrite Hq.
    - intros [h |] Hh Hq; unfold_routes; simpl in Hh, Hq.
      + destruct Hh as [-> ->]. cbv beta iota. now rewrite Hq.
      + rewrite Hh. cbv beta iota. now rewrite Hq. }
  split; [exact generic |].
  intros hash compare req s E.
  destruct (update_missing s) as (Hu & Huc & Hc & Hr & Hi & Hp & Hv & Hx).
  assert (run : forall q, write_rows q s = inr (affected 0, s) ->
                          db_write E q s = (inr (affected 0), s)).
  { intros q Hq. unfold E. simpl. unfold mysql_write. now rewrite Hq. }
  destruct (generic Store E req s s (affected 0)) as (Gr & Gv & Gx & Gc & Gp & Gi & Gu).
  repeat split.
  - intros Hn. apply Gr, run, Hr, Hn.
  - intros Hn Hg. apply Gv; [exact Hg |]. apply run, Hv, Hn.
  - intros Hn Hg. apply Gx; [exact Hg |]. apply run, Hx, Hn.
  - intros Hn Hg. apply Gc; [exact Hg |]. apply run, Hc, Hn.
  - intros Hn Hg. apply Gp; [exact Hg |]. apply run, Hp, Hn.
  - intros Hn Hg. apply Gi; [exact Hg |]. apply run, Hi, Hn.
  - intros Hn h Hh. apply (Gu h Hh). apply run.
    destruct h; simpl; [apply Huc | apply Hu]; exact Hn.
Qed.

(** C9 at the installed data: there is no rating 999 and no user 999. *)
Lemma C9_update_of_a_missing_row_witness :
  valoraciones_put api {| id := 999; termino := ""; body := [("puntuacion", JNum 3)] |} seed
  = (actualizado "mensaje" "Valoración actualizada correctamente", seed)
  /\ usuarios_put api
       {| id := 999; termino := ""; body := [("contrasena", JStr "secreto")] |} seed
     = (actualizado "message" "Usuario actualizado correctamente", seed).
Proof.
  split.
  - refine (proj1 (proj2 (proj2 C9_update_of_a_missing_row tag_hash tag_compare
                      {| id := 999; termino := ""; body := [("puntuacion", JNum 3)] |}
                      seed)) _ eq_refl).
    vm_compute. intuition discriminate.
  - refine (proj2 (proj2 (proj2 (proj2 (proj2 (proj2
              (proj2 C9_update_of_a_missing_row tag_hash tag_compare
                 {| id := 999; termino := ""; body := [("contrasena", JStr "secreto")] |}
                 seed)))))) _ (Some "$2b$10$secreto") _).
    + vm_compute. intuition discriminate.
    + split; reflexivity.
Defined.

(** C9 as stated fails twice.  A rating update that leaves out the score is
    refused with 400 even though rating 999 does not exist; and with the same
    body [{ puntuacion: 6 }] the caller does tell an existing rating (the
    engine refuses the score: 500) from a missing one (200). *)
Lemma C9_existing_and_missing_are_told_apart :
  status (fst (valoraciones_put api {| id := 999; termino := ""; body := [] |} seed)) = 400
  /\ fst (valoraciones_put api
            {| id := 1; termino := ""; body := [("puntuacion", JNum 6)] |} seed)
     = res_error check_violated
  /\ fst (valoraciones_put api
            {| id := 999; termino := ""; body := [("puntuacion", JNum 6)] |} seed)
     = actualizado "mensaje" "Valoración actualizada correctamente".
Proof. vm_compute. repeat split. Qed.

(* ===================================================================== *)
(** * C10: what an update of a recipe writes *)
(* ===================================================================== *)

Lemma upd_receta_cells s a b c d e f g h n hd s' :
  existsb (fun r => Receta.id_receta r =? n) (rows (Recetas s)) = true ->
  upd_receta s a b c d e f g h n = inr (hd, s') ->
  exists ta tb tc td te tf tg th,
    not_null "titulo" (col_varchar 150 "titulo" a) = inr ta
    /\ col_text "descripcion" b = inr tb
    /\ col_int "tiempo_preparacion" c = inr tc
    /\ col_decimal "costo" d = inr td
    /\ col_boolean "es_publica" e = inr te
    /\ col_boolean "es_premium" f = inr tf
    /\ col_int "categoria_id" g = inr tg
    /\ col_int "autor_id" h = inr th
    /\ rows (Recetas s')
       = map (fun r =>
                if Receta.id_receta r =? n
                then receta_assign r ta tb tc td te tf tg th
                       (if receta_unchanged r ta tb tc td te tf tg th
                        then Receta.fecha_modificacion r else Some (now s))
                else r) (rows (Recetas s)).
Proof.
  intros Hex. unfold upd_receta, bind_err, written. rewrite Hex. cbn [negb].
  destruct (not_null "titulo" _) as [| ta]; [discriminate |].
  destruct (col_text "descripcion" b) as [| tb]; [discriminate |].
  destruct (col_int "tiempo_preparacion" c) as [| tc]; [discriminate |].
  destruct (col_decimal "costo" d) as [| td]; [discriminate |].
  destruct (col_boolean "es_publica" e) as [| te]; [discriminate |].
  destruct (col_boolean "es_premium" f) as [| tf]; [discriminate |].
  destruct (col_int "categoria_id" g) as [| tg]; [discriminate |].
  destruct (col_int "autor_id" h) as [| th]; [discriminate |].
  destruct (require (references tg _) _); [discriminate |].
  destruct (require (references th _) _); [discriminate |].
  intros H. injection H as _ <-.
  exists ta, tb, tc, td, te, tf, tg, th. repeat split; reflexivity.
Qed.

Lemma key_among_rows {A} (key : A -> Z) (n : Z) (l : list A) :
  In n (map key l) -> existsb (fun x => key x =? n) l = true.
Proof.
  intros Hin. apply in_map_iff in Hin as (x & Hx & Hin).
  apply existsb_exists. exists x. split; [exact Hin | now apply Z.eqb_eq].
Qed.

(** C10, as the code has it.  For every body the handler sends the one
    UPDATE whose eight parameters are the eight fields of the body,
    [undefined] for a field that is left out.  When the engine lets the
    statement through, every recipe with the identifier holds the eight
    cells made of those parameters, NULL for each nullable field that was
    left out, and the other recipes are as they were.  When [titulo] is
    left out and the recipe exists, the engine refuses the statement:
    the answer is 500 and nothing is written. *)
Theorem C10_recipe_update_overwrites :
  forall hash compare (req : request) (s : Store) (log : list event),
    let E := logged (cookshare hash compare) in
    let f := prop (body req) in
    let q := UpdReceta (f "titulo") (f "descripcion") (f "tiempo_preparacion") (f "costo")
               (f "es_publica") (f "es_premium") (f "categoria_id") (f "autor_id")
               (id req) in
    snd (snd (recetas_put E req (s, log))) = log ++ [Wrote q (thrown_of (write_rows q s))]
    /\ (In (id req) (receta_keys s) ->
        forall hd s',
          write_rows q s = inr (hd, s') ->
          recetas_put E req (s, log)
          = (actualizado "mensaje" "Receta actualizada correctamente",
             (s', log ++ [Wrote q None]))
          /\ exists c,
               receta_cells_of f c
               /\ omitted_is_null f c
               /\ forall r', In r' (rows (Recetas s')) ->
                    (Receta.id_receta r' = id req -> receta_has r' c)
                    /\ (Receta.id_receta r' <> id req -> In r' (rows (Recetas s))))
    /\ (In (id req) (receta_keys s) ->
        f "titulo" = JUndefined ->
        recetas_put E req (s, log)
        = (res_error "Column 'titulo' cannot be null",
           (s, log ++ [Wrote q (Some "Column 'titulo' cannot be null")]))).
Proof.
  intros hash compare req s log E f q.
  assert (Hrun : recetas_put E req (s, log)
                 = match write_rows q s with
                   | inl msg => (res_error msg, (s, log ++ [Wrote q (Some msg)]))
                   | inr (hd, s') =>
                       (actualizado "mensaje" "Receta actualizada correctamente",
                        (s', log ++ [Wrote q None]))
                   end).
  { unfold recetas_put, try_catch, bind, ret, E. simpl db_write. unfold mysql_write.
    fold f. fold q. destruct (write_rows q s) as [msg | [hd s']]; reflexivity. }
  split; [| split].
  - rewrite Hrun. destruct (write_rows q s) as [msg | [hd s']]; reflexivity.
  - intros Hin hd s' Hq. rewrite Hrun, Hq. split; [reflexivity |].
    apply (key_among_rows Receta.id_receta) in Hin.
    destruct (upd_receta_cells _ _ _ _ _ _ _ _ _ _ _ _ Hin Hq)
      as (ta & tb & tc & td & te & tf & tg & th
          & Ha & Hb & Hc & Hd & He & Hf & Hg & Hh & Hrows).
    exists {| c_titulo := ta; c_descripcion := tb; c_tiempo_preparacion := tc;
              c_costo := td; c_es_publica := te; c_es_premium := tf;
              c_categoria_id := tg; c_autor_id := th |}.
    split; [repeat split; assumption |]. split.
    + unfold omitted_is_null. cbn [c_descripcion c_tiempo_preparacion c_costo
        c_es_publica c_es_premium c_categoria_id c_autor_id].
      repeat split; intros Hu;
        match goal with
        | H : _ _ (f ?k) = inr ?x |- ?x = None => rewrite Hu in H; now inversion H
        end.
    + intros r' Hr'. rewrite Hrows in Hr'. apply in_map_iff in Hr' as (r & <- & Hr).
      destruct (Z.eqb_spec (Receta.id_receta r) (id req)) as [Heq | Hne].
      * split; [intros _; repeat split | intros Hc'; now elim Hc'].
      * split; [intros Hc'; now elim Hne | intros _; exact Hr].
  - intros Hin Hu. rewrite Hrun.
    apply (key_among_rows Receta.id_receta) in Hin.
    assert (write_rows q s = inl "Column 'titulo' cannot be null") as ->; [| reflexivity].
    unfold q. simpl. unfold upd_receta. rewrite Hin, Hu. reflexivity.
Qed.

(** C10 at the installed data: recipe 1 updated with a title only keeps the
    title it is given and has NULL in its seven other columns. *)
Lemma C10_recipe_update_overwrites_witness :
  fst (recetas_put (logged api) solo_titulo (seed, []))
  = actualizado "mensaje" "Receta actualizada correctamente"
  /\ forall r',
       In r' (rows (Recetas (fst (snd (recetas_put (logged api) solo_titulo (seed, [])))))) ->
       Receta.id_receta r' = 1 -> receta_has r' solo_titulo_cells.
Proof.
  destruct (C10_recipe_update_overwrites tag_hash tag_compare solo_titulo seed [])
    as (_ & H & _).
  destruct (H ltac:(vm_compute; tauto) (affected 1)
              (fst (snd (recetas_put (logged api) solo_titulo (seed, []))))
              ltac:(vm_compute; reflexivity))
    as (Hout & c & Hc & _ & Hrows).
  fold api in Hout. split; [now rewrite Hout |].
  intros r' Hr' Hid.
  replace solo_titulo_cells with c; [now apply Hrows |].
  destruct c. unfold receta_cells_of in Hc. cbn in Hc.
  destruct Hc as (H1 & H2 & H3 & H4 & H5 & H6 & H7 & H8).
  injection H1 as <-. injection H2 as <-. injection H3 as <-. injection H4 as <-.
  injection H5 as <-. injection H6 as <-. injection H7 as <-. injection H8 as <-.
  reflexivity.
Defined.

(** C10 as stated fails: an update of recipe 1 that mentions the description
    only is refused, because [titulo] would become NULL; the recipe keeps
    every field it had. *)
Lemma C10_partial_update_without_titulo_writes_nothing :
  recetas_put api {| id := 1; termino := ""; body := [("descripcion", JStr "Nueva")] |} seed
  = (res_error "Column 'titulo' cannot be null", seed).
Proof. vm_compute. reflexivity. Qed.

(* ===================================================================== *)
(** * Every route at once *)
(* ===================================================================== *)

(** Splits membership in [routes] into its cases, the name of the route
    known in each. *)
Ltac each_named_route H :=
  simpl in H;
  repeat (destruct H as [H | H]; [injection H as <- <- |]);
  [.. | contradiction].

(** Validation comes before the pool.  Whichever route answers 400, over
    any pool, has sent no statement: nothing was recorded and the state of
    the engine is the one the request found. *)
Theorem a_400_precedes_every_statement :
  forall (S : Type) (E : Env S) (name : string) (h : handler (S * list event)),
    In (name, h) (routes (logged E)) ->
    forall (req : request) (s : S),
      status (fst (h req (s, []))) = 400 ->
      snd (h req (s, [])) = (s, []).
Proof.
  intros S E name h Hin req s.
  each_route Hin; unfold_routes; simpl; run_env E; intros H;
    try discriminate H; reflexivity.
Qed.

Lemma a_400_precedes_every_statement_witness :
  snd (pasos_post (logged api) (post [("id_receta", JNum 1); ("numero_paso", JNum 0);
                                      ("descripcion", JStr "Servir")]) (seed, []))
  = (seed, []).
Proof.
  apply (a_400_precedes_every_statement Store api "POST /api/pasos" (pasos_post (logged api))).
  - simpl. do 19 right. left. reflexivity.
  - reflexivity.
Defined.

(** The GET routes only read.  Over any pool, every statement that a GET
    route sends is a SELECT; over the schema, a GET route leaves the store as
    it found it, whatever it answers. *)
Theorem get_routes_only_read :
  (forall (S : Type) (E : Env S) (name : string) (h : handler (S * list event)),
      In (name, h) (routes (logged E)) ->
      String.prefix "GET " name = true ->
      forall (req : request) (s : S) (e : event),
        In e (snd (snd (h req (s, [])))) -> is_select e)
  /\ (forall hash compare (name : string) (h : handler Store),
        In (name, h) (routes (cookshare hash compare)) ->
        String.prefix "GET " name = true ->
        forall (req : request) (s : Store), snd (h req s) = s).
Proof.
  split.
  - intros S E name h Hin Hget req s e.
    each_named_route Hin; try discriminate Hget; unfold_routes; simpl; run_env E;
      intros He; simpl in He;
      repeat (destruct He as [<- | He]; [exact I |]); contradiction.
  - intros hash compare name h Hin Hget req s.
    each_named_route Hin; try discriminate Hget; unfold_routes; simpl;
      unfold mysql_select;
      repeat match goal with
        | |- context [select_rows ?q ?s] => destruct (select_rows q s); simpl
        | |- context [match ?l with [] => _ | _ :: _ => _ end] => destruct l; simpl
        end; reflexivity.
Qed.

Lemma get_routes_only_read_witness :
  snd (valoraciones_get_receta api (by_id 1) seed) = seed.
Proof.
  apply (proj2 get_routes_only_read tag_hash tag_compare
           "GET /api/valoraciones/receta/:id_receta" (valoraciones_get_receta api)).
  - simpl. do 27 right. left. reflexivity.
  - reflexivity.
Defined.

(** One request, at most one statement; the login is the one route that
    may send two, the SELECT by email and then the INSERT of the session, the
    second only after the first has gone through. *)
Theorem one_statement_per_request :
  forall (S : Type) (E : Env S) (name : string) (h : handler (S * list event)),
    In (name, h) (routes (logged E)) ->
    forall (req : request) (s : S),
      let log := snd (snd (h req (s, []))) in
      (List.length log <= 1)%nat
      \/ (name = "POST /api/sesiones/login"
          /\ exists u t,
               log = [Selected (SelUsuarioPorEmail (prop (body req) "email")) None;
                      Wrote (InsSesion u) t]).
Proof.
  intros S E name h Hin req s.
  each_named_route Hin; unfold_routes; simpl; run_env E;
    try (left; simpl; lia);
    right; (split; [reflexivity | eexists; eexists; reflexivity]).
Qed.

Lemma one_statement_per_request_witness :
  (List.length (snd (snd (recetas_put (logged api) solo_titulo (seed, [])))) <= 1)%nat
  \/ ("PUT /api/recetas/:id" = "POST /api/sesiones/login"
      /\ exists u t,
           snd (snd (recetas_put (logged api) solo_titulo (seed, [])))
           = [Selected (SelUsuarioPorEmail (prop (body solo_titulo) "email")) None;
              Wrote (InsSesion u) t]).
Proof.
  apply (one_statement_per_request Store api "PUT /api/recetas/:id" (recetas_put (logged api))).
  simpl. do 15 right. left. reflexivity.
Defined.

(** A request moves the store by at most one statement that goes through. *)
Lemma handler_steps hash compare (name : string) (h : handler Store) :
  In (name, h) (routes (cookshare hash compare)) ->
  forall (req : request) (s : Store),
    snd (h req s) = s
    \/ exists q hd, write_rows q s = inr (hd, snd (h req s)).
Proof.
  intros Hin req s.
  each_route Hin; unfold_routes;
    cbn [cookshare db_select db_write bcrypt_hash bcrypt_compare];
    unfold mysql_select, mysql_write;
    set (W := write_rows); set (R := select_rows);
    repeat match goal with
      | |- context [W ?q ?s] =>
          let H := fresh "Hq" in
          destruct (W q s) as [? | [? ?]] eqn:H; cbn [fst snd]
      | |- context [R ?q ?s] => destruct (R q s); cbn [fst snd]
      | |- context [hash ?d ?n] => destruct (hash d n); cbn [fst snd]
      | |- context [compare ?d ?n] => destruct (compare d n); cbn [fst snd]
      | |- context [if ?b then _ else _] => destruct b; cbn [fst snd]
      | |- context [match ?l with [] => _ | _ :: _ => _ end] => destruct l; cbn [fst snd]
      end;
    try (left; reflexivity); right; eauto.
Qed.

(* ===================================================================== *)
(** * The constraints of the schema across the routes *)
(* ===================================================================== *)

Lemma Forall_push {A} (P : A -> Prop) (t : table A) (x : A) :
  Forall P (rows t) -> P x -> Forall P (rows (push t x)).
Proof.
  intros Ht Hx. unfold push. cbn [rows]. apply Forall_app. split; [exact Ht |].
  now constructor.
Qed.

Lemma Forall_update {A} (P : A -> Prop) (p : A -> bool) (g : A -> A) (t : table A) :
  Forall P (rows t) -> (forall r, P r -> p r = true -> P (g r)) ->
  Forall P (rows (update_where p g t)).
Proof.
  intros Ht Hg. unfold update_where, with_rows. cbn [rows].
  induction Ht as [| r l Hr _ IH]; cbn [map]; constructor; [| exact IH].
  destruct (p r) eqn:Hp; [now apply Hg | exact Hr].
Qed.

Lemma Forall_filter {A} (P : A -> Prop) (p : A -> bool) (l : list A) :
  Forall P l -> Forall (fun r => P r /\ p r = true) (filter p l).
Proof.
  intros Hl. induction Hl as [| r l Hr _ IH]; cbn [filter]; [constructor |].
  destruct (p r) eqn:Hp; [constructor; [split |] |]; assumption.
Qed.

Lemma Forall_delete {A} (P : A -> Prop) (p : A -> bool) (t : table A) :
  Forall P (rows t) -> Forall (fun r => P r /\ p r = false) (rows (delete_where p t)).
Proof.
  intros Ht. unfold delete_where, with_rows. cbn [rows].
  eapply Forall_impl; [| apply (Forall_filter P _ _ Ht)].
  cbn beta. intros r [Hr Hp]. split; [exact Hr | now apply negb_true_iff].
Qed.

Lemma references_more c (keys more : list Z) :
  references c keys = true -> references c (keys ++ more) = true.
Proof.
  destruct c as [n |]; [| reflexivity]. cbn [references]. intros H.
  rewrite existsb_app, H. reflexivity.
Qed.

Lemma keys_push {A} (key : A -> Z) (t : table A) (x : A) :
  map key (rows (push t x)) = map key (rows t) ++ [key x].
Proof. unfold push. cbn [rows]. now rewrite map_app. Qed.

Lemma keys_update {A} (key : A -> Z) (p : A -> bool) (g : A -> A) (t : table A) :
  (forall r, key (g r) = key r) ->
  map key (rows (update_where p g t)) = map key (rows t).
Proof.
  intros Hg. unfold update_where, with_rows. cbn [rows]. rewrite map_map.
  apply map_ext. intros r. now destruct (p r).
Qed.

(** A parent row goes: the cells that did not reference it still reference
    a row. *)
Lemma references_delete {A} (key : A -> Z) (n : Z) (t : table A) c :
  references c (map key (rows t)) = true -> cell_is c n = false ->
  references c (map key (rows (delete_where (fun r => key r =? n) t))) = true.
Proof.
  destruct c as [m |]; [| reflexivity]. cbn [references cell_is]. intros H Hm.
  unfold delete_where, with_rows. cbn [rows].
  apply existsb_exists in H as (k & Hk & Hmk). apply Z.eqb_eq in Hmk. subst k.
  apply in_map_iff in Hk as (r & Hr & Hin).
  apply existsb_exists. exists m. split; [| apply Z.eqb_refl].
  apply in_map_iff. exists r. split; [exact Hr |]. apply filter_In. split; [exact Hin |].
  rewrite Hr. now rewrite Hm.
Qed.

Lemma existsb_none {A} (p : A -> bool) (l : list A) :
  existsb p l = false -> Forall (fun r => p r = false) l.
Proof.
  intros H. apply Forall_forall. intros r Hr.
  destruct (p r) eqn:Hp; [| reflexivity].
  rewrite <- H. symmetry. apply existsb_exists. now exists r.
Qed.

Ltac unfold_writes :=
  unfold ins_usuario, upd_usuario, del_usuario, ins_sesion, upd_sesion_cierre,
    ins_categoria, upd_categoria, del_categoria, ins_receta, upd_receta, del_receta,
    ins_ingrediente, upd_ingrediente, del_ingrediente, ins_paso, upd_paso, del_paso,
    ins_valoracion, upd_valoracion, del_valoracion, ins_suscripcion, upd_suscripcion,
    del_suscripcion, bind_err, written, require.

(** Cases on the scrutinee at the head of the statement's outcome, the
    outcome of each check kept. *)
Ltac outcome_case_eqn :=
  match goal with
  | |- (match next_key ?t with _ => _ end = _) -> _ =>
      let H := fresh "Hkey" in
      destruct (next_key t) eqn:H; [| apply next_key_value in H; subst]
  | |- (match (if ?b then _ else _) with _ => _ end = _) -> _ =>
      let H := fresh "Hcheck" in destruct b eqn:H
  | |- (match ?x with _ => _ end = _) -> _ =>
      let H := fresh "Hcase" in destruct x eqn:H
  | |- ((if ?b then _ else _) = _) -> _ =>
      let H := fresh "Hcheck" in destruct b eqn:H
  end.

(** The cell of a row that stays still references a row. *)
Ltac cell_kept :=
  cbn beta in *; intros;
  repeat match goal with
    | H : _ /\ _ |- _ => destruct H
    | H : negb _ = true |- _ => apply negb_true_iff in H
    end;
  cbn [Sesion.id_usuario Receta.categoria_id Receta.autor_id Paso.id_receta
       Valoracion.id_receta Valoracion.id_usuario Suscripcion.id_usuario receta_assign];
  repeat split;
  first [ assumption
        | rewrite keys_push; apply references_more; assumption
        | rewrite keys_update by reflexivity; assumption
        | apply references_delete; [assumption | cbn [cell_is]; assumption] ].

Ltac rows_kept :=
  first
    [ assumption
    | eapply Forall_impl; [| eassumption]; cell_kept
    | apply Forall_push; [eapply Forall_impl; [| eassumption] |]; cell_kept
    | apply Forall_update; [assumption | cell_kept]
    | eapply Forall_impl; [| apply Forall_delete; eassumption]; cell_kept
    | eapply Forall_impl; [| apply Forall_filter; eassumption]; cell_kept
    | match goal with
      | H : negb (existsb _ ?l) = true, H' : Forall _ ?l |- Forall _ ?l =>
          let r := fresh "r" in
          let Hr := fresh "Hr" in
          apply negb_true_iff, existsb_none in H;
          apply Forall_forall; intros r Hr;
          pose proof (proj1 (Forall_forall _ _) H r Hr);
          pose proof (proj1 (Forall_forall _ _) H' r Hr);
          cell_kept
      end ].

Lemma writes_keep_references (q : write_stmt) (s s' : Store) (hd : header) :
  references_hold s -> write_rows q s = inr (hd, s') -> references_hold s'.
Proof.
  intros (Hse & Hre & Hau & Hri & Hpa & Hva & Hsu).
  destruct q; cbn [write_rows]; unfold_writes; cbv zeta;
    repeat outcome_case_eqn; intros H; try discriminate H;
    injection H as _ <-; unfold references_hold, usuario_keys, categoria_keys,
      receta_keys, ingrediente_keys in *;
    cbn [Usuarios Sesiones Categorias Recetas Autores_Receta Ingredientes
         Receta_Ingrediente Pasos Valoraciones Suscripciones
         set_Usuarios set_Sesiones set_Categorias set_Recetas set_Autores_Receta
         set_Ingredientes set_Receta_Ingrediente set_Pasos set_Valoraciones
         set_Suscripciones];
    try (repeat split; assumption);
    repeat match goal with |- _ /\ _ => split end; rows_kept.
Qed.

Lemma seed_references : references_hold seed.
Proof. unfold references_hold. repeat split; repeat constructor. Qed.

Lemma seed_scores : scores_in_range seed.
Proof. unfold scores_in_range. repeat constructor. Qed.

Lemma writes_keep_scores (q : write_stmt) (s s' : Store) (hd : header) :
  scores_in_range s -> write_rows q s = inr (hd, s') -> scores_in_range s'.
Proof.
  unfold scores_in_range. intros Hva.
  destruct q; cbn [write_rows]; unfold_writes; cbv zeta;
    repeat outcome_case_eqn; intros H; try discriminate H;
    injection H as _ <-;
    cbn [Valoraciones set_Usuarios set_Sesiones set_Categorias set_Recetas
         set_Autores_Receta set_Ingredientes set_Receta_Ingrediente set_Pasos
         set_Valoraciones set_Suscripciones];
    first
      [ assumption
      | apply Forall_push; assumption
      | apply Forall_update; [assumption | intros; assumption]
      | eapply Forall_impl; [| apply Forall_delete; eassumption];
        cbn beta; intros ? [? _]; assumption ].
Qed.

(** The data that [schema.sql] installs satisfies every FOREIGN KEY of the
    schema, and every request of every route leaves a store that satisfies
    them in a store that satisfies them: no handler leaves a session, recipe,
    step, rating, subscription or link row that refers to a row that is not
    there. *)
Theorem foreign_keys_hold_after_every_request :
  references_hold seed
  /\ forall hash compare (name : string) (h : handler Store),
       In (name, h) (routes (cookshare hash compare)) ->
       forall (req : request) (s : Store),
         references_hold s -> references_hold (snd (h req s)).
Proof.
  split; [exact seed_references |].
  intros hash compare name h Hin req s Hs.
  destruct (handler_steps hash compare name h Hin req s) as [-> | (q & hd & Hq)];
    [exact Hs | exact (writes_keep_references q s _ hd Hs Hq)].
Qed.

Lemma foreign_keys_hold_after_every_request_witness :
  references_hold (snd (recetas_delete api (by_id 1) seed)).
Proof.
  apply (proj2 foreign_keys_hold_after_every_request tag_hash tag_compare
           "DELETE /api/recetas/:id" (recetas_delete api)).
  - simpl. do 16 right. left. reflexivity.
  - exact seed_references.
Defined.

(** The installed ratings have scores between 1 and 5, and every request of
    every route leaves a store whose scores are NULL or between 1 and 5 in
    such a store: neither the create nor the update of a rating, nor any
    other route, stores a score outside the range. *)
Theorem scores_stay_between_1_and_5 :
  scores_in_range seed
  /\ forall hash compare (name : string) (h : handler Store),
       In (name, h) (routes (cookshare hash compare)) ->
       forall (req : request) (s : Store),
         scores_in_range s -> scores_in_range (snd (h req s)).
Proof.
  split; [exact seed_scores |].
  intros hash compare name h Hin req s Hs.
  destruct (handler_steps hash compare name h Hin req s) as [-> | (q & hd & Hq)];
    [exact Hs | exact (writes_keep_scores q s _ hd Hs Hq)].
Qed.

Lemma scores_stay_between_1_and_5_witness :
  scores_in_range
    (snd (valoraciones_put api
            {| id := 1; termino := ""; body := [("puntuacion", JNum 3)] |} seed)).
Proof.
  apply (proj2 scores_stay_between_1_and_5 tag_hash tag_compare
           "PUT /api/valoraciones/:id_valoracion" (valoraciones_put api)).
  - simpl. do 30 right. left. reflexivity.
  - exact seed_scores.
Defined.

(** PRIMARY KEY with AUTO_INCREMENT across the routes.  In the installed
    data the keys of the recipes, of the categories and of the users are
    pairwise different and below the next key of their table, and every
    request of every route leaves them so: a create takes the next key and
    no update or delete changes a key. *)
Theorem primary_keys_stay_unique :
  store_keyed seed
  /\ forall hash compare (name : string) (h : handler Store),
       In (name, h) (routes (cookshare hash compare)) ->
       forall (req : request) (s : Store),
         store_keyed s -> store_keyed (snd (h req s)).
Proof.
  split; [exact seed_keyed |].
  intros hash compare name h Hin req s Hs.
  destruct (handler_steps hash compare name h Hin req s) as [-> | (q & hd & Hq)];
    [exact Hs | exact (writes_keep_keys q s _ hd Hs Hq)].
Qed.

Lemma primary_keys_stay_unique_witness :
  store_keyed (snd (categorias_post api (post [("nombre", JStr "Vegana")]) seed)).
Proof.
  apply (proj2 primary_keys_stay_unique tag_hash tag_compare
           "POST /api/categorias" (categorias_post api)).
  - simpl. do 8 right. left. reflexivity.
  - exact seed_keyed.
Defined.

Lemma ci_eqb_sym a b : ci_eqb a b = ci_eqb b a.
Proof. unfold ci_eqb. apply Ascii.eqb_sym. Qed.

Lemma ci_eqb_trans a b c : ci_eqb a b = true -> ci_eqb b c = true -> ci_eqb a c = true.
Proof.
  unfold ci_eqb. rewrite !Ascii.eqb_eq. congruence.
Qed.

Lemma text_eqb_sym a b : text_eqb a b = text_eqb b a.
Proof.
  unfold text_eqb. generalize (chars b). induction (chars a) as [| x l IH]; intros [| y m];
    cbn [text_eqb_chars]; try reflexivity.
  now rewrite ci_eqb_sym, IH.
Qed.

Lemma text_eqb_trans a b c :
  text_eqb a b = true -> text_eqb b c = true -> text_eqb a c = true.
Proof.
  unfold text_eqb. generalize (chars b) (chars c).
  induction (chars a) as [| x l IH]; intros [| y m] [| z n];
    cbn [text_eqb_chars]; try discriminate; try reflexivity.
  rewrite !andb_true_iff. intros [Hxy Hlm] [Hyz Hmn]. split.
  - exact (ci_eqb_trans x y z Hxy Hyz).
  - exact (IH m n Hlm Hmn).
Qed.

Lemma filter_map_length {A} (p q : A -> bool) (g : A -> A) (l : list A) :
  (forall r, In r l -> p (g r) = true -> q r = true) ->
  (List.length (filter p (map g l)) <= List.length (filter q l))%nat.
Proof.
  induction l as [| r l IH]; intros H; [apply Nat.le_refl |].
  cbn [map filter]. specialize (IH (fun x Hx => H x (or_intror Hx))).
  destruct (p (g r)) eqn:Hp.
  - rewrite (H r (or_introl eq_refl) Hp). cbn [List.length]. lia.
  - destruct (q r); cbn [List.length]; lia.
Qed.

Lemma filter_filter_length {A} (p q : A -> bool) (l : list A) :
  (List.length (filter p (filter q l)) <= List.length (filter p l))%nat.
Proof.
  induction l as [| r l IH]; [apply Nat.le_refl |]. cbn [filter].
  destruct (q r); cbn [filter]; destruct (p r); cbn [List.length]; lia.
Qed.

Lemma existsb_false_none {A} (p : A -> bool) (l : list A) :
  existsb p l = false -> filter p l = [].
Proof.
  induction l as [| x l IH]; [reflexivity |].
  cbn [existsb filter]. intros H. apply orb_false_iff in H as [-> Hl]. exact (IH Hl).
Qed.

(** PRIMARY KEY: at most one row has a given key. *)
Lemma at_most_one_row {A} (key : A -> Z) (n : Z) (l : list A) :
  NoDup (map key l) -> (List.length (filter (fun r => (key r =? n)%Z) l) <= 1)%nat.
Proof.
  induction l as [| r l IH]; intros Hnd; [cbn; lia |].
  cbn [map] in Hnd. apply NoDup_cons_iff in Hnd as [Hr Hl].
  cbn [filter]. destruct (Z.eqb_spec (key r) n) as [Heq | Hne]; [| exact (IH Hl)].
  rewrite Heq in Hr. apply (no_row_with_key key n l) in Hr.
  rewrite (existsb_false_none _ _ Hr). cbn. lia.
Qed.

Lemma unique_push (l : list Usuario.t) (x : Usuario.t) :
  unique_emails l ->
  existsb (fun u => text_eqb (Usuario.email u) (Usuario.email x)) l = false ->
  unique_emails (l ++ [x]).
Proof.
  intros Hl Hx e. rewrite filter_app, length_app. cbn [filter].
  destruct (text_eqb (Usuario.email x) e) eqn:Hxe; [| specialize (Hl e); cbn; lia].
  assert (filter (fun u => text_eqb (Usuario.email u) e) l = []) as ->; [| cbn; lia].
  apply existsb_false_none. apply not_true_is_false. intros Hex.
  apply existsb_exists in Hex as (u & Hu & Hue).
  rewrite text_eqb_sym in Hxe. pose proof (text_eqb_trans _ _ _ Hue Hxe) as Hux.
  enough (existsb (fun u => text_eqb (Usuario.email u) (Usuario.email x)) l = true)
    by congruence.
  apply existsb_exists. now exists u.
Qed.

Lemma unique_update (l : list Usuario.t) (n : Z) (g : Usuario.t -> Usuario.t) (e0 : string) :
  NoDup (map Usuario.id_usuario l) ->
  unique_emails l ->
  (forall u, Usuario.email (g u) = e0) ->
  existsb (fun u => negb (Usuario.id_usuario u =? n) && text_eqb (Usuario.email u) e0) l
  = false ->
  unique_emails (map (fun u => if Usuario.id_usuario u =? n then g u else u) l).
Proof.
  intros Hnd Hl Hg Hcheck e.
  pose proof (existsb_none _ _ Hcheck) as Hall. rewrite Forall_forall in Hall.
  destruct (text_eqb e0 e) eqn:He.
  - etransitivity; [| exact (at_most_one_row Usuario.id_usuario n l Hnd)].
    apply filter_map_length. intros u Hu.
    destruct (Usuario.id_usuario u =? n) eqn:Hk; [reflexivity |].
    intros Hue. specialize (Hall u Hu). cbn beta in Hall. rewrite Hk in Hall.
    cbn [negb andb] in Hall. rewrite text_eqb_sym in He.
    rewrite (text_eqb_trans _ _ _ Hue He) in Hall. discriminate.
  - etransitivity; [| exact (Hl e)].
    apply filter_map_length. intros u Hu.
    destruct (Usuario.id_usuario u =? n); [| trivial].
    rewrite Hg, He. discriminate.
Qed.

Lemma unique_delete (l : list Usuario.t) (p : Usuario.t -> bool) :
  unique_emails l -> unique_emails (filter p l).
Proof.
  intros Hl e. etransitivity; [apply filter_filter_length | exact (Hl e)].
Qed.

Lemma unique_differ (l : list Usuario.t) : emails_differ l = true -> unique_emails l.
Proof.
  induction l as [| u l IH]; intros H e; [cbn; lia |].
  cbn [emails_differ] in H. apply andb_true_iff in H as [Hu Hl].
  apply negb_true_iff in Hu. specialize (IH Hl e).
  cbn [filter].
  destruct (text_eqb (Usuario.email u) e) eqn:Hue; [| exact IH].
  assert (filter (fun v => text_eqb (Usuario.email v) e) l = []) as ->; [| cbn; lia].
  apply existsb_false_none. apply not_true_is_false. intros Hex.
  apply existsb_exists in Hex as (v & Hv & Hve).
  rewrite text_eqb_sym in Hue. pose proof (text_eqb_trans _ _ _ Hve Hue) as Hvu.
  enough (existsb (fun v => text_eqb (Usuario.email v) (Usuario.email u)) l = true)
    by congruence.
  apply existsb_exists. now exists v.
Qed.

Lemma writes_keep_emails (q : write_stmt) (s s' : Store) (hd : header) :
  keyed Usuario.id_usuario (Usuarios s) -> emails_unique s ->
  write_rows q s = inr (hd, s') -> emails_unique s'.
Proof.
  intros [Hnd _] Hs. unfold emails_unique, usuarios_con_email in *.
  change (unique_emails (rows (Usuarios s))) in Hs.
  destruct q; cbn [write_rows]; unfold_writes; cbv zeta;
    repeat outcome_case_eqn; intros H; try discriminate H;
    injection H as _ <-;
    cbn [Usuarios set_Usuarios set_Sesiones set_Categorias set_Recetas
         set_Autores_Receta set_Ingredientes set_Receta_Ingrediente set_Pasos
         set_Valoraciones set_Suscripciones];
    try assumption;
    match goal with |- forall e, (List.length (filter _ ?l) <= 1)%nat => change (unique_emails l) end.
  - apply unique_push; [assumption |]. now apply negb_true_iff.
  - apply (unique_update _ _ _ s1); [assumption | assumption | reflexivity |].
    now apply negb_true_iff.
  - apply (unique_update _ _ _ s1); [assumption | assumption | reflexivity |].
    now apply negb_true_iff.
  - apply unique_delete. assumption.
Qed.

Lemma seed_emails : emails_unique seed.
Proof. apply unique_differ. reflexivity. Qed.

(** [UNIQUE] on [Usuarios.email] across the routes.  No text is the email of
    two installed users, letter case disregarded; and a request of any route
    on a store with unique user keys and unique emails leaves the emails
    unique, so that the SELECT of the login never has two rows to choose
    from. *)
Theorem emails_stay_unique :
  emails_unique seed
  /\ forall hash compare (name : string) (h : handler Store),
       In (name, h) (routes (cookshare hash compare)) ->
       forall (req : request) (s : Store),
         keyed Usuario.id_usuario (Usuarios s) ->
         emails_unique s ->
         emails_unique (snd (h req s)).
Proof.
  split; [exact seed_emails |].
  intros hash compare name h Hin req s Hk Hs.
  destruct (handler_steps hash compare name h Hin req s) as [-> | (q & hd & Hq)];
    [exact Hs | exact (writes_keep_emails q s _ hd Hk Hs Hq)].
Qed.

Lemma emails_stay_unique_witness :
  (List.length
     (usuarios_con_email (snd (usuarios_put api melani_con_contrasena seed))
        "MELANI@example.com") <= 1)%nat.
Proof.
  apply (proj2 emails_stay_unique tag_hash tag_compare
           "PUT /api/usuarios/:id" (usuarios_put api)).
  - simpl. do 2 right. left. reflexivity.
  - exact (proj2 (proj2 seed_keyed)).
  - exact seed_emails.
Defined.

(* ===================================================================== *)
(** * Registration, login and logout *)
(* ===================================================================== *)

(** [SELECT ... FROM Usuarios]: the listing has one row for each user, in
    the order of the table, and no row has the column [contrasena]. *)
Theorem usuarios_get_hides_contrasena :
  forall hash compare (req : request) (s : Store),
    let r := fst (usuarios_get (cookshare hash compare) req s) in
    status r = 200
    /\ map (fun row => prop row "id_usuario") (json_rows r)
       = map (fun u => JNum (Usuario.id_usuario u)) (rows (Usuarios s))
    /\ map (fun row => prop row "email") (json_rows r)
       = map (fun u => JStr (Usuario.email u)) (rows (Usuarios s))
    /\ forall row, In row (json_rows r) -> prop row "contrasena" = JUndefined.
Proof.
  intros hash compare req s r. subst r.
  unfold usuarios_get, try_catch, bind, ret. simpl db_select. unfold mysql_select.
  cbn [select_rows fst res_rows status json_rows json].
  rewrite !map_map. split; [reflexivity |]. split; [| split].
  - apply map_ext. intros u. reflexivity.
  - apply map_ext. intros u. reflexivity.
  - intros row Hrow. apply in_map_iff in Hrow as (u & <- & _).
    unfold usuario_publico_row, stringify_obj. cbn.
    destruct (js_tipo (Usuario.tipo_usuario u)) eqn:Ht; cbn;
      destruct (js_datetime (Usuario.fecha_registro u)); reflexivity.
Qed.

(** How [POST /api/usuarios] runs over the schema. *)
Lemma usuarios_post_runs hash compare req s :
  let f := prop (body req) in
  usuarios_post (cookshare hash compare) req s
  = match hash (f "contrasena") saltRounds with
    | inl msg => (res_error msg, s)
    | inr h =>
        match ins_usuario s (f "nombre") (f "email") (JStr h) (f "tipo_usuario") with
        | inl msg => (res_error msg, s)
        | inr (hd, s') =>
            (res_json 201 [("id", JNum (insertId hd)); ("nombre", f "nombre");
                           ("email", f "email"); ("tipo_usuario", f "tipo_usuario")], s')
        end
    end.
Proof.
  intros f. unfold usuarios_post, try_catch, bind, ret, await. simpl bcrypt_hash.
  fold f. destruct (hash (f "contrasena") saltRounds) as [msg | h]; [reflexivity |].
  simpl db_write. unfold mysql_write. cbn [write_rows].
  destruct (ins_usuario s _ _ _ _) as [msg | [hd s']]; reflexivity.
Qed.

(** What an INSERT into Usuarios that goes through has done. *)
Lemma ins_usuario_done s a b c d hd s' :
  ins_usuario s a b c d = inr (hd, s') ->
  exists n e h t,
    not_null "nombre" (col_varchar 100 "nombre" a) = inr n
    /\ not_null "email" (col_varchar 100 "email" b) = inr e
    /\ not_null "contrasena" (col_varchar 255 "contrasena" c) = inr h
    /\ col_tipo_usuario d = inr t
    /\ usuarios_con_email s e = []
    /\ hd = inserted (auto_increment (Usuarios s))
    /\ s' = set_Usuarios
              (push (Usuarios s)
                 {| Usuario.id_usuario := auto_increment (Usuarios s);
                    Usuario.nombre := n; Usuario.email := e; Usuario.contrasena := h;
                    Usuario.tipo_usuario := t;
                    Usuario.fecha_registro := Some (now s) |}) s.
Proof.
  unfold ins_usuario, bind_err, written.
  destruct (not_null "nombre" _) as [| n]; [discriminate |].
  destruct (not_null "email" _) as [| e]; [discriminate |].
  destruct (not_null "contrasena" _) as [| h]; [discriminate |].
  destruct (col_tipo_usuario d) as [| t]; [discriminate |].
  destruct (next_key (Usuarios s)) as [| k] eqn:Hk; [discriminate |].
  apply next_key_value in Hk. subst k.
  destruct (existsb _ _) eqn:Hex; cbn [negb require]; [discriminate |].
  intros H. injection H as <- <-.
  exists n, e, h, t. repeat split; try reflexivity.
  unfold usuarios_con_email.
  induction (rows (Usuarios s)) as [| u l IH]; [reflexivity |].
  cbn [existsb] in Hex. apply orb_false_iff in Hex as [Hu Hl].
  cbn [filter]. rewrite Hu. exact (IH Hl).
Qed.

Lemma col_text_of_text fits col h x :
  not_null col (col_chars fits col (JStr h)) = inr x -> x = h.
Proof.
  unfold col_chars, not_null. destruct (fits h); [| discriminate]. congruence.
Qed.

(** [POST /api/usuarios].  Whatever happens, the response has no property
    [contrasena].  When the answer is 201, [bcrypt.hash] returned a hash
    for the password of the body, no user had the email, and the store has
    one row more in Usuarios and is otherwise as it was: the new row has the
    next key, which the response gives as [id], and its password is that
    hash. *)
Theorem usuarios_post_stores_the_hash :
  forall hash compare (req : request) (s : Store),
    let E := cookshare hash compare in
    let r := fst (usuarios_post E req s) in
    let s' := snd (usuarios_post E req s) in
    prop (json_obj r) "contrasena" = JUndefined
    /\ (status r = 201 ->
        exists h u,
          hash (prop (body req) "contrasena") saltRounds = inr h
          /\ usuarios_con_email s (Usuario.email u) = []
          /\ Usuario.id_usuario u = auto_increment (Usuarios s)
          /\ Usuario.contrasena u = h
          /\ prop (json_obj r) "id" = JNum (Usuario.id_usuario u)
          /\ s' = set_Usuarios (push (Usuarios s) u) s).
Proof.
  intros hash compare req s E r s'. subst r s' E.
  rewrite usuarios_post_runs. cbv zeta.
  destruct (hash (prop (body req) "contrasena") saltRounds) as [msg | h];
    [split; [reflexivity | discriminate] |].
  destruct (ins_usuario s _ _ _ _) as [msg | [hd s1]] eqn:Hins;
    [split; [reflexivity | discriminate] |].
  split.
  - cbn. destruct (prop (body req) "nombre"), (prop (body req) "email"),
      (prop (body req) "tipo_usuario"); reflexivity.
  - intros _. apply ins_usuario_done in Hins
      as (n & e & x & t & Hn & He & Hx & Ht & Hfree & -> & ->).
    unfold col_varchar in Hx. apply col_text_of_text in Hx. subst x.
    eexists h, _. repeat split; try reflexivity. exact Hfree.
Qed.

Lemma usuarios_post_stores_the_hash_witness :
  exists h u,
    tag_hash (prop (body eva) "contrasena") saltRounds = inr h
    /\ usuarios_con_email seed (Usuario.email u) = []
    /\ Usuario.id_usuario u = 11
    /\ Usuario.contrasena u = h
    /\ prop (json_obj (fst (usuarios_post api eva seed))) "id" = JNum (Usuario.id_usuario u)
    /\ seed_con_eva = set_Usuarios (push (Usuarios seed) u) seed.
Proof.
  exact (proj2 (usuarios_post_stores_the_hash tag_hash tag_compare eva seed) eq_refl).
Defined.

(** How [POST /api/sesiones/login] runs over the schema, once both fields
    are there and the email is text. *)
Lemma login_runs hash compare req s e :
  prop (body req) "email" = JStr e -> e <> "" ->
  truthy (prop (body req) "contrasena") = true ->
  sesiones_login (cookshare hash compare) req s
  = match usuarios_con_email s e with
    | [] => (credenciales_invalidas, s)
    | u :: _ =>
        match compare (prop (body req) "contrasena") (JStr (Usuario.contrasena u)) with
        | inl msg => (res_error msg, s)
        | inr false => (credenciales_invalidas, s)
        | inr true =>
            match ins_sesion s (JNum (Usuario.id_usuario u)) with
            | inl msg => (res_error msg, s)
            | inr (hd, s') =>
                (sesion_iniciada (insertId hd) (Usuario.id_usuario u), s')
            end
        end
    end.
Proof.
  intros He Hne Hp. unfold sesiones_login.
  rewrite He, (truthy_text e Hne), Hp. cbn [negb orb].
  unfold try_catch, bind, ret, await. simpl db_select. unfold mysql_select.
  cbn [select_rows]. fold (usuarios_con_email s e).
  destruct (usuarios_con_email s e) as [| u l]; [reflexivity |].
  cbn [map]. simpl bcrypt_compare.
  replace (prop (usuario_row u) "contrasena") with (JStr (Usuario.contrasena u))
    by reflexivity.
  destruct (compare _ _) as [msg | [|]]; [reflexivity | | reflexivity].
  cbn [negb]. simpl db_write. unfold mysql_write. cbn [write_rows].
  replace (prop (usuario_row u) "id_usuario") with (JNum (Usuario.id_usuario u))
    by reflexivity.
  destruct (ins_sesion s _) as [msg | [hd s']]; reflexivity.
Qed.

Lemma ins_sesion_done s k hd s' :
  ins_sesion s (JNum k) = inr (hd, s') ->
  In k (usuario_keys s)
  /\ hd = inserted (auto_increment (Sesiones s))
  /\ s' = set_Sesiones
            (push (Sesiones s)
               {| Sesion.id_sesion := auto_increment (Sesiones s);
                  Sesion.id_usuario := Some k;
                  Sesion.fecha_inicio := Some (now s); Sesion.fecha_cierre := None |}) s.
Proof.
  unfold ins_sesion, bind_err, written, col_int, col_ranged.
  destruct ((int_min <=? k) && (k <=? int_max)); [| discriminate].
  destruct (next_key (Sesiones s)) as [| key] eqn:Hk; [discriminate |].
  apply next_key_value in Hk. subst key.
  destruct (references (Some k) (usuario_keys s)) eqn:Href; cbn [require]; [| discriminate].
  intros H. injection H as <- <-. repeat split.
  cbn [references] in Href. apply existsb_exists in Href as (x & Hx & Heq).
  apply Z.eqb_eq in Heq. now subst x.
Qed.

(** What a login that is answered 201 has found and done. *)
Lemma login_accepted :
  forall hash compare (req : request) (s : Store),
    let E := cookshare hash compare in
    status (fst (sesiones_login E req s)) = 201 ->
    exists e u others,
      prop (body req) "email" = JStr e
      /\ usuarios_con_email s e = u :: others
      /\ compare (prop (body req) "contrasena") (JStr (Usuario.contrasena u)) = inr true
      /\ sesiones_login E req s
         = (sesion_iniciada (auto_increment (Sesiones s)) (Usuario.id_usuario u),
            set_Sesiones (push (Sesiones s) (sesion_nueva s u)) s).
Proof.
  intros hash compare req s E. subst E.
  destruct (truthy (prop (body req) "contrasena")) eqn:Hp.
  2: { unfold sesiones_login. rewrite Hp, orb_true_r. discriminate. }
  destruct (prop (body req) "email") as [| | b | n | e | t] eqn:He;
    try (unfold sesiones_login; rewrite He; cbn [truthy negb orb]; discriminate).
  - unfold sesiones_login. rewrite He, Hp. cbn [truthy].
    destruct b; cbn [negb orb]; [| discriminate].
    unfold try_catch, bind. simpl db_select. discriminate.
  - unfold sesiones_login. rewrite He, Hp. cbn [truthy].
    destruct (n =? 0); cbn [negb orb]; [discriminate |].
    unfold try_catch, bind. simpl db_select. discriminate.
  - destruct (String.eqb_spec e "") as [-> | Hne].
    { unfold sesiones_login. rewrite He. discriminate. }
    rewrite (login_runs hash compare req s e He Hne Hp).
    destruct (usuarios_con_email s e) as [| u others] eqn:Hu; [discriminate |].
    destruct (compare _ _) as [msg | [|]] eqn:Hc; try discriminate.
    destruct (ins_sesion s _) as [msg | [hd s']] eqn:Hins; [discriminate |].
    intros _. apply ins_sesion_done in Hins as (_ & -> & ->).
    exists e, u, others. split; [reflexivity |]. split; [exact Hu |].
    split; [exact Hc | reflexivity].
  - unfold sesiones_login. rewrite He, Hp. cbn [truthy negb orb].
    unfold try_catch, bind. simpl db_select. discriminate.
Qed.



Lemma existsb_app_last {A} (p : A -> bool) (l : list A) (x : A) :
  p x = true -> existsb p (l ++ [x]) = true.
Proof. intros Hx. rewrite existsb_app. cbn. rewrite Hx. apply orb_true_r. Qed.

(** A session that login has opened is closed by one logout with the
    [id_sesion] of the response, whenever it comes: the answer is 200 and the
    session has the time of the logout as its end. *)
Theorem login_then_logout :
  forall hash compare (req out : request) (s : Store) (t : Z),
    let E := cookshare hash compare in
    let r := fst (sesiones_login E req s) in
    let s1 := set_now t (snd (sesiones_login E req s)) in
    status r = 201 ->
    auto_increment (Sesiones s) <> 0 ->
    prop (body out) "id_sesion" = prop (json_obj r) "id_sesion" ->
    exists u,
      sesiones_logout E out s1
      = (sesion_cerrada, closed (auto_increment (Sesiones s)) s1)
      /\ In (cerrar t (sesion_nueva s u))
           (rows (Sesiones (closed (auto_increment (Sesiones s)) s1))).
Proof.
  intros hash compare req out s t E r s1 H201 Hk Hid. subst r s1 E.
  destruct (login_accepted hash compare req s H201) as (e & u & others & _ & _ & _ & Hrun).
  rewrite Hrun in *. cbn [fst snd] in *.
  change (prop (json_obj (sesion_iniciada (auto_increment (Sesiones s))
                            (Usuario.id_usuario u))) "id_sesion")
    with (JNum (auto_increment (Sesiones s))) in Hid.
  exists u. rewrite (logout_runs hash compare out _ _ Hid Hk).
  assert (Hopen : sesion_abierta (auto_increment (Sesiones s)) (sesion_nueva s u) = true).
  { unfold sesion_abierta, sesion_nueva. cbn. now rewrite Z.eqb_refl. }
  cbn [Sesiones set_now set_Sesiones push rows].
  rewrite (existsb_app_last _ _ _ Hopen). split; [reflexivity |].
  unfold closed, update_where, with_rows. cbn [Sesiones set_now set_Sesiones push rows now].
  rewrite map_app. apply in_or_app. right. cbn [map]. rewrite Hopen. now left.
Qed.

Lemma login_then_logout_witness :
  exists u,
    sesiones_logout api (logout 3)
      (set_now (installed + 60)
         (snd (sesiones_login api (login "eva@example.com" "secreto") seed_con_eva)))
    = (sesion_cerrada,
       closed (auto_increment (Sesiones seed_con_eva))
         (set_now (installed + 60)
            (snd (sesiones_login api (login "eva@example.com" "secreto") seed_con_eva))))
    /\ In (cerrar (installed + 60) (sesion_nueva seed_con_eva u))
         (rows (Sesiones
                  (closed (auto_increment (Sesiones seed_con_eva))
                     (set_now (installed + 60)
                        (snd (sesiones_login api (login "eva@example.com" "secreto")
                                seed_con_eva)))))).
Proof.
  apply (login_then_logout tag_hash tag_compare (login "eva@example.com" "secreto")
           (logout 3) seed_con_eva (installed + 60)).
  - reflexivity.
  - vm_compute. discriminate.
  - reflexivity.
Defined.

Lemma filter_none {A} (p : A -> bool) (l : list A) :
  (forall r, In r l -> p r = false) -> filter p l = [].
Proof.
  intros H. induction l as [| r l IH]; [reflexivity |]. cbn [filter].
  rewrite (H r (or_introl eq_refl)). apply IH. intros x Hx. apply H. now right.
Qed.

(** Register, then log in.  When [POST /api/usuarios] has answered 201 for
    an email that is a text, a login with that email in any letter case, and
    with a password that [bcrypt.compare] accepts against the hash made at
    the registration, is answered 201, whenever it comes: it opens a session
    for the user that the registration created. *)
Theorem register_then_login :
  forall hash compare (reg log : request) (s : Store) (e e' : string) (t : Z),
    let E := cookshare hash compare in
    let s1 := set_now t (snd (usuarios_post E reg s)) in
    status (fst (usuarios_post E reg s)) = 201 ->
    prop (body reg) "email" = JStr e ->
    prop (body log) "email" = JStr e' ->
    e' <> "" ->
    text_eqb e e' = true ->
    truthy (prop (body log) "contrasena") = true ->
    (forall h, hash (prop (body reg) "contrasena") saltRounds = inr h ->
               compare (prop (body log) "contrasena") (JStr h) = inr true) ->
    in_int (auto_increment (Usuarios s)) ->
    auto_increment (Sesiones s) <= int_max ->
    exists u,
      usuarios_con_email s1 e' = [u]
      /\ Usuario.id_usuario u = auto_increment (Usuarios s)
      /\ sesiones_login E log s1
         = (sesion_iniciada (auto_increment (Sesiones s)) (auto_increment (Usuarios s)),
            set_Sesiones (push (Sesiones s1) (sesion_nueva s1 u)) s1).
Proof.
  intros hash compare reg log s e e' t E s1 H201 Hreg Hlog Hne Hee Hp Hacc Hu Hs.
  subst E s1. rewrite usuarios_post_runs in *. cbv zeta in *.
  destruct (hash (prop (body reg) "contrasena") saltRounds) as [msg | h] eqn:Hh;
    [discriminate H201 |].
  destruct (ins_usuario s _ _ _ _) as [msg | [hd s']] eqn:Hins; [discriminate H201 |].
  cbn [fst snd] in *.
  apply ins_usuario_done in Hins
    as (n & e0 & h0 & t0 & _ & He0 & Hh0 & _ & Hnone & -> & ->).
  rewrite Hreg in He0. unfold col_varchar in He0, Hh0.
  apply col_text_of_text in He0, Hh0. subst e0 h0.
  set (u := {| Usuario.id_usuario := auto_increment (Usuarios s); Usuario.nombre := n;
               Usuario.email := e; Usuario.contrasena := h; Usuario.tipo_usuario := t0;
               Usuario.fecha_registro := Some (now s) |}).
  assert (Hfound : usuarios_con_email (set_now t (set_Usuarios (push (Usuarios s) u) s)) e'
                   = [u]).
  { unfold usuarios_con_email in *.
    cbn [Usuarios set_now set_Usuarios push rows]. rewrite filter_app.
    rewrite (filter_none _ (rows (Usuarios s))).
    - cbn [filter List.app]. change (Usuario.email u) with e. now rewrite Hee.
    - intros v Hv. apply not_true_is_false. intros Hve.
      rewrite text_eqb_sym in Hee. pose proof (text_eqb_trans _ _ _ Hve Hee) as Hv'.
      assert (Hin : In v (filter (fun u0 => text_eqb (Usuario.email u0) e)
                            (rows (Usuarios s)))) by (apply filter_In; now split).
      rewrite Hnone in Hin. exact Hin. }
  exists u. split; [exact Hfound |]. split; [reflexivity |].
  rewrite (login_runs hash compare log _ e' Hlog Hne Hp), Hfound.
  change (Usuario.contrasena u) with h. rewrite (Hacc h eq_refl).
  change (Usuario.id_usuario u) with (auto_increment (Usuarios s)).
  unfold ins_sesion, bind_err, written. rewrite (col_int_num _ _ Hu).
  cbn [Sesiones set_now set_Usuarios].
  rewrite (next_key_free _ Hs).
  assert (Href : references (Some (auto_increment (Usuarios s)))
                   (usuario_keys (set_now t (set_Usuarios (push (Usuarios s) u) s)))
                 = true).
  { apply references_in. unfold usuario_keys.
    cbn [Usuarios set_now set_Usuarios push rows]. rewrite map_app.
    apply in_or_app. right. now left. }
  rewrite Href. reflexivity.
Qed.

Lemma register_then_login_witness :
  exists u,
    usuarios_con_email (set_now (installed + 60) (snd (usuarios_post api eva seed)))
      "EVA@example.com" = [u]
    /\ Usuario.id_usuario u = auto_increment (Usuarios seed)
    /\ sesiones_login api (login "EVA@example.com" "secreto")
         (set_now (installed + 60) (snd (usuarios_post api eva seed)))
       = (sesion_iniciada (auto_increment (Sesiones seed)) (auto_increment (Usuarios seed)),
          set_Sesiones
            (push (Sesiones (set_now (installed + 60) (snd (usuarios_post api eva seed))))
               (sesion_nueva (set_now (installed + 60) (snd (usuarios_post api eva seed))) u))
            (set_now (installed + 60) (snd (usuarios_post api eva seed)))).
Proof.
  apply (register_then_login tag_hash tag_compare eva (login "EVA@example.com" "secreto")
           seed "eva@example.com" "EVA@example.com" (installed + 60)).
  - reflexivity.
  - reflexivity.
  - reflexivity.
  - discriminate.
  - reflexivity.
  - reflexivity.
  - intros h Hh. injection Hh as <-. reflexivity.
  - split; discriminate.
  - discriminate.
Defined.

(* ===================================================================== *)
(** * DELETE: what goes with a row and what keeps it *)
(* ===================================================================== *)

Lemma filter_deleted {A} (p : A -> bool) (l : list A) :
  filter p (filter (fun r => negb (p r)) l) = [].
Proof.
  induction l as [| r l IH]; [reflexivity |]. cbn [filter].
  destruct (p r) eqn:Hp; cbn [negb filter]; [exact IH |]. now rewrite Hp.
Qed.

(** After a DELETE by key that goes through, no row has the key. *)
Lemma deleted_rows (s s' : Store) (n : Z) (hd : header) :
  (write_rows (DelCategoria n) s = inr (hd, s') ->
     filter (fun c => Categoria.id_categoria c =? n) (rows (Categorias s')) = [])
  /\ (write_rows (DelReceta n) s = inr (hd, s') ->
        filter (fun r => Receta.id_receta r =? n) (rows (Recetas s')) = [])
  /\ (write_rows (DelIngrediente n) s = inr (hd, s') ->
        filter (fun i => Ingrediente.id_ingrediente i =? n) (rows (Ingredientes s')) = [])
  /\ (write_rows (DelPaso n) s = inr (hd, s') ->
        filter (fun p => Paso.id_paso p =? n) (rows (Pasos s')) = [])
  /\ (write_rows (DelValoracion n) s = inr (hd, s') ->
        filter (fun v => Valoracion.id_valoracion v =? n) (rows (Valoraciones s')) = [])
  /\ (write_rows (DelSuscripcion n) s = inr (hd, s') ->
        filter (fun x => Suscripcion.id_suscripcion x =? n) (rows (Suscripciones s')) = []).
Proof.
  repeat split; cbn [write_rows]; unfold_writes; cbv zeta;
    repeat outcome_case_eqn; intros H; try discriminate H; injection H as _ <-;
    cbn [Categorias Recetas Ingredientes Pasos Valoraciones Suscripciones
         set_Categorias set_Recetas set_Autores_Receta set_Ingredientes
         set_Receta_Ingrediente set_Pasos set_Valoraciones set_Suscripciones
         delete_where with_rows rows];
    try apply filter_deleted;
    apply existsb_false_none; now apply negb_true_iff.
Qed.

(** Runs a DELETE route and the GET by id that follows it. *)
Ltac delete_then_get :=
  unfold_routes; cbn [cookshare db_select db_write]; unfold mysql_write, mysql_select;
  match goal with
  | |- context [write_rows (?del ?n) ?s] =>
      let Hq := fresh "Hq" in
      let msg := fresh "msg" in
      let hd := fresh "hd" in
      let s' := fresh "s'" in
      destruct (write_rows (del n) s) as [msg | [hd s']] eqn:Hq; cbn [fst snd];
      [intros H; discriminate H
      | intros _; cbn [select_rows id by_id];
        destruct (deleted_rows s s' n hd) as (H1 & H2 & H3 & H4 & H5 & H6);
        first [rewrite (H1 Hq) | rewrite (H2 Hq) | rewrite (H3 Hq)
              | rewrite (H4 Hq) | rewrite (H5 Hq) | rewrite (H6 Hq)]]
  end; reflexivity.

(** A row that DELETE has removed is not found afterwards: when the DELETE
    route answers 200, the GET by the same id answers 404 with the message of
    its router. *)
Theorem deleted_is_not_found :
  forall hash compare (req : request) (s : Store),
    let E := cookshare hash compare in
    let n := by_id (id req) in
    (status (fst (categorias_delete E req s)) = 200 ->
       fst (categorias_get_id E n (snd (categorias_delete E req s)))
       = no_encontrado "Categoría no encontrada")
    /\ (status (fst (recetas_delete E req s)) = 200 ->
          fst (recetas_get_id E n (snd (recetas_delete E req s)))
          = no_encontrado "Receta no encontrada")
    /\ (status (fst (ingredientes_delete E req s)) = 200 ->
          fst (ingredientes_get_id E n (snd (ingredientes_delete E req s)))
          = no_encontrado "Ingrediente no encontrado")
    /\ (status (fst (pasos_delete E req s)) = 200 ->
          fst (pasos_get_id E n (snd (pasos_delete E req s)))
          = no_encontrado "Paso no encontrado")
    /\ (status (fst (valoraciones_delete E req s)) = 200 ->
          fst (valoraciones_get_id E n (snd (valoraciones_delete E req s)))
          = no_encontrado "Valoración no encontrada")
    /\ (status (fst (suscripciones_delete E req s)) = 200 ->
          fst (suscripciones_get_id E n (snd (suscripciones_delete E req s)))
          = no_encontrado "Suscripción no encontrada").
Proof.
  intros hash compare req s E n. subst E n.
  split; [| split; [| split; [| split; [| split]]]].
  - delete_then_get.
  - delete_then_get.
  - delete_then_get.
  - delete_then_get.
  - delete_then_get.
  - delete_then_get.
Qed.

Lemma deleted_is_not_found_witness :
  fst (pasos_get_id api (by_id 4) (snd (pasos_delete api (by_id 4) seed)))
  = no_encontrado "Paso no encontrado".
Proof.
  apply (proj1 (proj2 (proj2 (proj2
           (deleted_is_not_found tag_hash tag_compare (by_id 4) seed))))).
  reflexivity.
Defined.

Lemma row_with_key {A} (key : A -> Z) (n : Z) (l : list A) :
  In n (map key l) -> existsb (fun x => key x =? n) l = true.
Proof.
  intros Hn. apply in_map_iff in Hn as (x & Hx & Hin).
  apply existsb_exists. exists x. split; [exact Hin | now apply Z.eqb_eq].
Qed.

Lemma filter_other {A} (p q : A -> bool) (l : list A) :
  (forall r, p r = true -> q r = false) ->
  filter p (filter (fun r => negb (q r)) l) = filter p l.
Proof.
  intros H. induction l as [| r l IH]; [reflexivity |]. cbn [filter].
  destruct (q r) eqn:Hq; cbn [negb filter].
  - destruct (p r) eqn:Hp; [| exact IH]. rewrite (H r Hp) in Hq. discriminate.
  - now rewrite IH.
Qed.

Lemma cell_is_other c n m : n <> m -> cell_is c m = true -> cell_is c n = false.
Proof.
  destruct c as [k |]; cbn [cell_is]; [| discriminate].
  intros Hnm Hk. apply Z.eqb_eq in Hk. subst k. apply Z.eqb_neq. congruence.
Qed.

(** [ON DELETE CASCADE] from Recetas.  Deleting a recipe that exists is
    answered 200; afterwards the recipe has no steps and no ratings, while
    the steps and the ratings of every other recipe are listed as before, and
    no user and no category has gone. *)
Theorem recetas_delete_cascades :
  forall hash compare (req : request) (s : Store),
    let E := cookshare hash compare in
    let s' := snd (recetas_delete E req s) in
    In (id req) (receta_keys s) ->
    fst (recetas_delete E req s) = eliminado "mensaje" "Receta eliminada correctamente"
    /\ fst (pasos_get_receta E (by_id (id req)) s') = res_rows []
    /\ fst (valoraciones_get_receta E (by_id (id req)) s') = res_rows []
    /\ (forall m, m <> id req ->
          fst (pasos_get_receta E (by_id m) s') = fst (pasos_get_receta E (by_id m) s)
          /\ fst (valoraciones_get_receta E (by_id m) s')
             = fst (valoraciones_get_receta E (by_id m) s))
    /\ Usuarios s' = Usuarios s
    /\ Categorias s' = Categorias s.
Proof.
  intros hash compare req s E s' Hin. subst E s'.
  apply (row_with_key Receta.id_receta) in Hin.
  unfold recetas_delete, pasos_get_receta, valoraciones_get_receta, try_catch, bind, ret.
  cbn [cookshare db_select db_write]. unfold mysql_write, mysql_select.
  cbn [write_rows]. unfold del_receta, written. rewrite Hin. cbn [negb fst snd].
  cbn [select_rows id by_id Pasos Valoraciones Usuarios Categorias
       set_Recetas set_Autores_Receta set_Receta_Ingrediente set_Pasos set_Valoraciones
       delete_where with_rows rows].
  split; [reflexivity |].
  rewrite !filter_deleted. split; [reflexivity |]. split; [reflexivity |].
  split; [| split; reflexivity].
  intros m Hm.
  rewrite !filter_other; [split; reflexivity | |];
    intros r Hr; cbn beta; exact (cell_is_other _ _ _ (not_eq_sym Hm) Hr).
Qed.

Lemma recetas_delete_cascades_witness :
  fst (pasos_get_receta api (by_id 1) (snd (recetas_delete api (by_id 1) seed)))
  = res_rows [].
Proof.
  apply (recetas_delete_cascades tag_hash tag_compare (by_id 1) seed).
  simpl. left. reflexivity.
Defined.

(** Recetas.categoria_id and Recetas.autor_id have no ON DELETE rule.  A
    category that a recipe has, and a user who is the author of a recipe,
    are not deleted: the route answers 500 with the engine's message about
    the foreign key and the store is as it was. *)
Theorem rows_in_use_are_not_deleted :
  forall hash compare (req : request) (s : Store),
    let E := cookshare hash compare in
    (In (id req) (categoria_keys s) ->
     existsb (fun r => cell_is (Receta.categoria_id r) (id req)) (rows (Recetas s)) = true ->
     categorias_delete E req s
     = (res_error (fk_parent "Recetas" "1" "categoria_id" "Categorias" "id_categoria"), s))
    /\ (In (id req) (usuario_keys s) ->
        existsb (fun r => cell_is (Receta.autor_id r) (id req)) (rows (Recetas s)) = true ->
        usuarios_delete E req s
        = (res_error (fk_parent "Recetas" "2" "autor_id" "Usuarios" "id_usuario"), s)).
Proof.
  intros hash compare req s E. subst E.
  split; intros Hin Huse;
    [apply (row_with_key Categoria.id_categoria) in Hin
    | apply (row_with_key Usuario.id_usuario) in Hin];
    unfold categorias_delete, usuarios_delete, try_catch, bind, ret;
    cbn [cookshare db_write]; unfold mysql_write; cbn [write_rows];
    unfold del_categoria, del_usuario, bind_err, require;
    rewrite Hin, Huse; reflexivity.
Qed.

Lemma rows_in_use_are_not_deleted_witness :
  categorias_delete api (by_id 3) seed
  = (res_error (fk_parent "Recetas" "1" "categoria_id" "Categorias" "id_categoria"), seed).
Proof.
  apply (proj1 (rows_in_use_are_not_deleted tag_hash tag_compare (by_id 3) seed)).
  - simpl. right. right. left. reflexivity.
  - reflexivity.
Defined.



(* ===================================================================== *)
(** * Create, then read *)
(* ===================================================================== *)

(** With unique keys below the next key, the row pushed under the next key is
    the one row with that key. *)
Lemma filter_pushed {A} (key : A -> Z) (t : table A) (x : A) :
  keyed key t -> key x = auto_increment t ->
  filter (fun r => key r =? auto_increment t) (rows (push t x)) = [x].
Proof.
  intros [_ Hlt] Hx. unfold push. cbn [rows]. rewrite filter_app.
  rewrite filter_none.
  - cbn [filter List.app]. now rewrite Hx, Z.eqb_refl.
  - intros r Hr. apply Z.eqb_neq. specialize (Hlt (key r) (in_map key _ r Hr)). lia.
Qed.

(** Create, then read.  When [POST /api/categorias] has answered 201 for a
    name that is a text, on a table with unique keys, the response gives the
    new key as [id]; the GET by that id answers 200 with the key and the
    name, and the listing is the old one with this row at its end. *)
Theorem categorias_post_then_get :
  forall hash compare (req any : request) (s : Store) (x : string),
    let E := cookshare hash compare in
    let k := auto_increment (Categorias s) in
    let s' := snd (categorias_post E req s) in
    status (fst (categorias_post E req s)) = 201 ->
    prop (body req) "nombre" = JStr x ->
    keyed Categoria.id_categoria (Categorias s) ->
    fst (categorias_post E req s) = res_json 201 [("id", JNum k); ("nombre", JStr x)]
    /\ fst (categorias_get_id E (by_id k) s')
       = res_json 200 [("id_categoria", JNum k); ("nombre", JStr x)]
    /\ json_rows (fst (categorias_get E any s'))
       = json_rows (fst (categorias_get E any s))
         ++ [[("id_categoria", JNum k); ("nombre", JStr x)]].
Proof.
  intros hash compare req any s x E k s' H201 Hx Hk. subst E k s'.
  revert H201.
  unfold categorias_post, categorias_get_id, categorias_get, try_catch, bind, ret, reply.
  rewrite Hx. destruct (negb (truthy (JStr x))); [discriminate |].
  cbn [cookshare db_select db_write]. unfold mysql_write, mysql_select.
  cbn [write_rows]. unfold ins_categoria, bind_err, written.
  destruct (not_null "nombre" _) as [| n] eqn:Hn; [discriminate |].
  unfold col_varchar in Hn. apply col_text_of_text in Hn. subst n.
  destruct (next_key (Categorias s)) as [| key] eqn:Hkey; [discriminate |].
  apply next_key_value in Hkey. subst key. intros _.
  cbn [fst snd select_rows id by_id Categorias set_Categorias].
  split; [reflexivity |].
  rewrite (filter_pushed Categoria.id_categoria _ _ Hk); [| reflexivity].
  split; [reflexivity |].
  unfold push. cbn [rows res_rows json_rows json]. now rewrite !map_app.
Qed.

Lemma categorias_post_then_get_witness :
  fst (categorias_get_id api (by_id 10)
         (snd (categorias_post api (post [("nombre", JStr "Vegana")]) seed)))
  = res_json 200 [("id_categoria", JNum 10); ("nombre", JStr "Vegana")].
Proof.
  apply (categorias_post_then_get tag_hash tag_compare (post [("nombre", JStr "Vegana")])
           (by_id 0) seed "Vegana").
  - reflexivity.
  - reflexivity.
  - exact (proj1 (proj2 seed_keyed)).
Defined.

(** What an INSERT into Recetas that goes through has done. *)
Lemma ins_receta_done s a b c d e f g h hd s' :
  ins_receta s a b c d e f g h = inr (hd, s') ->
  exists r,
    s' = set_Recetas (push (Recetas s) r) s
    /\ Receta.id_receta r = auto_increment (Recetas s)
    /\ not_null "titulo" (col_varchar 150 "titulo" a) = inr (Receta.titulo r)
    /\ col_int "categoria_id" g = inr (Receta.categoria_id r)
    /\ col_int "autor_id" h = inr (Receta.autor_id r)
    /\ references (Receta.categoria_id r) (categoria_keys s) = true
    /\ references (Receta.autor_id r) (usuario_keys s) = true.
Proof.
  unfold ins_receta, bind_err, written, require; repeat outcome_case_eqn;
    intros H; try discriminate H; injection H as _ <-.
  eexists. split; [reflexivity |]. now repeat split.
Qed.

Lemma recetas_post_runs hash compare req s :
  let f := prop (body req) in
  status (fst (recetas_post (cookshare hash compare) req s)) = 201 ->
  exists hd,
    ins_receta s (f "titulo") (f "descripcion") (f "tiempo_preparacion") (f "costo")
      (f "es_publica") (f "es_premium") (f "categoria_id") (f "autor_id")
    = inr (hd, snd (recetas_post (cookshare hash compare) req s)).
Proof.
  intros f. unfold recetas_post, try_catch, bind, ret.
  cbn [cookshare db_write]. unfold mysql_write. cbn [write_rows]. fold f.
  destruct (ins_receta s _ _ _ _ _ _ _ _) as [msg | [hd s']]; [discriminate |].
  intros _. now exists hd.
Qed.

Lemma receta_joined_pushed s t x :
  receta_joined (set_Recetas t s) x = receta_joined s x.
Proof. reflexivity. Qed.

Lemma col_int_null col v :
  v = JUndefined \/ v = JNull -> col_int col v = inr None.
Proof. intros [-> | ->]; reflexivity. Qed.

(** A recipe without a category or without an author is stored and never
    shown.  When [POST /api/recetas] has answered 201 for a body whose
    [categoria_id] or [autor_id] is absent or null, the recipe is in the
    table under the next key, the GET by that key answers 404 and the
    listing is what it was before. *)
Theorem recipe_without_category_or_author_is_hidden :
  forall hash compare (req any : request) (s : Store),
    let E := cookshare hash compare in
    let k := auto_increment (Recetas s) in
    let s' := snd (recetas_post E req s) in
    let absent := fun v => v = JUndefined \/ v = JNull in
    status (fst (recetas_post E req s)) = 201 ->
    absent (prop (body req) "categoria_id") \/ absent (prop (body req) "autor_id") ->
    keyed Receta.id_receta (Recetas s) ->
    receta_keys s' = receta_keys s ++ [k]
    /\ fst (recetas_get_id E (by_id k) s') = no_encontrado "Receta no encontrada"
    /\ fst (recetas_get E any s') = fst (recetas_get E any s).
Proof.
  intros hash compare req any s E k s' absent H201 Habs Hk. subst E k s' absent.
  destruct (recetas_post_runs hash compare req s H201) as [hd Hins].
  apply ins_receta_done in Hins as (r & -> & Hid & _ & Hc & Ha & _ & _).
  assert (Hnone : receta_joined s r = []).
  { unfold receta_joined. destruct Habs as [Habs | Habs].
    - rewrite (col_int_null _ _ Habs) in Hc. injection Hc as <-.
      rewrite (filter_none _ (rows (Categorias s))); reflexivity.
    - rewrite (col_int_null _ _ Habs) in Ha. injection Ha as <-.
      rewrite (filter_none _ (rows (Usuarios s))); [| reflexivity].
      cbn [map]. induction (filter _ _) as [| c l IH]; [reflexivity | exact IH]. }
  unfold recetas_get_id, recetas_get, try_catch, bind, ret.
  cbn [cookshare db_select]. unfold mysql_select.
  cbn [fst snd select_rows id by_id]. unfold receta_keys.
  cbn [Recetas set_Recetas].
  rewrite (filter_pushed Receta.id_receta _ _ Hk Hid). cbn [flat_map].
  rewrite receta_joined_pushed, Hnone.
  split; [| split; [reflexivity |]].
  - unfold push. cbn [rows]. rewrite map_app. cbn [map]. now rewrite Hid.
  - unfold push. cbn [rows]. rewrite flat_map_app. cbn [flat_map].
    rewrite receta_joined_pushed, Hnone, !app_nil_r.
    reflexivity.
Qed.

Lemma recipe_without_category_or_author_is_hidden_witness :
  fst (recetas_get_id api (by_id 13)
         (snd (recetas_post api (post [("titulo", JStr "Flan")]) seed)))
  = no_encontrado "Receta no encontrada".
Proof.
  apply (recipe_without_category_or_author_is_hidden tag_hash tag_compare
           (post [("titulo", JStr "Flan")]) (by_id 0) seed).
  - reflexivity.
  - left. left. reflexivity.
  - exact (proj1 seed_keyed).
Defined.

Lemma col_int_of_num col n c : col_int col (JNum n) = inr c -> c = Some n.
Proof.
  unfold col_int, col_ranged. destruct ((int_min <=? n) && (n <=? int_max)); congruence.
Qed.

Lemma referenced_row {A} (key : A -> Z) (n : Z) (l : list A) :
  references (Some n) (map key l) = true -> exists x, In x l /\ key x = n.
Proof.
  cbn [references]. intros H. apply existsb_exists in H as (k & Hk & Hnk).
  apply Z.eqb_eq in Hnk. subst k. apply in_map_iff in Hk as (x & Hx & Hin).
  now exists x.
Qed.

(** Create a recipe, then read it.  When [POST /api/recetas] has answered
    201 for a title that is a text and a category and an author given as
    numbers, on tables with unique keys, that category and that author
    exist, and the GET by the new key answers 200 with the row of the
    recipe: its key, its title, the name of the category and the name of
    the author; the listing is the old one with this row at its end. *)
Theorem recetas_post_then_get :
  forall hash compare (req any : request) (s : Store) (t : string) (c a : Z),
    let E := cookshare hash compare in
    let k := auto_increment (Recetas s) in
    let s' := snd (recetas_post E req s) in
    status (fst (recetas_post E req s)) = 201 ->
    prop (body req) "titulo" = JStr t ->
    prop (body req) "categoria_id" = JNum c ->
    prop (body req) "autor_id" = JNum a ->
    store_keyed s ->
    exists cat usr row,
      In cat (rows (Categorias s)) /\ Categoria.id_categoria cat = c
      /\ In usr (rows (Usuarios s)) /\ Usuario.id_usuario usr = a
      /\ fst (recetas_get_id E (by_id k) s') = res_json 200 row
      /\ prop row "id_receta" = JNum k
      /\ prop row "titulo" = JStr t
      /\ prop row "categoria" = JStr (Categoria.nombre cat)
      /\ prop row "autor" = JStr (Usuario.nombre usr)
      /\ json_rows (fst (recetas_get E any s'))
         = json_rows (fst (recetas_get E any s)) ++ [stringify_obj row].
Proof.
  intros hash compare req any s t c a E k s' H201 Ht Hc Ha Hkeyed. subst E k s'.
  destruct (recetas_post_runs hash compare req s H201) as [hd Hins].
  apply ins_receta_done in Hins as (r & -> & Hid & Htit & Hcid & Haid & Hcref & Haref).
  rewrite Ht in Htit. unfold col_varchar in Htit. apply col_text_of_text in Htit.
  rewrite Hc in Hcid. apply col_int_of_num in Hcid.
  rewrite Ha in Haid. apply col_int_of_num in Haid.
  rewrite Hcid in Hcref. rewrite Haid in Haref.
  apply referenced_row in Hcref as (cat & Hcat & Hcatid).
  apply referenced_row in Haref as (usr & Husr & Husrid).
  assert (Hone : receta_joined s r = [receta_row r cat usr]).
  { assert (Hin : In (receta_row r cat usr) (receta_joined s r)).
    { apply in_receta_joined. exists cat, usr. rewrite Hcid, Haid, Hcatid, Husrid.
      now repeat split. }
    destruct (receta_joined_at_most_one s r (store_keyed_unique s Hkeyed))
      as [Hnone | (c' & u' & Hsome)]; rewrite ?Hnone, ?Hsome in *; [destruct Hin |].
    destruct Hin as [<- | []]. reflexivity. }
  exists cat, usr, (receta_row r cat usr).
  unfold recetas_get_id, recetas_get, try_catch, bind, ret.
  cbn [cookshare db_select]. unfold mysql_select.
  cbn [fst snd select_rows id by_id Recetas set_Recetas].
  rewrite (filter_pushed Receta.id_receta _ _ (proj1 Hkeyed) Hid). cbn [flat_map].
  rewrite receta_joined_pushed, Hone.
  repeat (split; [first [assumption | reflexivity] |]).
  split; [cbn; now rewrite Hid |].
  split; [cbn; now rewrite Htit |].
  split; [reflexivity |]. split; [reflexivity |].
  unfold push. cbn [rows]. rewrite flat_map_app. cbn [flat_map].
  rewrite receta_joined_pushed, Hone.
  cbn [res_rows json_rows json]. rewrite map_app. reflexivity.
Qed.

Lemma recetas_post_then_get_witness :
  exists cat usr row,
    In cat (rows (Categorias seed)) /\ Categoria.id_categoria cat = 4
    /\ In usr (rows (Usuarios seed)) /\ Usuario.id_usuario usr = 2
    /\ fst (recetas_get_id api (by_id (auto_increment (Recetas seed)))
              (snd (recetas_post api
                      (post [("titulo", JStr "Flan"); ("categoria_id", JNum 4);
                             ("autor_id", JNum 2)]) seed)))
       = res_json 200 row
    /\ prop row "id_receta" = JNum (auto_increment (Recetas seed))
    /\ prop row "titulo" = JStr "Flan"
    /\ prop row "categoria" = JStr (Categoria.nombre cat)
    /\ prop row "autor" = JStr (Usuario.nombre usr)
    /\ json_rows (fst (recetas_get api (by_id 0)
                         (snd (recetas_post api
                                 (post [("titulo", JStr "Flan"); ("categoria_id", JNum 4);
                                        ("autor_id", JNum 2)]) seed))))
       = json_rows (fst (recetas_get api (by_id 0) seed)) ++ [stringify_obj row].
Proof.
  apply (recetas_post_then_get tag_hash tag_compare
           (post [("titulo", JStr "Flan"); ("categoria_id", JNum 4); ("autor_id", JNum 2)])
           (by_id 0) seed "Flan" 4 2).
  - reflexivity.
  - reflexivity.
  - reflexivity.
  - reflexivity.
  - exact seed_keyed.
Defined.

(* ===================================================================== *)
(** * ORDER BY in the listings *)
(* ===================================================================== *)

Section OrderBy.
Context {A : Type} (le : A -> A -> bool).
Hypothesis le_total : forall x y, le x y = false -> le y x = true.

Lemma insert_by_permutation (x : A) (l : list A) :
  Permutation (insert_by le x l) (x :: l).
Proof.
  induction l as [| y l IH]; [reflexivity |]. cbn [insert_by].
  destruct (le y x); [| reflexivity].
  rewrite IH. apply perm_swap.
Qed.

Lemma insert_by_sorted (x : A) (l : list A) :
  Sorted (fun a b => le a b = true) l ->
  Sorted (fun a b => le a b = true) (insert_by le x l).
Proof.
  induction l as [| y l IH]; intros Hl; cbn [insert_by].
  - repeat constructor.
  - apply Sorted_inv in Hl as [Hl Hy]. destruct (le y x) eqn:Hyx.
    + constructor; [exact (IH Hl) |].
      destruct l as [| z l]; cbn [insert_by]; [now repeat constructor |].
      apply HdRel_inv in Hy. destruct (le z x); now constructor.
    + constructor; [now constructor |]. constructor. exact (le_total y x Hyx).
Qed.

Lemma order_by_from (l acc : list A) :
  Sorted (fun a b => le a b = true) acc ->
  Sorted (fun a b => le a b = true) (fold_left (fun acc x => insert_by le x acc) l acc)
  /\ Permutation (fold_left (fun acc x => insert_by le x acc) l acc) (acc ++ l).
Proof.
  revert acc. induction l as [| x l IH]; intros acc Hacc; cbn [fold_left].
  - rewrite app_nil_r. now split.
  - destruct (IH _ (insert_by_sorted x acc Hacc)) as [Hs Hp]. split; [exact Hs |].
    rewrite Hp, insert_by_permutation. cbn [List.app]. apply Permutation_middle.
Qed.

Lemma order_by_sorted (l : list A) :
  Sorted (fun a b => le a b = true) (order_by le l) /\ Permutation (order_by le l) l.
Proof. apply (order_by_from l []). constructor. Qed.

End OrderBy.

Lemma asc_total a b : asc a b = false -> asc b a = true.
Proof.
  destruct a as [x |], b as [y |]; cbn [asc]; try discriminate; try reflexivity.
  rewrite Z.leb_gt, Z.leb_le. lia.
Qed.

Lemma asc_trans a b c : asc a b = true -> asc b c = true -> asc a c = true.
Proof.
  destruct a as [x |], b as [y |], c as [z |]; cbn [asc]; try discriminate; try reflexivity.
  rewrite !Z.leb_le. lia.
Qed.

(** [ORDER BY numero_paso].  The steps of a recipe come as the rows of the
    Pasos table that have the recipe's id, each once, in ascending order of
    their number: every step is numbered at most as high as every step after
    it, a step without number before the numbered ones. *)
Theorem pasos_get_receta_in_order :
  forall hash compare (req : request) (s : Store),
    exists steps,
      pasos_get_receta (cookshare hash compare) req s = (res_rows (map paso_row steps), s)
      /\ Permutation steps
           (filter (fun p => cell_is (Paso.id_receta p) (id req)) (rows (Pasos s)))
      /\ StronglySorted paso_antes steps.
Proof.
  intros hash compare req s.
  set (le := fun a b => asc (Paso.numero_paso a) (Paso.numero_paso b)).
  exists (order_by le (filter (fun p => cell_is (Paso.id_receta p) (id req))
                         (rows (Pasos s)))).
  destruct (order_by_sorted le (fun x y => asc_total _ _)
              (filter (fun p => cell_is (Paso.id_receta p) (id req)) (rows (Pasos s))))
    as [Hs Hp].
  split; [reflexivity |]. split; [exact Hp |].
  apply Sorted_StronglySorted; [| exact Hs].
  intros a b c. apply asc_trans.
Qed.

(** How [GET /api/valoraciones/receta/:id_receta] runs over the schema: the
    ratings of the recipe are ordered, then joined with their users. *)
Lemma valoraciones_get_receta_runs hash compare req s :
  valoraciones_get_receta (cookshare hash compare) req s
  = (res_rows
       (flat_map (valoracion_con_usuario s)
          (order_by valoracion_despues
             (filter (fun v => cell_is (Valoracion.id_receta v) (id req))
                (rows (Valoraciones s))))), s).
Proof. reflexivity. Qed.

(** [ORDER BY v.fecha_valoracion DESC].  The ratings of a recipe come as the
    rows of the Valoraciones table that have the recipe's id, newest first:
    every rating is at least as recent as every rating after it, and each
    comes with the name of its user, or not at all when no user has its
    [id_usuario]. *)
Theorem valoraciones_get_receta_newest_first :
  forall hash compare (req : request) (s : Store),
    exists ratings,
      valoraciones_get_receta (cookshare hash compare) req s
      = (res_rows (flat_map (valoracion_con_usuario s) ratings), s)
      /\ Permutation ratings
           (filter (fun v => cell_is (Valoracion.id_receta v) (id req))
              (rows (Valoraciones s)))
      /\ StronglySorted (fun a b => valoracion_despues a b = true) ratings.
Proof.
  intros hash compare req s.
  exists (order_by valoracion_despues
            (filter (fun v => cell_is (Valoracion.id_receta v) (id req))
               (rows (Valoraciones s)))).
  destruct (order_by_sorted valoracion_despues (fun x y => asc_total _ _)
              (filter (fun v => cell_is (Valoracion.id_receta v) (id req))
                 (rows (Valoraciones s))))
    as [Hs Hp].
  split; [apply valoraciones_get_receta_runs |]. split; [exact Hp |].
  apply Sorted_StronglySorted; [| exact Hs].
  intros a b c Hab Hbc. unfold valoracion_despues, desc in *.
  exact (asc_trans _ _ _ Hbc Hab).
Qed.

(* ===================================================================== *)
(** * Falsy fields and the columns an update leaves alone *)
(* ===================================================================== *)

(** [!x] takes the number 0 for a missing field.  A step numbered 0, a
    rating with the score 0 and a subscription with the amount 0 are
    answered 400, on create and on update, by any pool and before any
    statement: the state of the engine is as it was. *)
Theorem zero_is_taken_for_missing :
  forall (S : Type) (E : Env S) (req : request) (s : S),
    (prop (body req) "numero_paso" = JNum 0 ->
       pasos_post E req s
       = (requerido "id_receta, numero_paso y descripcion son requeridos", s)
       /\ pasos_put E req s = (requerido "numero_paso y descripcion son requeridos", s))
    /\ (prop (body req) "puntuacion" = JNum 0 ->
          valoraciones_post E req s
          = (requerido "id_receta, id_usuario y puntuacion son requeridos", s)
          /\ valoraciones_put E req s = (requerido "La puntuacion es requerida", s))
    /\ (prop (body req) "monto" = JNum 0 ->
          suscripciones_post E req s
          = (requerido "id_usuario, fecha_fin y monto son requeridos", s)
          /\ suscripciones_put E req s = (requerido "fecha_fin y monto son requeridos", s)).
Proof.
  intros S E req s.
  split; [| split]; intros H0; unfold_routes; rewrite H0; cbn [truthy Z.eqb negb];
    rewrite ?orb_true_r; cbn [orb]; split; reflexivity.
Qed.

Lemma zero_is_taken_for_missing_witness :
  suscripciones_post api
    (post [("id_usuario", JNum 1); ("fecha_fin", JStr "2030-01-01"); ("monto", JNum 0)])
    seed
  = (requerido "id_usuario, fecha_fin y monto son requeridos", seed).
Proof.
  apply (proj2 (proj2 (zero_is_taken_for_missing Store api
           (post [("id_usuario", JNum 1); ("fecha_fin", JStr "2030-01-01");
                  ("monto", JNum 0)]) seed))).
  reflexivity.
Defined.

Lemma update_keeps {A B} (key : A -> B) (p : A -> bool) (g : A -> A) (t : table A) :
  (forall r, key (g r) = key r) ->
  map key (rows (update_where p g t)) = map key (rows t).
Proof.
  intros Hg. unfold update_where, with_rows. cbn [rows]. rewrite map_map.
  apply map_ext. intros r. now destruct (p r).
Qed.

Ltac update_kept :=
  cbn [write_rows]; unfold_writes; cbv zeta;
  repeat outcome_case_eqn; intros H; try discriminate H; injection H as _ <-;
  cbn [Usuarios Pasos Valoraciones Suscripciones
       set_Usuarios set_Pasos set_Valoraciones set_Suscripciones];
  try reflexivity; apply update_keeps; reflexivity.

Lemma updates_keep s s' hd n a b c d :
  (write_rows (UpdPaso a b n) s = inr (hd, s') ->
     map paso_fijo (rows (Pasos s')) = map paso_fijo (rows (Pasos s)))
  /\ (write_rows (UpdValoracion a b n) s = inr (hd, s') ->
        map valoracion_fija (rows (Valoraciones s'))
        = map valoracion_fija (rows (Valoraciones s)))
  /\ (write_rows (UpdSuscripcion a b n) s = inr (hd, s') ->
        map suscripcion_fija (rows (Suscripciones s'))
        = map suscripcion_fija (rows (Suscripciones s)))
  /\ (write_rows (UpdUsuario a b c n) s = inr (hd, s') ->
        map usuario_fijo (rows (Usuarios s')) = map usuario_fijo (rows (Usuarios s)))
  /\ (write_rows (UpdUsuarioContrasena a b c d n) s = inr (hd, s') ->
        map usuario_fijo (rows (Usuarios s')) = map usuario_fijo (rows (Usuarios s))).
Proof. repeat split; update_kept. Qed.

(** Runs a PUT route: refused before or by the engine, or one UPDATE. *)
Ltac run_put hash :=
  unfold_routes; cbn [cookshare db_select db_write bcrypt_hash];
  unfold mysql_write; set (W := write_rows);
  repeat match goal with
    | |- context [W ?q ?s] =>
        let H := fresh "Hq" in
        destruct (W q s) as [? | [? ?]] eqn:H; cbn [fst snd]
    | |- context [hash ?d ?n] => destruct (hash d n); cbn [fst snd]
    | |- context [if ?b then _ else _] => destruct b; cbn [fst snd]
    end;
  try reflexivity;
  match goal with
  | Hq : W _ ?s = inr (?hd, ?s') |- _ =>
      subst W; first
        [ exact (proj1 (updates_keep s s' hd _ _ _ JNull JNull) Hq)
        | exact (proj1 (proj2 (updates_keep s s' hd _ _ _ JNull JNull)) Hq)
        | exact (proj1 (proj2 (proj2 (updates_keep s s' hd _ _ _ JNull JNull))) Hq)
        | exact (proj1 (proj2 (proj2 (proj2 (updates_keep s s' hd _ _ _ _ JNull)))) Hq)
        | exact (proj2 (proj2 (proj2 (proj2 (updates_keep s s' hd _ _ _ _ _)))) Hq) ]
  end.

(** What an update never touches.  Whatever the body holds, [PUT] on a
    step leaves every step with its recipe, on a rating leaves every rating
    with its recipe, its user and its date, on a subscription leaves every
    subscription with its user and its start, and on a user leaves every
    user with the date of registration; no row is added or removed and no
    key changes. *)
Theorem put_never_moves_a_row :
  forall hash compare (req : request) (s : Store),
    let E := cookshare hash compare in
    map paso_fijo (rows (Pasos (snd (pasos_put E req s))))
    = map paso_fijo (rows (Pasos s))
    /\ map valoracion_fija (rows (Valoraciones (snd (valoraciones_put E req s))))
       = map valoracion_fija (rows (Valoraciones s))
    /\ map suscripcion_fija (rows (Suscripciones (snd (suscripciones_put E req s))))
       = map suscripcion_fija (rows (Suscripciones s))
    /\ map usuario_fijo (rows (Usuarios (snd (usuarios_put E req s))))
       = map usuario_fijo (rows (Usuarios s)).
Proof.
  intros hash compare req s E. subst E.
  split; [| split; [| split]]; run_put hash.
Qed.

(* ===================================================================== *)
(** * The response of a create *)
(* ===================================================================== *)

Lemma prop_set_prop (o : obj) (k k' : string) (v : jsval) :
  prop (set_prop o k v) k' = if String.eqb k' k then v else prop o k'.
Proof.
  induction o as [| [k0 v0] o IH]; [reflexivity |]. cbn [set_prop].
  destruct (String.eqb_spec k k0) as [<- | Hk]; cbn [prop].
  - now destruct (String.eqb k' k).
  - rewrite IH. destruct (String.eqb_spec k' k0) as [-> | _]; [| reflexivity].
    destruct (String.eqb_spec k0 k) as [<- | _]; [contradiction | reflexivity].
Qed.

Lemma prop_spread_other (o base : obj) (k : string) :
  ~ In k (map fst o) -> prop (spread base o) k = prop base k.
Proof.
  unfold spread. revert base. induction o as [| [k0 v0] o IH]; intros base Hk; [reflexivity |].
  cbn [fold_left fst snd]. cbn [map fst In] in Hk.
  rewrite IH by tauto. rewrite prop_set_prop.
  destruct (String.eqb_spec k k0) as [-> | _]; [tauto | reflexivity].
Qed.

Lemma prop_spread (o base : obj) (k : string) (v : jsval) :
  NoDup (map fst o) -> In (k, v) o -> prop (spread base o) k = v.
Proof.
  revert base. induction o as [| [k0 v0] o IH]; intros base Hnd Hin; [destruct Hin |].
  cbn [map fst] in Hnd. apply NoDup_cons_iff in Hnd as [Hk0 Hnd].
  destruct Hin as [Heq | Hin].
  - injection Heq as -> ->.
    change (spread base ((k, v) :: o)) with (spread (set_prop base k v) o).
    rewrite (prop_spread_other o _ k Hk0), prop_set_prop. now rewrite String.eqb_refl.
  - exact (IH (set_prop base k0 v0) Hnd Hin).
Qed.

Lemma prop_stringify (o : obj) (k : string) (v : jsval) :
  prop o k = v -> v <> JUndefined -> prop (stringify_obj o) k = v.
Proof.
  intros Hv Hdef. unfold stringify_obj.
  induction o as [| [k0 v0] o IH]; [now cbn in * |].
  cbn [prop] in Hv. cbn [filter snd].
  destruct (String.eqb_spec k k0) as [<- | Hk].
  - subst v0. destruct v; try contradiction; cbn [is_undefined negb prop];
      now rewrite String.eqb_refl.
  - destruct (negb (is_undefined v0)); [| exact (IH Hv)].
    cbn [prop]. destruct (String.eqb_spec k k0) as [-> | _]; [contradiction | exact (IH Hv)].
Qed.

Lemma spread_echoes (code : Z) (k : string) (key : Z) (b : obj) :
  NoDup (map fst b) -> echoes (res_json code (spread [(k, JNum key)] b)) k key b.
Proof.
  intros Hnd. unfold echoes, res_json, json_obj. cbn [json]. split.
  - intros f v Hin Hv. apply prop_stringify; [| exact Hv]. now apply prop_spread.
  - intros Hk. apply prop_stringify; [| discriminate].
    rewrite (prop_spread_other b _ k Hk). cbn [prop]. now rewrite String.eqb_refl.
Qed.

(** Runs a create route whose response spreads the body. *)
Ltac run_post E Hnd :=
  unfold_routes;
  repeat match goal with
    | |- context [if ?b then _ else _] => destruct b; [discriminate |]
    end;
  match goal with
  | |- context [db_write E ?q ?s] =>
      destruct (db_write E q s) as [[msg | hd] s']; cbn [fst snd]; [discriminate |];
      intros _; exists hd; split; [reflexivity | exact (spread_echoes _ _ _ _ Hnd)]
  end.

(** [{ id: result.insertId, ...req.body }].  When a create of a recipe, a
    step, a rating or a subscription is answered 201, by any pool, the
    response repeats every field of the body as it came, known to the table
    or not; it gives the key that the pool returned, as [id_receta] for a
    recipe and as [id] for the others, unless the body has a field of that
    name: then the response shows the body's value in place of the key. *)
Theorem created_response_echoes_the_body :
  forall (S : Type) (E : Env S) (req : request) (s : S),
    let f := prop (body req) in
    NoDup (map fst (body req)) ->
    (status (fst (recetas_post E req s)) = 201 ->
       exists hd,
         fst (db_write E (InsReceta (f "titulo") (f "descripcion") (f "tiempo_preparacion")
                            (f "costo") (f "es_publica") (f "es_premium")
                            (f "categoria_id") (f "autor_id")) s) = inr hd
         /\ echoes (fst (recetas_post E req s)) "id_receta" (insertId hd) (body req))
    /\ (status (fst (pasos_post E req s)) = 201 ->
          exists hd,
            fst (db_write E (InsPaso (f "id_receta") (f "numero_paso") (f "descripcion")) s)
            = inr hd
            /\ echoes (fst (pasos_post E req s)) "id" (insertId hd) (body req))
    /\ (status (fst (valoraciones_post E req s)) = 201 ->
          exists hd,
            fst (db_write E (InsValoracion (f "id_receta") (f "id_usuario")
                               (f "puntuacion") (f "comentario")) s) = inr hd
            /\ echoes (fst (valoraciones_post E req s)) "id" (insertId hd) (body req))
    /\ (status (fst (suscripciones_post E req s)) = 201 ->
          exists hd,
            fst (db_write E (InsSuscripcion (f "id_usuario") (f "fecha_fin") (f "monto")) s)
            = inr hd
            /\ echoes (fst (suscripciones_post E req s)) "id" (insertId hd) (body req)).
Proof.
  intros S E req s f Hnd. subst f.
  split; [| split; [| split]]; run_post E Hnd.
Qed.

Lemma created_response_echoes_the_body_witness :
  exists hd,
    fst (db_write api (InsPaso (JNum 1) (JNum 4) (JStr "Servir")) seed) = inr hd
    /\ echoes
         (fst (pasos_post api
                 (post [("id", JNum 999); ("id_receta", JNum 1); ("numero_paso", JNum 4);
                        ("descripcion", JStr "Servir")]) seed))
         "id" (insertId hd)
         [("id", JNum 999); ("id_receta", JNum 1); ("numero_paso", JNum 4);
          ("descripcion", JStr "Servir")].
Proof.
  assert (Hnd : NoDup (map fst [("id", JNum 999); ("id_receta", JNum 1);
                                 ("numero_paso", JNum 4); ("descripcion", JStr "Servir")])).
  { repeat constructor; cbn; intuition discriminate. }
  apply (proj1 (proj2 (created_response_echoes_the_body Store api
           (post [("id", JNum 999); ("id_receta", JNum 1); ("numero_paso", JNum 4);
                  ("descripcion", JStr "Servir")]) seed Hnd))).
  reflexivity.
Defined.

(* ===================================================================== *)
(** * Search terms with operators *)
(* ===================================================================== *)

(** The search over a store with unique keys, for any pattern: the recipes
    one of whose joined rows passes the WHERE clause, each with its joined
    row, in the order of the table. *)
Lemma buscar_any s p :
  keys_unique s ->
  buscar s p p
  = flat_map (fun r => if existsb (buscar_where p p r) (receta_ingredientes s r)
                       then receta_joined s r else [])
      (rows (Recetas s)).
Proof.
  intros Hk. rewrite buscar_is_distinct_blocks.
  destruct Hk as (Hr & Hcu). unfold receta_keys in Hr.
  assert (Hj := fun r => receta_joined_at_most_one s r (conj Hr Hcu)).
  induction (rows (Recetas s)) as [| r l IH]; [reflexivity |].
  cbn [map] in Hr. apply NoDup_cons_iff in Hr as [Hr Hl].
  cbn [flat_map]. rewrite <- (IH Hl).
  unfold buscar_block at 1.
  destruct (Hj r) as [-> | (c & u & ->)].
  - cbn [flat_map List.app]. now destruct (existsb _ _).
  - cbn [flat_map]. rewrite app_nil_r, flat_map_run, distinct_run.
    destruct (List.length (filter _ (receta_ingredientes s r))) as [| n] eqn:Hn.
    + apply filter_length_zero in Hn. now rewrite Hn.
    + assert (Hex : existsb (buscar_where p p r) (receta_ingredientes s r) = true).
      { destruct (existsb _ _) eqn:He; [reflexivity |].
        apply filter_length_zero in He. congruence. }
      rewrite Hex. cbn [List.app]. f_equal. apply filter_all.
      intros row Hrow. apply distinct_incl, in_flat_map in Hrow as (r' & Hr' & Hrow).
      apply block_key in Hrow. apply negb_true_iff.
      apply (different_key_not_same r c u row (Receta.id_receta r') Hrow).
      intros Heq. apply Hr. rewrite <- Heq. now apply in_map.
Qed.

Lemma like_all_percent p s :
  forallb (Ascii.eqb "%") p = true -> p <> [] -> like_chars p s = true.
Proof.
  induction p as [| c p IH]; intros Hp Hne; [contradiction |].
  cbn [forallb] in Hp. apply andb_true_iff in Hp as [Hc Hp].
  apply Ascii.eqb_eq in Hc. subst c.
  destruct p as [| c p]; [apply like_percent_only |].
  rewrite like_percent, IH; [reflexivity | exact Hp | discriminate].
Qed.

(** A term of [%] only finds everything.  Over tables with unique keys,
    the search for a term made of the LIKE operator [%] answers what the
    listing of the recipes answers: every recipe that has a category and an
    author, once, in the order of the table. *)
Theorem search_for_percent_lists_every_recipe :
  forall hash compare (req any : request) (s : Store),
    let E := cookshare hash compare in
    solo_comodines (termino req) = true ->
    keys_unique s ->
    recetas_buscar E req s = recetas_get E any s.
Proof.
  intros hash compare req any s E Ht Hk. subst E.
  unfold recetas_buscar, recetas_get, try_catch. cbv zeta. unfold bind, ret.
  simpl db_select. unfold mysql_select. cbn [select_rows].
  change (String "%" (termino req ++ "%")) with ("%" ++ termino req ++ "%")%string.
  rewrite (buscar_any s _ Hk). do 2 f_equal.
  apply flat_map_ext. intros r.
  destruct (receta_ingredientes_inhabited s r) as [o Ho].
  assert (Hex : existsb (buscar_where ("%" ++ termino req ++ "%")
                           ("%" ++ termino req ++ "%") r) (receta_ingredientes s r)
                = true); [| now rewrite Hex].
  apply existsb_exists. exists o. split; [exact Ho |].
  unfold buscar_where, like. rewrite !chars_append.
  rewrite like_all_percent; [reflexivity | | discriminate].
  unfold solo_comodines in Ht. cbn [chars list_ascii_of_string List.app forallb].
  rewrite forallb_app, Ht. reflexivity.
Qed.

Lemma search_for_percent_lists_every_recipe_witness :
  recetas_buscar api (buscar_termino "%") seed = recetas_get api (by_id 0) seed.
Proof.
  apply (search_for_percent_lists_every_recipe tag_hash tag_compare
           (buscar_termino "%") (by_id 0) seed).
  - reflexivity.
  - exact seed_keys_unique.
Defined.
